(** * A Quick COVID-19 Data Analysis: the cleaning and back-extrapolation pipeline

    A shallow embedding of [notebook.py]: the pandas table is a list of rows,
    each with its index label ([row.name]) and its cells by column name; the
    calls the notebook makes into [datetime] and [pandas] are written out as
    functions, and every Python exception is a value of [exn].

    Numbers are as Python has them: counts are integers, the estimates are
    IEEE binary64 floats (Rocq's primitive floats, round to nearest even).

    The library is the one of CPython 3 and pandas 1.5.3.  Where a later
    pandas is known to behave otherwise (a null read as text, a null filled
    in a text column, the labels of dates beyond datetime64[ns]) the
    definition concerned says so. *)

From Stdlib Require Import ZArith List Bool Lia.
From Stdlib Require Import Strings.String Strings.Ascii Numbers.DecimalString.
From Stdlib Require Import Floats Uint63.
From Stdlib Require Import Sorting.Sorted.
From Stdlib Require Import Sorting.Permutation.
From Stdlib Require DecimalFacts DecimalPos DecimalN.
Import ListNotations.

Open Scope string_scope.
Open Scope list_scope.
Open Scope Z_scope.

(* Decimal literals such as 0.0066 denote the nearest double, as in Python. *)
Set Warnings "-inexact-float".

(** ** Exceptions *)

Inductive exn : Set :=
| KeyError        (* a column label is absent *)
| AttributeError  (* [data.date], [row.death], [row.name.date()] on the wrong thing *)
| ValueError      (* [strptime]: the text is not a date in the format *)
| OverflowError   (* date arithmetic leaves [date.min .. date.max] *)
| TypeError.      (* arithmetic on a cell that is not a number *)

Inductive result (A : Type) : Type :=
| Ok (a : A)
| Raise (e : exn).
Arguments Ok {A} a.
Arguments Raise {A} e.

Definition bind {A B} (r : result A) (k : A -> result B) : result B :=
  match r with
  | Ok a => k a
  | Raise e => Raise e
  end.

Notation "x <- r ;; k" := (bind r (fun x => k))
  (at level 61, r at next level, right associativity).

(** [Series.apply(f)] / a list comprehension: the first exception stops it. *)
Fixpoint mapM {A B} (f : A -> result B) (l : list A) : result (list B) :=
  match l with
  | [] => Ok []
  | a :: l' => b <- f a ;; bs <- mapM f l' ;; Ok (b :: bs)
  end.

(** ** Python's [datetime.date] *)

Module Datetime.

Record date : Set := mkdate { year : Z; month : Z; day : Z }.

Definition MINYEAR := 1.
Definition MAXYEAR := 9999.
Definition MAXORDINAL := 3652059.

Definition DAYS_IN_MONTH : list Z :=
  [-1; 31; 28; 31; 30; 31; 30; 31; 31; 30; 31; 30; 31].

Definition DAYS_BEFORE_MONTH : list Z :=
  [-1; 0; 31; 59; 90; 120; 151; 181; 212; 243; 273; 304; 334].

(** [l[i]]; the tables below are only read at an [i] from 0 up. *)
Definition index (l : list Z) (i : Z) : Z := nth (Z.to_nat i) l 0.

Definition is_leap (y : Z) : bool :=
  (y mod 4 =? 0) && (negb (y mod 100 =? 0) || (y mod 400 =? 0)).

Definition days_before_year (y : Z) : Z :=
  let y := y - 1 in y * 365 + y / 4 - y / 100 + y / 400.

Definition days_in_month (y m : Z) : Z :=
  if (m =? 2) && is_leap y then 29 else index DAYS_IN_MONTH m.

Definition days_before_month (y m : Z) : Z :=
  index DAYS_BEFORE_MONTH m + (if (2 <? m) && is_leap y then 1 else 0).

Definition ymd2ord (y m d : Z) : Z :=
  days_before_year y + days_before_month y m + d.

Definition DI400Y := Eval compute in days_before_year 401.
Definition DI100Y := Eval compute in days_before_year 101.
Definition DI4Y := Eval compute in days_before_year 5.

Definition ord2ymd (n : Z) : date :=
  let n := n - 1 in
  let n400 := n / DI400Y in
  let n := n mod DI400Y in
  let y := n400 * 400 + 1 in
  let n100 := n / DI100Y in
  let n := n mod DI100Y in
  let n4 := n / DI4Y in
  let n := n mod DI4Y in
  let n1 := n / 365 in
  let n := n mod 365 in
  let y := y + n100 * 100 + n4 * 4 + n1 in
  if (n1 =? 4) || (n100 =? 4) then mkdate (y - 1) 12 31
  else
    let leapyear := (n1 =? 3) && (negb (n4 =? 24) || (n100 =? 3)) in
    let m := Z.shiftr (n + 50) 5 in
    let preceding :=
      index DAYS_BEFORE_MONTH m + (if (2 <? m) && leapyear then 1 else 0) in
    if n <? preceding then
      let m := m - 1 in
      let preceding :=
        preceding - (index DAYS_IN_MONTH m + (if (m =? 2) && leapyear then 1 else 0)) in
      mkdate y m (n - preceding + 1)
    else mkdate y m (n - preceding + 1).

(** [date(year, month, day)]: the constructor checks its fields. *)
Definition valid (d : date) : bool :=
  (MINYEAR <=? year d) && (year d <=? MAXYEAR) &&
  (1 <=? month d) && (month d <=? 12) &&
  (1 <=? day d) && (day d <=? days_in_month (year d) (month d)).

Definition new_date (y m d : Z) : result date :=
  if valid (mkdate y m d) then Ok (mkdate y m d) else Raise ValueError.

Definition toordinal (d : date) : Z := ymd2ord (year d) (month d) (day d).

Definition fromordinal (n : Z) : date := ord2ymd n.

(** [date.__add__(timedelta(days=k))] *)
Definition add_days (d : date) (k : Z) : result date :=
  let o := toordinal d + k in
  if (0 <? o) && (o <=? MAXORDINAL) then Ok (fromordinal o)
  else Raise OverflowError.

(** Dates compare as the tuples [(year, month, day)]. *)
Definition compare (a b : date) : comparison :=
  match year a ?= year b with
  | Eq => match month a ?= month b with
          | Eq => day a ?= day b
          | c => c
          end
  | c => c
  end.

Definition leb (a b : date) : bool :=
  match compare a b with Gt => false | _ => true end.

Definition eqb (a b : date) : bool :=
  match compare a b with Eq => true | _ => false end.

(** *** Text *)

Definition digit_char (n : Z) : ascii := ascii_of_N (48 + Z.to_N n).

Definition is_digit (c : ascii) : bool :=
  let n := N_of_ascii c in (48 <=? n)%N && (n <=? 57)%N.

Definition digit_val (c : ascii) : Z := Z.of_N (N_of_ascii c) - 48.

Definition in_range (lo hi : Z) (c : ascii) : bool :=
  is_digit c && (lo <=? digit_val c) && (digit_val c <=? hi).

(** [%02d] *)
Definition pad2 (n : Z) : string :=
  String (digit_char (n / 10 mod 10)) (String (digit_char (n mod 10)) "").

(** [%04d] *)
Definition pad4 (n : Z) : string :=
  String (digit_char (n / 1000 mod 10)) (String (digit_char (n / 100 mod 10)) (pad2 n)).

(** [%b] in the C locale. *)
Definition month_abbr (m : Z) : string :=
  nth (Z.to_nat m)
    [""; "Jan"; "Feb"; "Mar"; "Apr"; "May"; "Jun";
     "Jul"; "Aug"; "Sep"; "Oct"; "Nov"; "Dec"] "".

(** [d.strftime("%b %d")] *)
Definition strftime_b_d (d : date) : string :=
  (month_abbr (month d) ++ " " ++ pad2 (day d))%string.

(** [str(d)] *)
Definition isoformat (d : date) : string :=
  (pad4 (year d) ++ "-" ++ pad2 (month d) ++ "-" ++ pad2 (day d))%string.

(** [strptime(s, "%Y%m%d")].  The format compiles to the regular expression
    [(?P<Y>\d\d\d\d)(?P<m>1[0-2]|0[1-9]|[1-9])(?P<d>3[0-1]|[1-2]\d|0[1-9]|[1-9]| [1-9])];
    the match is the first one in the order of the alternatives, it must
    consume the whole text, and the three numbers must make a date.
    Text is ASCII here. *)

(** [\d\d\d\d] *)
Definition match_Y (s : string) : option (Z * string) :=
  match s with
  | String a (String b (String c (String d rest))) =>
      if is_digit a && is_digit b && is_digit c && is_digit d
      then Some (1000 * digit_val a + 100 * digit_val b + 10 * digit_val c + digit_val d, rest)
      else None
  | _ => None
  end.

(** [1[0-2]|0[1-9]|[1-9]]: every way to match, in the order tried. *)
Definition match_m (s : string) : list (Z * string) :=
  match s with
  | String a rest =>
      (match rest with
       | String b rest' =>
           (if (a =? "1")%char && in_range 0 2 b then [(10 + digit_val b, rest')] else [])
           ++ (if (a =? "0")%char && in_range 1 9 b then [(digit_val b, rest')] else [])
       | EmptyString => []
       end)
      ++ (if in_range 1 9 a then [(digit_val a, rest)] else [])
  | EmptyString => []
  end.

(** [3[0-1]|[1-2]\d|0[1-9]|[1-9]| [1-9]] *)
Definition match_d (s : string) : list (Z * string) :=
  match s with
  | String a rest =>
      (match rest with
       | String b rest' =>
           (if (a =? "3")%char && in_range 0 1 b then [(30 + digit_val b, rest')] else [])
           ++ (if in_range 1 2 a && is_digit b then [(10 * digit_val a + digit_val b, rest')] else [])
           ++ (if (a =? "0")%char && in_range 1 9 b then [(digit_val b, rest')] else [])
       | EmptyString => []
       end)
      ++ (if in_range 1 9 a then [(digit_val a, rest)] else [])
      ++ (match rest with
          | String b rest' =>
              if (a =? " ")%char && in_range 1 9 b then [(digit_val b, rest')] else []
          | EmptyString => []
          end)
  | EmptyString => []
  end.

(** The month and day part: all matches, by priority. *)
Definition match_md (s : string) : list (Z * Z * string) :=
  flat_map (fun '(m, rest) => map (fun '(d, rest') => (m, d, rest')) (match_d rest))
           (match_m s).

Definition strptime_Ymd (s : string) : result date :=
  match match_Y s with
  | None => Raise ValueError                      (* does not match format *)
  | Some (y, rest) =>
      match match_md rest with
      | [] => Raise ValueError                    (* does not match format *)
      | (m, d, EmptyString) :: _ => new_date y m d
      | (_, _, String _ _) :: _ => Raise ValueError  (* unconverted data remains *)
      end
  end.

End Datetime.

Import Datetime.

(** ** The table *)

(** A cell: a JSON null (pandas' NaN), an integer, text, or a parsed date. *)
Inductive value : Set :=
| VNull
| VInt (z : Z)
| VStr (s : string)
| VDate (d : date).

Definition str_of_Z (z : Z) : string := NilZero.string_of_int (Z.to_int z).

(** [Series.astype(str)], cell by cell.  A null reads as the text "nan"
    (pandas 1.5.3; pandas 3 keeps the null, and [strptime] then raises
    TypeError instead of ValueError). *)
Definition astype_str (v : value) : string :=
  match v with
  | VNull => "nan"
  | VInt z => str_of_Z z
  | VStr s => s
  | VDate d => isoformat d
  end.

(** A row carries its index label, [row.name], and its cells by column. *)
Record Row : Set := mkRow { name : value; cells : list (string * value) }.

Record DataFrame : Set := mkFrame { columns : list string; rows : list Row }.

Definition mem (c : string) (l : list string) : bool := existsb (String.eqb c) l.

Fixpoint get (c : string) (l : list (string * value)) : option value :=
  match l with
  | [] => None
  | (k, v) :: l' => if (k =? c)%string then Some v else get c l'
  end.

Definition cell (c : string) (r : Row) : value :=
  match get c (cells r) with
  | Some v => v
  | None => VNull
  end.

Definition set_cell (c : string) (v : value) (l : list (string * value))
  : list (string * value) :=
  if mem c (map fst l)
  then map (fun kv => if (fst kv =? c)%string then (c, v) else kv) l
  else l ++ [(c, v)].

(** [df.drop(labels, axis=1)] *)
Definition drop (labels : list string) (df : DataFrame) : result DataFrame :=
  if forallb (fun l => mem l (columns df)) labels
  then Ok {| columns := filter (fun c => negb (mem c labels)) (columns df);
             rows := map (fun r => mkRow (name r)
                            (filter (fun kv => negb (mem (fst kv) labels)) (cells r)))
                         (rows df) |}
  else Raise KeyError.

(** [df.c]: the column, top to bottom *)
Definition getattr (c : string) (df : DataFrame) : result (list value) :=
  if mem c (columns df) then Ok (map (cell c) (rows df))
  else Raise AttributeError.

(** [df[c] = vals] (and [df.c = vals] for a column there is) *)
Definition setitem (c : string) (vals : list value) (df : DataFrame) : DataFrame :=
  {| columns := if mem c (columns df) then columns df else columns df ++ [c];
     rows := map (fun rv => mkRow (name (fst rv)) (set_cell c (snd rv) (cells (fst rv))))
                 (combine (rows df) vals) |}.

(** The order [sort_values] sorts a date column by. *)
Definition value_leb (a b : value) : bool :=
  match a, b with
  | VDate x, VDate y => Datetime.leb x y
  | _, _ => true
  end.

Fixpoint insert_by (c : string) (r : Row) (l : list Row) : list Row :=
  match l with
  | [] => [r]
  | x :: l' => if value_leb (cell c r) (cell c x) then r :: l else x :: insert_by c r l'
  end.

(** [df.sort_values(c)], ascending.  pandas' default sort leaves the order
    of rows with equal keys open; here they keep their order. *)
Definition sort_values (c : string) (df : DataFrame) : result DataFrame :=
  if mem c (columns df)
  then Ok {| columns := columns df;
             rows := fold_right (insert_by c) [] (rows df) |}
  else Raise KeyError.

(** [df.set_index(c)] *)
Definition set_index (c : string) (df : DataFrame) : result DataFrame :=
  if mem c (columns df)
  then Ok {| columns := filter (fun k => negb (k =? c)%string) (columns df);
             rows := map (fun r => mkRow (cell c r)
                            (filter (fun kv => negb (fst kv =? c)%string) (cells r)))
                         (rows df) |}
  else Raise KeyError.

Definition fill (v0 v : value) : value :=
  match v with
  | VNull => v0
  | _ => v
  end.

(** [df.fillna(v0)]: every null cell becomes [v0], whatever the column
    holds (pandas 1.5.3; pandas 3 raises TypeError when it is to put a
    number into a column of text). *)
Definition fillna (v0 : value) (df : DataFrame) : DataFrame :=
  {| columns := columns df;
     rows := map (fun r => mkRow (name r) (map (fun kv => (fst kv, fill v0 (snd kv))) (cells r)))
                 (rows df) |}.

(** ** Data processing (the cell that builds [data]) *)

Definition parse_date (v : value) : result value :=
  d <- strptime_Ymd (astype_str v) ;; Ok (VDate d).

(** [lambda d: d.strftime("%b %d")] *)
Definition day_label (v : value) : result value :=
  match v with
  | VDate d => Ok (VStr (strftime_b_d d))
  | _ => Raise AttributeError
  end.

Definition clean (df : DataFrame) : result DataFrame :=
  data <- drop ["hash"; "dateChecked"] df ;;
  dates <- getattr "date" data ;;
  parsed <- mapM parse_date dates ;;
  let data := setitem "date" parsed data in
  dates <- getattr "date" data ;;
  labels <- mapM day_label dates ;;
  let data := setitem "day" labels data in
  data <- sort_values "date" data ;;
  data <- set_index "date" data ;;
  Ok (fillna (VInt 0) data).

(** A table as [pd.read_json] builds it: rows labelled 0, 1, ... *)
Fixpoint number_rows (i : Z) (l : list (list (string * value))) : list Row :=
  match l with
  | [] => []
  | cs :: l' => mkRow (VInt i) cs :: number_rows (i + 1) l'
  end.

Definition frame (cols : list string) (l : list (list (string * value))) : DataFrame :=
  mkFrame cols (number_rows 0 l).

Definition raw_columns := ["date"; "positive"; "death"; "hash"; "dateChecked"].

Definition raw_row (d : value) (p dth : value) : list (string * value) :=
  [("date", d); ("positive", p); ("death", dth); ("hash", VStr "x"); ("dateChecked", VStr "y")].

(** ** Back-extrapolation *)

(** [dt.timedelta(days = -14)] *)
Definition delta : Z := -14.
Definition death_rate : float := 0.0066%float.
Definition death_rate_s : float := 0.0138%float.

(** [float(n)]: the double nearest to the integer, ties to even.  The
    integers of a table have 64 bits, from -2^63 up to 2^63 - 1. *)
Definition float_of_Z (n : Z) : float :=
  SF2Prim (binary_normalize prec emax n 0 false).

(** Twice a double, on its specification: the exponent goes up by one, and
    past the largest exponent the result is an infinity. *)
Definition SFdouble (x : spec_float) : spec_float :=
  match x with
  | S754_finite s m e =>
      if e + 1 <=? emax - prec then S754_finite s m (e + 1) else S754_infinity s
  | _ => x
  end.

(** [v / r] for a cell [v] and a float [r] *)
Definition truediv (v : value) (r : float) : result float :=
  match v with
  | VInt n => Ok (float_of_Z n / r)%float
  | VNull => Ok (nan / r)%float
  | _ => Raise TypeError
  end.

(** [row.c] *)
Definition getattr_row (c : string) (r : Row) : result value :=
  match get c (cells r) with
  | Some v => Ok v
  | None => Raise AttributeError
  end.

(** [ts.date()] *)
Definition date_of (v : value) : result date :=
  match v with
  | VDate d => Ok d
  | _ => Raise AttributeError
  end.

(** The dict [estimate] returns, keys ['date'], ['infected'], ['symptomatic'],
    ['day']. *)
Record Estimate : Set := mkEstimate {
  est_date : date;
  infected : float;
  symptomatic : float;
  est_day : string
}.

Definition estimate (row : Row) : result Estimate :=
  d0 <- date_of (name row) ;;
  d <- add_days d0 delta ;;
  dth <- getattr_row "death" row ;;
  inf <- truediv dth death_rate ;;
  dth' <- getattr_row "death" row ;;
  sym <- truediv dth' death_rate_s ;;
  Ok (mkEstimate d inf sym (strftime_b_d d)).

(** [data.apply(estimate, axis=1, result_type='expand')], then
    [estimates.set_index('date')].  On a table with no row, or with no
    column, [apply] calls nothing and gives back a copy of the table: it
    holds the estimate of no record, and [set_index] finds a ['date'] column
    in it only if the table had one (a cleaned table has none: KeyError). *)
Definition estimates (data : DataFrame) : result (list Estimate) :=
  match rows data, columns data with
  | [], _ | _, [] => copy <- set_index "date" data ;; Ok []
  | _, _ => mapM estimate (rows data)
  end.

(** ** Differencing *)

(** A numeric column with its date index. *)
Definition Series : Set := list (date * float).

Definition keys (s : Series) : list date := map fst s.

Definition infected_series (es : list Estimate) : Series :=
  map (fun e => (est_date e, infected e)) es.

Definition to_float (v : value) : result float :=
  match v with
  | VInt n => Ok (float_of_Z n)
  | VNull => Ok nan
  | _ => Raise TypeError
  end.

(** [data.positive] *)
Definition positive_series (data : DataFrame) : result Series :=
  if mem "positive" (columns data)
  then mapM (fun r => d <- date_of (name r) ;;
                      x <- to_float (cell "positive" r) ;;
                      Ok (d, x))
            (rows data)
  else Raise AttributeError.

(** [s[d]], the first entry under the label *)
Fixpoint lookup (d : date) (s : Series) : option float :=
  match s with
  | [] => None
  | (k, x) :: s' => if Datetime.eqb k d then Some x else lookup d s'
  end.

Definition at_key (d : date) (s : Series) : list float :=
  map snd (filter (fun kv => Datetime.eqb (fst kv) d) s).

Fixpoint insert_key (d : date) (l : list date) : list date :=
  match l with
  | [] => [d]
  | k :: l' =>
      match Datetime.compare d k with
      | Lt => d :: l
      | Eq => l
      | Gt => k :: insert_key d l'
      end
  end.

(** The outer join of two indexes: every label of either, ascending, once. *)
Definition union_keys (a b : Series) : list date :=
  fold_right insert_key [] (keys a ++ keys b).

(** The rows of the result under one label: the operands reindexed (NaN where
    a side has no entry) and subtracted. *)
Definition aligned (k : date) (xs ys : list float) : Series :=
  match xs, ys with
  | [], _ => map (fun y => (k, nan - y)%float) ys
  | _, [] => map (fun x => (k, x - nan)%float) xs
  | _, _ => flat_map (fun x => map (fun y => (k, x - y)%float) ys) xs
  end.

Fixpoint keys_equal (a b : list date) : bool :=
  match a, b with
  | [], [] => true
  | x :: a', y :: b' => Datetime.eqb x y && keys_equal a' b'
  | _, _ => false
  end.

Fixpoint sub_by_position (a b : Series) : Series :=
  match a, b with
  | (k, x) :: a', (_, y) :: b' => (k, x - y)%float :: sub_by_position a' b'
  | _, _ => []
  end.

(** [a - b] on two Series whose labels are of one type: operands with
    equal indexes are subtracted by position, any others are aligned on the
    union of their labels first. *)
Definition series_sub (a b : Series) : Series :=
  if keys_equal (keys a) (keys b) then sub_by_position a b
  else flat_map (fun k => aligned k (at_key k a) (at_key k b)) (union_keys a b).

(** [estimates.infected].  Where [apply] gave back a copy of a table with
    no row, the copy has the column only if the table has one of the name. *)
Definition infected_column (data : DataFrame) (es : list Estimate) : result Series :=
  match rows data with
  | [] => if mem "infected" (columns data) then Ok [] else Raise AttributeError
  | _ :: _ => Ok (infected_series es)
  end.

(** The labels of the two indexes are not of one type.  [estimates] is
    indexed by [datetime.date] objects.  [data] is indexed by timestamps: the
    elements of a DatetimeIndex when every date of the table fits
    datetime64[ns], and [datetime.datetime] objects otherwise. *)
Inductive label : Set :=
| Day (d : date)
| Stamp (d : date).

Definition label_date (l : label) : date :=
  match l with
  | Day d => d
  | Stamp d => d
  end.

Definition label_eqb (a b : label) : bool :=
  match a, b with
  | Day x, Day y => Datetime.eqb x y
  | Stamp x, Stamp y => Datetime.eqb x y
  | _, _ => false
  end.

(** A Series under such labels, and [s[l]], its first entry under a label. *)
Definition Labelled : Set := list (label * float).

Fixpoint lookup_label (l : label) (s : Labelled) : option float :=
  match s with
  | [] => None
  | (k, x) :: s' => if label_eqb k l then Some x else lookup_label l s'
  end.

(** The midnights datetime64[ns] can hold: 1677-09-22 to 2262-04-11. *)
Definition in_ns (d : date) : bool :=
  Datetime.leb (mkdate 1677 9 22) d && Datetime.leb d (mkdate 2262 4 11).

(** [a - b] for [a] indexed by [datetime.date] objects and [b] by timestamps
    (pandas 1.5.3).  When [b] has a DatetimeIndex and the dates of [a] fit
    datetime64[ns] too, the join turns the index of [a] into a DatetimeIndex
    and the two are aligned as dates.  Otherwise the labels stay objects of
    two types, a [date] never equals a [datetime], and nothing is aligned:
    the result holds the labels of [a], then those of [b], each with NaN. *)
Definition sub_date_stamp (a b : Series) : Labelled :=
  if forallb in_ns (keys b) && forallb in_ns (keys a)
  then map (fun kv => (Stamp (fst kv), snd kv)) (series_sub a b)
  else map (fun kv => (Day (fst kv), (snd kv - nan)%float)) a
       ++ map (fun kv => (Stamp (fst kv), (nan - snd kv)%float)) b.

(** [diff = estimates.infected - data.positive] *)
Definition diff (data : DataFrame) : result Labelled :=
  es <- estimates data ;;
  inf <- infected_column data es ;;
  pos <- positive_series data ;;
  Ok (sub_date_stamp inf pos).

(** ** The cleaned table, row by row *)

(** The columns the cleaning drops. *)
Definition dropped : list string := ["hash"; "dateChecked"].

(** The date a row's ['date'] cell parses to. *)
Definition row_date (r : Row) : result date :=
  strptime_Ymd (astype_str (cell "date" r)).

(** A row after the columns are dropped and ['date'] and ['day'] are set. *)
Definition dated (r : Row) (d : date) : Row :=
  mkRow (name r)
    (set_cell "day" (VStr (strftime_b_d d))
       (set_cell "date" (VDate d)
          (filter (fun kv => negb (mem (fst kv) dropped)) (cells r)))).

(** The same row once ['date'] is the index and the nulls are filled. *)
Definition indexed (r : Row) : Row :=
  mkRow (cell "date" r)
    (map (fun kv => (fst kv, fill (VInt 0) (snd kv)))
       (filter (fun kv => negb (fst kv =? "date")%string) (cells r))).

Definition cleaned_columns (cols : list string) : list string :=
  let cols := filter (fun c => negb (mem c dropped)) cols in
  let cols := if mem "day" cols then cols else cols ++ ["day"] in
  filter (fun k => negb (k =? "date")%string) cols.

Definition cleaned_rows (l : list Row) (ds : list date) : list Row :=
  map indexed
    (fold_right (insert_by "date") []
       (map (fun rd => dated (fst rd) (snd rd)) (combine l ds))).

(** Rows in the order [sort_values] leaves them in. *)
Definition ordered (c : string) (r1 r2 : Row) : Prop :=
  value_leb (cell c r1) (cell c r2) = true.

(** ** Reading labels and dates back *)

(** The month and day a label such as "Mar 17" names. *)
Fixpoint month_of_abbr (fuel : nat) (m : Z) (s : string) : option Z :=
  match fuel with
  | O => None
  | S fuel' => if (month_abbr m =? s)%string then Some m else month_of_abbr fuel' (m + 1) s
  end.

Definition label_month_day (s : string) : option (Z * Z) :=
  match s with
  | String a (String b (String c (String sp (String x (String y EmptyString))))) =>
      match month_of_abbr 12 1 (String a (String b (String c EmptyString))) with
      | Some m =>
          if (sp =? " ")%char && is_digit x && is_digit y
          then Some (m, 10 * digit_val x + digit_val y)
          else None
      | None => None
      end
  | _ => None
  end.


(** ** Tables to run the pipeline on *)

Definition scenario_raw : DataFrame :=
  frame raw_columns [raw_row (VInt 20200317) (VInt 100) (VInt 10)].

Definition scenario_row : Row :=
  mkRow (VDate (mkdate 2020 3 17))
    [("positive", VInt 100); ("death", VInt 10); ("day", VStr "Mar 17")].

Definition two_days_raw : DataFrame :=
  frame raw_columns [raw_row (VStr "20200317") (VInt 100) VNull;
                     raw_row (VStr "20200315") VNull (VInt 3)].

Definition two_days_clean : DataFrame :=
  mkFrame ["positive"; "death"; "day"]
    [mkRow (VDate (mkdate 2020 3 15))
       [("positive", VInt 0); ("death", VInt 3); ("day", VStr "Mar 15")];
     mkRow (VDate (mkdate 2020 3 17))
       [("positive", VInt 100); ("death", VInt 0); ("day", VStr "Mar 17")]].


(** A feed dated 5 January of year 1. *)
Definition year_1_raw : DataFrame :=
  frame raw_columns [raw_row (VStr "00010105") (VInt 100) (VInt 10)].

Definition year_1_row : Row :=
  mkRow (VDate (mkdate 1 1 5))
    [("positive", VInt 100); ("death", VInt 10); ("day", VStr "Jan 05")].

(** Two records a fortnight apart: the estimate of the second falls on the
    date of the first. *)
Definition fortnight_clean : DataFrame :=
  mkFrame ["positive"; "death"; "day"]
    [mkRow (VDate (mkdate 2020 3 3))
       [("positive", VInt 100); ("death", VInt 1); ("day", VStr "Mar 03")];
     mkRow (VDate (mkdate 2020 3 17))
       [("positive", VInt 200); ("death", VInt 10); ("day", VStr "Mar 17")]].

Definition fortnight_infected : Series :=
  [(mkdate 2020 2 18, (1 / 0.0066)%float); (mkdate 2020 3 3, (10 / 0.0066)%float)].

Definition fortnight_positive : Series :=
  [(mkdate 2020 3 3, 100%float); (mkdate 2020 3 17, 200%float)].

Definition cleaned_scenario : DataFrame :=
  mkFrame ["positive"; "death"; "day"] [scenario_row].

(** The two days in the other order. *)
Definition two_days_raw_swapped : DataFrame :=
  frame raw_columns [raw_row (VStr "20200315") VNull (VInt 3);
                     raw_row (VStr "20200317") (VInt 100) VNull].

(** The feed of the two records a fortnight apart, and their estimates. *)
Definition fortnight_raw : DataFrame :=
  frame raw_columns [raw_row (VInt 20200303) (VInt 100) (VInt 1);
                     raw_row (VInt 20200317) (VInt 200) (VInt 10)].

Definition fortnight_estimates : list Estimate :=
  [mkEstimate (mkdate 2020 2 18) (1 / 0.0066) (1 / 0.0138) "Feb 18";
   mkEstimate (mkdate 2020 3 3) (10 / 0.0066) (10 / 0.0138) "Mar 03"].

(** A record with no death count. *)
Definition null_death_raw : DataFrame :=
  frame raw_columns [raw_row (VInt 20200317) (VInt 100) VNull].

Definition null_death_row : Row :=
  mkRow (VDate (mkdate 2020 3 17))
    [("positive", VInt 100); ("death", VInt 0); ("day", VStr "Mar 17")].

(** A record dated by a year alone. *)
Definition year_only_raw : DataFrame :=
  frame raw_columns [raw_row (VInt 2020) (VInt 100) (VInt 10)].

(** A feed that has no ['positive'] column. *)
Definition no_positive_raw : DataFrame :=
  frame ["date"; "death"; "hash"; "dateChecked"]
    [[("date", VInt 20200317); ("death", VInt 10); ("hash", VStr "x"); ("dateChecked", VStr "y")]].





(** ** Checks run once over a finite range *)

(** The month and day [ord2ymd] gives the day numbered [n] (from 0) of a
    year: the last lines of [ord2ymd]. *)
Definition month_day (n : Z) (leapyear : bool) : Z * Z :=
  let m := Z.shiftr (n + 50) 5 in
  let preceding :=
    index DAYS_BEFORE_MONTH m + (if (2 <? m) && leapyear then 1 else 0) in
  if n <? preceding then
    let m := m - 1 in
    let preceding :=
      preceding - (index DAYS_IN_MONTH m + (if (m =? 2) && leapyear then 1 else 0)) in
    (m, n - preceding + 1)
  else (m, n - preceding + 1).

(** That month and day are a date of the year, the one [n] days after
    1 January. *)
Definition month_day_ok (leapyear : bool) (n : Z) : bool :=
  let '(m, d) := month_day n leapyear in
  (1 <=? m) && (m <=? 12) && (1 <=? d)
  && (d <=? (if (m =? 2) && leapyear then 29 else index DAYS_IN_MONTH m))
  && (index DAYS_BEFORE_MONTH m + (if (2 <? m) && leapyear then 1 else 0) + d =? n + 1).



(** The label of a month and day reads back as them. *)
Definition label_ok (m d : Z) : bool :=
  match label_month_day (strftime_b_d (mkdate 0 m d)) with
  | Some (m', d') => (m' =? m) && (d' =? d)
  | None => false
  end.

(** * Properties *)

(** ** The scenarios of the specification, run *)

Example strptime_20200317 : strptime_Ymd "20200317" = Ok (mkdate 2020 3 17).
Proof. reflexivity. Qed.

Example strptime_short : strptime_Ymd "2020317" = Ok (mkdate 2020 3 17).
Proof. reflexivity. Qed.

Example strptime_feb30 : strptime_Ymd "20200230" = Raise ValueError.
Proof. reflexivity. Qed.

Example strptime_trailing : strptime_Ymd "20203112" = Raise ValueError.
Proof. reflexivity. Qed.

Example strftime_mar17 : strftime_b_d (mkdate 2020 3 17) = "Mar 17".
Proof. reflexivity. Qed.

Example minus_14 : add_days (mkdate 2020 3 17) (-14) = Ok (mkdate 2020 3 3).
Proof. reflexivity. Qed.

Example clean_scenario :
  clean (frame raw_columns [raw_row (VInt 20200317) (VInt 100) (VInt 10)])
  = Ok (mkFrame ["positive"; "death"; "day"]
          [mkRow (VDate (mkdate 2020 3 17))
             [("positive", VInt 100); ("death", VInt 10); ("day", VStr "Mar 17")]]).
Proof. reflexivity. Qed.

Example clean_out_of_order :
  clean (frame raw_columns [raw_row (VStr "20200317") (VInt 100) VNull;
                            raw_row (VStr "20200315") VNull (VInt 3)])
  = Ok (mkFrame ["positive"; "death"; "day"]
          [mkRow (VDate (mkdate 2020 3 15))
             [("positive", VInt 0); ("death", VInt 3); ("day", VStr "Mar 15")];
           mkRow (VDate (mkdate 2020 3 17))
             [("positive", VInt 100); ("death", VInt 0); ("day", VStr "Mar 17")]]).
Proof. reflexivity. Qed.

Example str_of_Z_values :
  str_of_Z 20200317 = "20200317" /\ str_of_Z 0 = "0" /\ str_of_Z (-5) = "-5".
Proof. repeat split; reflexivity. Qed.

Example estimate_no_deaths :
  estimate (mkRow (VDate (mkdate 2020 3 17)) [("positive", VInt 100); ("death", VInt 0)])
  = Ok (mkEstimate (mkdate 2020 3 3) 0%float 0%float "Mar 03").
Proof. vm_compute. reflexivity. Qed.

Example float_of_Z_least :
  float_of_Z (- 2 ^ 63) = (-9223372036854775808)%float /\
  (float_of_Z (- 2 ^ 63) / 0.0066 = -1.3974806116446631e+21)%float.
Proof. split; reflexivity. Qed.

Example first_estimable_day :
  toordinal (mkdate 1 1 15) = 15 /\
  add_days (mkdate 1 1 15) delta = Ok (mkdate 1 1 1) /\
  add_days (mkdate 1 1 14) delta = Raise OverflowError.
Proof. repeat split; reflexivity. Qed.

Example estimate_scenario :
  estimates cleaned_scenario
  = Ok [mkEstimate (mkdate 2020 3 3) 1515.1515151515152%float 724.6376811594203%float "Mar 03"].
Proof. vm_compute. reflexivity. Qed.

Example diff_scenario :
  diff cleaned_scenario
  = Ok [(Stamp (mkdate 2020 3 3), nan); (Stamp (mkdate 2020 3 17), nan)].
Proof. vm_compute. reflexivity. Qed.

Example estimates_of_no_record :
  estimates (mkFrame ["positive"; "death"; "day"] []) = Raise KeyError.
Proof. reflexivity. Qed.

(** ** The calendar *)

Lemma month_cases m :
  1 <= m <= 12 ->
  m = 1 \/ m = 2 \/ m = 3 \/ m = 4 \/ m = 5 \/ m = 6 \/
  m = 7 \/ m = 8 \/ m = 9 \/ m = 10 \/ m = 11 \/ m = 12.
Proof. lia. Qed.

Lemma month_span y m :
  1 <= m <= 12 ->
  0 <= days_before_month y m /\
  days_before_month y m + days_in_month y m <= (if is_leap y then 366 else 365).
Proof.
  intros Hm. unfold days_before_month, days_in_month.
  destruct (is_leap y);
    destruct (month_cases m Hm) as [->|[->|[->|[->|[->|[->|[->|[->|[->|[->|[->| ->]]]]]]]]]]];
    vm_compute; split; discriminate.
Qed.

Lemma within_year y m dd :
  1 <= m <= 12 -> 1 <= dd <= days_in_month y m ->
  1 <= days_before_month y m + dd <= (if is_leap y then 366 else 365).
Proof.
  intros Hm Hd. pose proof (month_span y m Hm). destruct (is_leap y); lia.
Qed.

Lemma valid_fields d :
  valid d = true ->
  (MINYEAR <= year d <= MAXYEAR) /\ (1 <= month d <= 12) /\
  (1 <= day d <= days_in_month (year d) (month d)).
Proof.
  unfold valid. rewrite !andb_true_iff, !Z.leb_le. tauto.
Qed.

(** *** A year by its place in the 400-year cycle *)

Lemma days_before_year_decomp A B C E :
  0 <= B <= 3 -> 0 <= C <= 24 -> 0 <= E <= 3 ->
  days_before_year (400 * A + 100 * B + 4 * C + E + 1)
  = 146097 * A + 36524 * B + 1461 * C + 365 * E.
Proof.
  intros HB HC HE. unfold days_before_year. cbv zeta.
  Z.div_mod_to_equations. lia.
Qed.

Lemma is_leap_decomp A B C E :
  0 <= B <= 3 -> 0 <= C <= 24 -> 0 <= E <= 3 ->
  is_leap (400 * A + 100 * B + 4 * C + E + 1)
  = (E =? 3) && (negb (C =? 24) || (B =? 3)).
Proof.
  intros HB HC HE. unfold is_leap.
  set (y := 400 * A + 100 * B + 4 * C + E + 1).
  assert (H4 : y mod 4 = 0 <-> E = 3) by (subst y; Z.div_mod_to_equations; lia).
  assert (H100 : y mod 100 = 0 <-> (C = 24 /\ E = 3))
    by (subst y; Z.div_mod_to_equations; lia).
  assert (H400 : y mod 400 = 0 <-> (B = 3 /\ C = 24 /\ E = 3))
    by (subst y; Z.div_mod_to_equations; lia).
  destruct (Z.eqb_spec (y mod 4) 0), (Z.eqb_spec (y mod 100) 0),
    (Z.eqb_spec (y mod 400) 0), (Z.eqb_spec E 3), (Z.eqb_spec C 24),
    (Z.eqb_spec B 3); cbn; try reflexivity; exfalso; lia.
Qed.

Lemma year_decomp y :
  exists A B C E,
    0 <= B <= 3 /\ 0 <= C <= 24 /\ 0 <= E <= 3 /\
    y = 400 * A + 100 * B + 4 * C + E + 1.
Proof.
  exists ((y - 1) / 400), ((y - 1) mod 400 / 100), ((y - 1) mod 100 / 4), ((y - 1) mod 4).
  Z.div_mod_to_equations. lia.
Qed.

Lemma toordinal_bounds d : valid d = true -> 1 <= toordinal d <= MAXORDINAL.
Proof.
  intros Hv. apply valid_fields in Hv. destruct Hv as (Hy & Hm & Hd).
  pose proof (within_year _ _ _ Hm Hd) as Hw.
  unfold toordinal, ymd2ord. unfold MINYEAR, MAXYEAR, MAXORDINAL in *.
  destruct (year_decomp (year d)) as (A & B & C & E & HB & HC & HE & Hyear).
  rewrite Hyear in Hw |- *.
  rewrite is_leap_decomp in Hw by assumption.
  rewrite days_before_year_decomp by assumption.
  destruct (Z.eqb_spec E 3); cbn [andb] in Hw; [|lia].
  destruct (negb (C =? 24) || (B =? 3)); lia.
Qed.

(** *** From an ordinal to the date and back *)

Lemma all_month_day_ok :
  forallb (fun lp => forallb (fun n => month_day_ok lp (Z.of_nat n)) (seq 0 365))
    [false; true] = true.
Proof. vm_compute. reflexivity. Qed.

Lemma month_day_spec n lp m d :
  0 <= n <= 364 -> month_day n lp = (m, d) ->
  1 <= m <= 12 /\
  1 <= d <= (if (m =? 2) && lp then 29 else index DAYS_IN_MONTH m) /\
  index DAYS_BEFORE_MONTH m + (if (2 <? m) && lp then 1 else 0) + d = n + 1.
Proof.
  intros Hn Hmd. pose proof all_month_day_ok as H.
  rewrite forallb_forall in H.
  assert (Hlp : In lp [false; true]) by (destruct lp; cbn; auto).
  specialize (H lp Hlp). cbv beta in H. rewrite forallb_forall in H.
  specialize (H (Z.to_nat n) ltac:(apply in_seq; lia)).
  rewrite Z2Nat.id in H by lia. unfold month_day_ok in H. rewrite Hmd in H.
  rewrite !andb_true_iff, !Z.leb_le, Z.eqb_eq in H. lia.
Qed.

Lemma ord2ymd_month_day o :
  ord2ymd o =
  let n0 := o - 1 in
  let n400 := n0 / DI400Y in
  let r400 := n0 mod DI400Y in
  let n100 := r400 / DI100Y in
  let r100 := r400 mod DI100Y in
  let n4 := r100 / DI4Y in
  let r4 := r100 mod DI4Y in
  let n1 := r4 / 365 in
  let n := r4 mod 365 in
  let y := n400 * 400 + 1 + n100 * 100 + n4 * 4 + n1 in
  if (n1 =? 4) || (n100 =? 4) then mkdate (y - 1) 12 31
  else let '(m, d) := month_day n ((n1 =? 3) && (negb (n4 =? 24) || (n100 =? 3))) in
       mkdate y m d.
Proof.
  unfold ord2ymd, month_day. cbv zeta.
  destruct (_ || _); [reflexivity|].
  match goal with |- context [if ?c then _ else _] => destruct c end; reflexivity.
Qed.

Ltac tables :=
  repeat match goal with
         | |- context [index ?l ?i] =>
             let v := eval vm_compute in (index l i) in change (index l i) with v
         end.

Lemma ordinal_round_trip o :
  1 <= o <= MAXORDINAL ->
  toordinal (fromordinal o) = o /\ valid (fromordinal o) = true.
Proof.
  unfold MAXORDINAL, fromordinal. intros Ho. rewrite ord2ymd_month_day. cbv zeta.
  unfold DI400Y, DI100Y, DI4Y.
  set (A := (o - 1) / 146097). set (r400 := (o - 1) mod 146097).
  set (B := r400 / 36524). set (r100 := r400 mod 36524).
  set (C := r100 / 1461). set (r4 := r100 mod 1461).
  set (E := r4 / 365). set (n := r4 mod 365).
  assert (H : o - 1 = 146097 * A + 36524 * B + 1461 * C + 365 * E + n /\
              0 <= A <= 24 /\ 0 <= B <= 4 /\ 0 <= C <= 24 /\ 0 <= E <= 4 /\
              0 <= n <= 364 /\
              36524 * B + 1461 * C + 365 * E + n <= 146096 /\
              1461 * C + 365 * E + n <= 36523 /\
              365 * E + n <= 1460).
  { subst A r400 B r100 C r4 E n. Z.div_mod_to_equations. lia. }
  clearbody A r400 B r100 C r4 E n.
  destruct H as (Ho1 & HA & HB & HC & HE & Hn & H1 & H2 & H3).
  unfold valid, toordinal, ymd2ord, days_before_month, days_in_month,
    MINYEAR, MAXYEAR.
  destruct (Z.eqb_spec E 4) as [HE4|HE4]; cbn [orb].
  - (* the last day of a fourth year *)
    cbn [year month day].
    replace (A * 400 + 1 + B * 100 + C * 4 + E - 1)
      with (400 * A + 100 * B + 4 * C + 3 + 1) by lia.
    rewrite is_leap_decomp, days_before_year_decomp by lia.
    replace ((3 =? 3) && (negb (C =? 24) || (B =? 3))) with true
      by (symmetry; destruct (Z.eqb_spec C 24); [lia | reflexivity]).
    change (2 <? 12) with true. change (12 =? 2) with false. cbn [andb]. tables.
    split; [lia|].
    rewrite !andb_true_iff, !Z.leb_le. lia.
  - destruct (Z.eqb_spec B 4) as [HB4|HB4].
    + (* the last day of the cycle *)
      cbn [year month day].
      replace (A * 400 + 1 + B * 100 + C * 4 + E - 1)
        with (400 * A + 100 * 3 + 4 * 24 + 3 + 1) by lia.
      rewrite is_leap_decomp, days_before_year_decomp by lia.
      replace ((3 =? 3) && (negb (24 =? 24) || (3 =? 3))) with true by reflexivity.
      change (2 <? 12) with true. change (12 =? 2) with false. cbn [andb]. tables.
      split; [lia|].
      rewrite !andb_true_iff, !Z.leb_le. lia.
    + destruct (month_day n _) as [m d] eqn:Hmd.
      apply month_day_spec in Hmd; [|exact Hn]. destruct Hmd as (Hm & Hd & Hsum).
      cbn [year month day].
      replace (A * 400 + 1 + B * 100 + C * 4 + E)
        with (400 * A + 100 * B + 4 * C + E + 1) by lia.
      rewrite is_leap_decomp, days_before_year_decomp by lia.
      split; [lia|].
      rewrite !andb_true_iff, !Z.leb_le. lia.
Qed.

(** ** The result monad *)

Lemma bind_Ok {A B} (r : result A) (k : A -> result B) b :
  bind r k = Ok b -> exists a, r = Ok a /\ k a = Ok b.
Proof. destruct r as [a|e]; cbn; [eauto | discriminate]. Qed.

Lemma mapM_Forall2 {A B} (f : A -> result B) l l' :
  mapM f l = Ok l' -> Forall2 (fun a b => f a = Ok b) l l'.
Proof.
  revert l'. induction l as [|a l IH]; cbn; intros l' H.
  - injection H as <-. constructor.
  - apply bind_Ok in H. destruct H as (b & Hb & H).
    apply bind_Ok in H. destruct H as (bs & Hbs & H).
    injection H as <-. constructor; auto.
Qed.

Lemma mapM_map {A B C} (f : B -> result C) (g : A -> B) l :
  mapM f (map g l) = mapM (fun a => f (g a)) l.
Proof.
  induction l as [|a l IH]; cbn; [reflexivity|]. now rewrite IH.
Qed.

(** [mapM] stops at the first element whose image is an exception. *)
Lemma mapM_Raise {A B} (f : A -> result B) l e :
  mapM f l = Raise e -> exists a, In a l /\ f a = Raise e.
Proof.
  induction l as [|a l IH]; cbn; [discriminate|].
  destruct (f a) as [b|e'] eqn:Hfa; cbn.
  - destruct (mapM f l) as [bs|e'']; cbn; [discriminate|].
    intros H. injection H as ->. destruct IH as (x & Hx & Hfx); eauto.
  - intros H. injection H as ->. eauto.
Qed.

(** ** Cells *)

Lemma mem_In c l : mem c l = true <-> In c l.
Proof.
  unfold mem. rewrite existsb_exists. split.
  - intros (x & Hx & Heq). apply String.eqb_eq in Heq. now subst.
  - intros H. exists c. split; [assumption | apply String.eqb_refl].
Qed.

Lemma get_filter (p : string -> bool) k l :
  p k = true -> get k (filter (fun kv => p (fst kv)) l) = get k l.
Proof.
  intros Hp. induction l as [|[k' v] l IH]; cbn; [reflexivity|].
  destruct (p k') eqn:Hk'; cbn; destruct (String.eqb_spec k' k) as [->|Hne]; auto.
  congruence.
Qed.

Lemma get_filter_out (p : string -> bool) k l :
  p k = false -> get k (filter (fun kv => p (fst kv)) l) = None.
Proof.
  intros Hp. induction l as [|[k' v] l IH]; cbn; [reflexivity|].
  destruct (p k') eqn:Hk'; cbn; auto.
  destruct (String.eqb_spec k' k) as [->|Hne]; [congruence | auto].
Qed.

Lemma get_map_snd (f : value -> value) k l :
  get k (map (fun kv => (fst kv, f (snd kv))) l) = option_map f (get k l).
Proof.
  induction l as [|[k' v] l IH]; cbn; [reflexivity|].
  destruct (k' =? k)%string; auto.
Qed.

Lemma get_app k l l' :
  get k (l ++ l') = match get k l with Some v => Some v | None => get k l' end.
Proof.
  induction l as [|[k' v] l IH]; cbn; [reflexivity|].
  destruct (k' =? k)%string; auto.
Qed.

Lemma get_None_mem k l : mem k (map fst l) = false -> get k l = None.
Proof.
  induction l as [|[k' v] l IH]; cbn; [reflexivity|].
  rewrite String.eqb_sym. destruct (k' =? k)%string; cbn; [discriminate | auto].
Qed.

Lemma get_set_cell_same c v l : get c (set_cell c v l) = Some v.
Proof.
  unfold set_cell. destruct (mem c (map fst l)) eqn:Hm.
  - induction l as [|[k' v'] l IH]; cbn in *; [discriminate|].
    rewrite String.eqb_sym in Hm.
    destruct (String.eqb_spec k' c) as [->|Hne]; cbn.
    + now rewrite String.eqb_refl.
    + destruct (String.eqb_spec k' c); [contradiction | auto].
  - rewrite get_app, (get_None_mem _ _ Hm). cbn. now rewrite String.eqb_refl.
Qed.

Lemma get_set_cell_other c v k l : c <> k -> get k (set_cell c v l) = get k l.
Proof.
  intros Hne. unfold set_cell. destruct (mem c (map fst l)).
  - induction l as [|[k' v'] l IH]; cbn; [reflexivity|].
    destruct (String.eqb_spec k' c) as [->|Hne']; cbn.
    + destruct (String.eqb_spec c k); [contradiction | auto].
    + destruct (k' =? k)%string; auto.
  - rewrite get_app. destruct (get k l); [reflexivity|]. cbn.
    destruct (String.eqb_spec c k); [contradiction | reflexivity].
Qed.

(** ** The pipeline in one step *)

Lemma mapM_bind_Ok {A B C} (f : A -> result B) (g : B -> C) l :
  mapM (fun a => b <- f a ;; Ok (g b)) l = (bs <- mapM f l ;; Ok (map g bs)).
Proof.
  induction l as [|a l IH]; cbn; [reflexivity|].
  rewrite IH. destruct (f a); cbn; [|reflexivity].
  destruct (mapM f l); reflexivity.
Qed.

Lemma mapM_ext {A B} (f g : A -> result B) l :
  (forall a, f a = g a) -> mapM f l = mapM g l.
Proof.
  intros H. induction l as [|a l IH]; cbn; [reflexivity|]. now rewrite H, IH.
Qed.

Lemma mapM_length {A B} (f : A -> result B) l l' :
  mapM f l = Ok l' -> List.length l = List.length l'.
Proof.
  intros H. apply mapM_Forall2 in H. induction H; cbn; congruence.
Qed.

Lemma mem_filter (p : string -> bool) c l :
  mem c (filter p l) = p c && mem c l.
Proof.
  unfold mem. induction l as [|x l IH]; cbn; [now rewrite andb_false_r|].
  destruct (p x) eqn:Hx; cbn; rewrite IH.
  - destruct (String.eqb_spec c x) as [->|]; cbn; [now rewrite Hx | reflexivity].
  - destruct (String.eqb_spec c x) as [->|]; cbn; [|reflexivity].
    rewrite Hx. reflexivity.
Qed.

Lemma cell_mkRow c n l : cell c (mkRow n l) = match get c l with Some v => v | None => VNull end.
Proof. reflexivity. Qed.

(** The rows through the two column assignments. *)
Lemma assign_date_day l : forall ds,
  List.length l = List.length ds ->
  let rows1 := map (fun r => mkRow (name r)
                  (filter (fun kv => negb (mem (fst kv) dropped)) (cells r))) l in
  let rows2 := map (fun rv => mkRow (name (fst rv))
                  (set_cell "date" (snd rv) (cells (fst rv))))
                 (combine rows1 (map VDate ds)) in
  map (cell "date") rows2 = map VDate ds /\
  map (fun rv => mkRow (name (fst rv)) (set_cell "day" (snd rv) (cells (fst rv))))
      (combine rows2 (map (fun d => VStr (strftime_b_d d)) ds))
  = map (fun rd => dated (fst rd) (snd rd)) (combine l ds).
Proof.
  induction l as [|r l IH]; intros [|d ds] Hlen; try discriminate; cbn zeta.
  - split; reflexivity.
  - cbn in Hlen. injection Hlen as Hlen. specialize (IH ds Hlen). cbn zeta in IH.
    destruct IH as [IH1 IH2]. cbn [map combine fst snd]. split.
    + rewrite IH1. f_equal. rewrite cell_mkRow. cbn [cells].
      now rewrite get_set_cell_same.
    + rewrite IH2. reflexivity.
Qed.

Lemma mapM_day_label ds :
  mapM day_label (map VDate ds) = Ok (map (fun d => VStr (strftime_b_d d)) ds).
Proof.
  induction ds as [|d ds IH]; cbn; [reflexivity|]. now rewrite IH.
Qed.

Lemma getattr_Ok c df :
  mem c (columns df) = true -> getattr c df = Ok (map (cell c) (rows df)).
Proof. unfold getattr. now intros ->. Qed.

Lemma mem_app_l c l l' : mem c l = true -> mem c (l ++ l') = true.
Proof. unfold mem. rewrite existsb_app. now intros ->. Qed.

Lemma columns_setitem_mem c k vals df :
  mem c (columns df) = true -> mem c (columns (setitem k vals df)) = true.
Proof.
  intros H. cbn [setitem columns]. destruct (mem k (columns df)); [assumption|].
  now apply mem_app_l.
Qed.

(** The pipeline in one step: the two column checks, the dates, and the
    table that comes out. *)
Lemma clean_unfold df :
  clean df =
  if negb (mem "hash" (columns df) && mem "dateChecked" (columns df)) then Raise KeyError
  else if negb (mem "date" (columns df)) then Raise AttributeError
  else ds <- mapM row_date (rows df) ;;
       Ok (mkFrame (cleaned_columns (columns df)) (cleaned_rows (rows df) ds)).
Proof.
  unfold clean, drop. cbn [forallb]. rewrite andb_true_r.
  destruct (mem "hash" (columns df) && mem "dateChecked" (columns df)); cbn [negb bind]; [|reflexivity].
  set (data1 := mkFrame _ _).
  assert (Hc1 : mem "date" (columns data1) = mem "date" (columns df)).
  { subst data1. cbn [columns]. rewrite mem_filter. reflexivity. }
  destruct (mem "date" (columns df)) eqn:Hdate; cbn [negb].
  2:{ unfold getattr. now rewrite Hc1. }
  rewrite (getattr_Ok _ _ Hc1). cbn [bind].
  subst data1. cbn [rows]. rewrite map_map, mapM_map.
  rewrite (mapM_ext _ (fun r => d <- row_date r ;; Ok (VDate d))).
  2:{ intros r. unfold parse_date, row_date. rewrite cell_mkRow. cbn [cells].
      rewrite (get_filter (fun k => negb (mem k ["hash"; "dateChecked"]))) by reflexivity.
      reflexivity. }
  rewrite mapM_bind_Ok.
  destruct (mapM row_date (rows df)) as [ds|e] eqn:Hds; cbn [bind]; [|reflexivity].
  apply mapM_length in Hds.
  destruct (assign_date_day (rows df) ds Hds) as [H1 H2]. cbn zeta in H1, H2.
  unfold dropped in H1, H2.
  set (data1 := mkFrame _ _) in *.
  set (data2 := setitem "date" (map VDate ds) data1).
  assert (Hc2 : mem "date" (columns data2) = true)
    by (apply columns_setitem_mem; exact Hc1).
  rewrite (getattr_Ok _ _ Hc2).
  replace (map (cell "date") (rows data2)) with (map VDate ds).
  cbn [bind]. rewrite mapM_day_label. cbn [bind].
  set (data3 := setitem "day" _ data2).
  assert (Hc3 : mem "date" (columns data3) = true)
    by (apply columns_setitem_mem; exact Hc2).
  unfold sort_values. rewrite Hc3. cbn [bind].
  unfold set_index. cbn [columns rows]. rewrite Hc3. cbn [bind].
  unfold fillna. cbn [columns rows].
  replace (rows data3)
    with (map (fun rd => dated (fst rd) (snd rd)) (combine (rows df) ds)).
  assert (Hcols : columns data3
                  = let cols := filter (fun c => negb (mem c dropped)) (columns df) in
                    if mem "day" cols then cols else cols ++ ["day"]).
  { subst data3 data2 data1. cbn [setitem columns]. cbn zeta. unfold dropped.
    rewrite mem_filter, Hdate. reflexivity. }
  rewrite Hcols. unfold cleaned_columns, cleaned_rows.
  f_equal. f_equal. rewrite map_map. apply map_ext. intros r. reflexivity.
Qed.

(** ** Sorting *)

Lemma compare_antisym a b : Datetime.compare b a = CompOpp (Datetime.compare a b).
Proof.
  unfold Datetime.compare.
  rewrite (Z.compare_antisym (year a)), (Z.compare_antisym (month a)),
    (Z.compare_antisym (day a)).
  destruct (year a ?= year b); cbn; try reflexivity.
  destruct (month a ?= month b); cbn; reflexivity.
Qed.

Lemma compare_Eq a b : Datetime.compare a b = Eq <-> a = b.
Proof.
  unfold Datetime.compare. destruct a as [y m d], b as [y' m' d']. cbn [year month day].
  split.
  - destruct (Z.compare_spec y y'); try discriminate.
    destruct (Z.compare_spec m m'); try discriminate.
    destruct (Z.compare_spec d d'); try discriminate. intros _. congruence.
  - intros [= -> -> ->]. now rewrite !Z.compare_refl.
Qed.

Lemma date_eqb_eq a b : Datetime.eqb a b = true <-> a = b.
Proof.
  unfold Datetime.eqb. rewrite <- compare_Eq.
  destruct (Datetime.compare a b); split; congruence.
Qed.

Lemma date_eqb_refl a : Datetime.eqb a a = true.
Proof. now apply date_eqb_eq. Qed.

Lemma value_leb_total a b : value_leb a b = false -> value_leb b a = true.
Proof.
  destruct a, b; cbn; try congruence. unfold Datetime.leb.
  rewrite (compare_antisym d d0). destruct (Datetime.compare d d0); cbn; congruence.
Qed.

Section SortValues.
Variable c : string.

Lemma insert_by_In x r l : In x (insert_by c r l) <-> x = r \/ In x l.
Proof.
  induction l as [|y l IH]; cbn.
  - intuition.
  - destruct (value_leb (cell c r) (cell c y)); cbn; [intuition|].
    rewrite IH. intuition.
Qed.

Lemma sorted_In x l : In x (fold_right (insert_by c) [] l) <-> In x l.
Proof.
  induction l as [|y l IH]; cbn; [reflexivity|].
  rewrite insert_by_In, IH. intuition.
Qed.

Lemma insert_by_HdRel r x l :
  (ordered c) x r -> HdRel (ordered c) x l -> HdRel (ordered c) x (insert_by c r l).
Proof.
  intros Hxr Hl. destruct l as [|y l]; cbn.
  - now constructor.
  - destruct (value_leb (cell c r) (cell c y)); constructor; auto.
    now inversion Hl.
Qed.

Lemma insert_by_Sorted r l :
  Sorted (ordered c) l -> Sorted (ordered c) (insert_by c r l).
Proof.
  induction 1 as [|y l Hs IH Hhd]; cbn.
  - repeat constructor.
  - destruct (value_leb (cell c r) (cell c y)) eqn:Hle.
    + constructor; [now constructor | now constructor].
    + constructor; [exact IH|].
      apply insert_by_HdRel; [|exact Hhd].
      now apply value_leb_total.
Qed.

Lemma sort_Sorted l : Sorted (ordered c) (fold_right (insert_by c) [] l).
Proof.
  induction l as [|r l IH]; cbn; [constructor | now apply insert_by_Sorted].
Qed.
End SortValues.

Lemma Sorted_adjacent {A} (R : A -> A -> Prop) l :
  Sorted R l -> forall i a b,
  nth_error l i = Some a -> nth_error l (S i) = Some b -> R a b.
Proof.
  induction 1 as [|x l Hs IH Hhd]; intros i a b Ha Hb.
  - destruct i; discriminate.
  - destruct i as [|i]; cbn in *.
    + injection Ha as <-. destruct l as [|y l]; [discriminate|].
      cbn in Hb. injection Hb as <-. now inversion Hhd.
    + eapply IH; eassumption.
Qed.

(** ** What a cleaned row holds *)

Lemma Forall2_combine_In {A B} (P : A -> B -> Prop) l l' :
  Forall2 P l l' -> forall a b, In (a, b) (combine l l') -> P a b.
Proof.
  induction 1 as [|x y l l' Hxy _ IH]; cbn; intros a b Hin; [contradiction|].
  destruct Hin as [[= <- <-]|Hin]; auto.
Qed.

Lemma Forall2_In_l {A B} (P : A -> B -> Prop) l l' :
  Forall2 P l l' -> forall a, In a l -> exists b, In (a, b) (combine l l').
Proof.
  induction 1 as [|x y l l' Hxy _ IH]; cbn; intros a Hin; [contradiction|].
  destruct Hin as [->|Hin]; [eauto|].
  destruct (IH a Hin) as (b & Hb). eauto.
Qed.

Lemma cleaned_rows_In l ds r' :
  In r' (cleaned_rows l ds) <->
  exists r d, In (r, d) (combine l ds) /\ r' = indexed (dated r d).
Proof.
  unfold cleaned_rows. rewrite in_map_iff. split.
  - intros (x & <- & Hx). apply sorted_In in Hx. apply in_map_iff in Hx.
    destruct Hx as ([r d] & <- & Hin). eauto.
  - intros (r & d & Hin & ->). exists (dated r d). split; [reflexivity|].
    apply sorted_In. apply in_map_iff. exists (r, d). auto.
Qed.

Lemma cell_date_dated r d : cell "date" (dated r d) = VDate d.
Proof.
  unfold cell, dated. cbn [cells].
  rewrite get_set_cell_other by discriminate. now rewrite get_set_cell_same.
Qed.

Lemma name_indexed_dated r d : name (indexed (dated r d)) = VDate d.
Proof. unfold indexed. cbn [name]. apply cell_date_dated. Qed.

Lemma get_indexed k r :
  k <> "date" ->
  get k (cells (indexed r)) = option_map (fill (VInt 0)) (get k (cells r)).
Proof.
  intros Hk. unfold indexed. cbn [cells]. rewrite get_map_snd. f_equal.
  apply (get_filter (fun k => negb (k =? "date")%string)).
  apply negb_true_iff. now apply String.eqb_neq.
Qed.

Lemma day_indexed_dated r d :
  get "day" (cells (indexed (dated r d))) = Some (VStr (strftime_b_d d)).
Proof.
  rewrite get_indexed by discriminate. unfold dated. cbn [cells].
  now rewrite get_set_cell_same.
Qed.

Lemma get_indexed_dated k r d :
  k <> "hash" -> k <> "dateChecked" -> k <> "date" -> k <> "day" ->
  get k (cells (indexed (dated r d))) = option_map (fill (VInt 0)) (get k (cells r)).
Proof.
  intros H1 H2 H3 H4. rewrite get_indexed by assumption. f_equal.
  unfold dated. cbn [cells].
  rewrite !get_set_cell_other by congruence.
  apply (get_filter (fun k => negb (mem k dropped))).
  unfold dropped, mem. cbn [existsb].
  apply String.eqb_neq in H1, H2. now rewrite H1, H2.
Qed.

(** Inversion of a successful cleaning. *)
Lemma clean_Ok df data :
  clean df = Ok data ->
  exists ds,
    Forall2 (fun r d => row_date r = Ok d) (rows df) ds /\
    columns data = cleaned_columns (columns df) /\
    rows data = cleaned_rows (rows df) ds.
Proof.
  rewrite clean_unfold.
  destruct (negb _); [discriminate|]. destruct (negb _); [discriminate|].
  intros H. apply bind_Ok in H. destruct H as (ds & Hds & [= <-]).
  exists ds. cbn. split; [now apply mapM_Forall2 | auto].
Qed.

Lemma strptime_valid s d : strptime_Ymd s = Ok d -> valid d = true.
Proof.
  unfold strptime_Ymd. destruct (match_Y s) as [[y rest]|]; [|discriminate].
  destruct (match_md rest) as [|[[m dd] [|c rest']] l]; try discriminate.
  unfold new_date. destruct (valid (mkdate y m dd)) eqn:Hv; [|discriminate].
  now intros [= <-].
Qed.




Lemma days_in_month_le_31 y m : 1 <= m <= 12 -> days_in_month y m <= 31.
Proof.
  intros Hm. unfold days_in_month.
  destruct (is_leap y);
    destruct (month_cases m Hm) as [->|[->|[->|[->|[->|[->|[->|[->|[->|[->|[->| ->]]]]]]]]]]];
    vm_compute; discriminate.
Qed.


Lemma all_labels_ok :
  forallb (fun m => forallb (fun d => label_ok (Z.of_nat m) (Z.of_nat d)) (seq 1 31)) (seq 1 12) = true.
Proof. vm_compute. reflexivity. Qed.

Lemma label_round_trip d :
  valid d = true -> label_month_day (strftime_b_d d) = Some (month d, day d).
Proof.
  intros Hv. pose proof (valid_fields _ Hv) as (_ & Hm & Hd).
  pose proof (days_in_month_le_31 (year d) _ Hm) as H31.
  pose proof all_labels_ok as H.
  rewrite forallb_forall in H. specialize (H (Z.to_nat (month d))).
  rewrite forallb_forall in H. specialize (H ltac:(apply in_seq; lia) (Z.to_nat (day d)) ltac:(apply in_seq; lia)).
  rewrite !Z2Nat.id in H by lia. unfold label_ok in H.
  change (strftime_b_d (mkdate 0 (month d) (day d))) with (strftime_b_d d) in H.
  destruct (label_month_day (strftime_b_d d)) as [[m' d']|]; [|discriminate].
  apply andb_true_iff in H. rewrite !Z.eqb_eq in H. now destruct H as [-> ->].
Qed.

(** ** The estimator *)

Lemma add_days_back d0 :
  valid d0 = true -> 14 < toordinal d0 ->
  add_days d0 delta = Ok (fromordinal (toordinal d0 - 14)).
Proof.
  intros Hv H14. pose proof (toordinal_bounds d0 Hv) as Hb.
  unfold add_days, delta. cbv zeta.
  replace (toordinal d0 + -14) with (toordinal d0 - 14) by lia.
  replace ((0 <? toordinal d0 - 14) && (toordinal d0 - 14 <=? MAXORDINAL)) with true.
  - reflexivity.
  - symmetry. apply andb_true_iff. rewrite Z.ltb_lt, Z.leb_le. lia.
Qed.

Lemma add_days_overflow d0 :
  toordinal d0 <= 14 -> add_days d0 delta = Raise OverflowError.
Proof.
  intros H14. unfold add_days, delta. cbv zeta.
  replace (0 <? toordinal d0 + -14) with false; [reflexivity|].
  symmetry. apply Z.ltb_ge. lia.
Qed.

Lemma estimate_Ok row d0 n :
  name row = VDate d0 -> valid d0 = true -> 14 < toordinal d0 ->
  get "death" (cells row) = Some (VInt n) ->
  estimate row
  = Ok (mkEstimate (fromordinal (toordinal d0 - 14))
          (float_of_Z n / death_rate) (float_of_Z n / death_rate_s)
          (strftime_b_d (fromordinal (toordinal d0 - 14)))).
Proof.
  intros Hname Hv H14 Hdeath. unfold estimate, getattr_row.
  rewrite Hname, Hdeath. cbn [date_of bind].
  now rewrite (add_days_back d0 Hv H14).
Qed.

(** The rows of a cleaned table are indexed by dates. *)
Lemma cleaned_row_valid df data row d0 :
  clean df = Ok data -> In row (rows data) -> name row = VDate d0 ->
  valid d0 = true.
Proof.
  intros H Hin Hname. apply clean_Ok in H. destruct H as (ds & Hds & _ & Hrows).
  rewrite Hrows in Hin. apply cleaned_rows_In in Hin.
  destruct Hin as (r & d & Hrd & ->). rewrite name_indexed_dated in Hname.
  injection Hname as <-.
  apply (Forall2_combine_In _ _ _ Hds) in Hrd. now apply strptime_valid in Hrd.
Qed.

(** *** The double nearest a 64-bit integer *)

Lemma binary_round_aux_sign m e l :
  binary_round_aux prec emax true m e l = SFopp (binary_round_aux prec emax false m e l).
Proof.
  unfold binary_round_aux.
  destruct (shr_fexp prec emax m e l) as [mrs1 e1].
  destruct (shr_fexp prec emax _ e1 loc_Exact) as [mrs2 e2].
  destruct (shr_m mrs2); try reflexivity.
  destruct (e2 <=? emax - prec); reflexivity.
Qed.

Lemma binary_round_sign p e :
  binary_round prec emax true p e = SFopp (binary_round prec emax false p e).
Proof.
  unfold binary_round. destruct (shl_align p e _) as [mz ez].
  apply binary_round_aux_sign.
Qed.

Lemma valid_binary_opp x : valid_binary (SFopp x) = valid_binary x.
Proof. destruct x; reflexivity. Qed.

Lemma binary_normalize_uint63 n :
  0 <= n < 2 ^ 63 ->
  binary_normalize prec emax n 0 false = Prim2SF (of_uint63 (Uint63.of_Z n)).
Proof.
  intros Hn. rewrite of_uint63_spec, Uint63.of_Z_spec.
  rewrite Z.mod_small; [reflexivity|]. change wB with (2 ^ 63). lia.
Qed.

Lemma binary_normalize_valid n :
  - 2 ^ 63 <= n < 2 ^ 63 ->
  valid_binary (binary_normalize prec emax n 0 false) = true.
Proof.
  intros Hn. destruct (Z_lt_le_dec n 0) as [Hneg|Hpos].
  - destruct n as [|p|p]; try lia. cbn [binary_normalize].
    rewrite binary_round_sign, valid_binary_opp.
    destruct (Z.eq_dec (Zpos p) (2 ^ 63)) as [Heq|Hne].
    + injection Heq as ->. vm_compute. reflexivity.
    + change (binary_round prec emax false p 0)
        with (binary_normalize prec emax (Zpos p) 0 false).
      rewrite binary_normalize_uint63 by lia. apply Prim2SF_valid.
  - rewrite binary_normalize_uint63 by lia. apply Prim2SF_valid.
Qed.

(** [float(n)] is the integer rounded to nearest, on the specification of
    the format. *)
Lemma float_of_Z_int64 n :
  - 2 ^ 63 <= n < 2 ^ 63 ->
  Prim2SF (float_of_Z n) = binary_normalize prec emax n 0 false.
Proof.
  intros Hn. unfold float_of_Z. apply Prim2SF_SF2Prim. now apply binary_normalize_valid.
Qed.

(** C1, as amended.  For a cleaned daily record (a row of the cleaned table,
    with a 64-bit integer death count) dated 15 January of year 1 or later
    (ordinal above 14) the estimator returns infected = death / 0.0066 and
    symptomatic = death / 0.0138: on the specification of binary64, the
    death count rounded to the nearest double, divided by the double
    nearest the rate and rounded to nearest.  For an earlier record the
    estimator returns nothing: it raises OverflowError. *)
Theorem estimate_infected_symptomatic
  (df data : DataFrame) (row : Row) (d0 : date) (n : Z) :
  clean df = Ok data ->
  In row (rows data) ->
  name row = VDate d0 ->
  - 2 ^ 63 <= n < 2 ^ 63 ->
  get "death" (cells row) = Some (VInt n) ->
  (14 < toordinal d0 ->
   exists e, estimate row = Ok e /\
     Prim2SF (infected e)
     = SF64div (binary_normalize prec emax n 0 false) (Prim2SF 0.0066) /\
     Prim2SF (symptomatic e)
     = SF64div (binary_normalize prec emax n 0 false) (Prim2SF 0.0138)) /\
  (toordinal d0 <= 14 -> estimate row = Raise OverflowError).
Proof.
  intros Hclean Hin Hname Hn Hdeath.
  pose proof (cleaned_row_valid _ _ _ _ Hclean Hin Hname) as Hv. split.
  - intros H14. rewrite (estimate_Ok row d0 n Hname Hv H14 Hdeath).
    eexists. split; [reflexivity|]. cbn [infected symptomatic].
    rewrite !FloatAxioms.div_spec, (float_of_Z_int64 n Hn). split; reflexivity.
  - intros H14. unfold estimate. rewrite Hname. cbn [date_of bind].
    now rewrite (add_days_overflow d0 H14).
Qed.

Lemma estimate_infected_symptomatic_witness :
  (14 < toordinal (mkdate 2020 3 17) ->
   exists e, estimate scenario_row = Ok e /\
     Prim2SF (infected e)
     = SF64div (binary_normalize prec emax 10 0 false) (Prim2SF 0.0066) /\
     Prim2SF (symptomatic e)
     = SF64div (binary_normalize prec emax 10 0 false) (Prim2SF 0.0138)) /\
  (toordinal (mkdate 2020 3 17) <= 14 -> estimate scenario_row = Raise OverflowError).
Proof.
  apply (estimate_infected_symptomatic scenario_raw cleaned_scenario
           scenario_row (mkdate 2020 3 17) 10).
  - reflexivity.
  - left. reflexivity.
  - reflexivity.
  - lia.
  - reflexivity.
Defined.

(** Against C1 as first stated: a cleaned record with a death count for which
    the estimator produces no estimate at all. *)
Lemma estimate_year_1_no_estimate :
  clean year_1_raw = Ok (mkFrame ["positive"; "death"; "day"] [year_1_row]) /\
  get "death" (cells year_1_row) = Some (VInt 10) /\
  toordinal (mkdate 1 1 5) = 5 /\
  estimate year_1_row = Raise OverflowError.
Proof. repeat split; reflexivity. Qed.

(** C2, as amended.  For a cleaned daily record dated 15 January of year 1
    or later (ordinal above 14) the estimate's date is the record's date
    minus exactly 14 days, a date again and never clamped; for an earlier
    record the subtraction leaves the range of dates and [estimate] raises
    OverflowError. *)
Theorem estimate_date_shift
  (df data : DataFrame) (row : Row) (d0 : date) (n : Z) :
  clean df = Ok data ->
  In row (rows data) ->
  name row = VDate d0 ->
  get "death" (cells row) = Some (VInt n) ->
  (14 < toordinal d0 ->
   exists e, estimate row = Ok e /\
             toordinal (est_date e) = toordinal d0 - 14 /\
             valid (est_date e) = true) /\
  (toordinal d0 <= 14 -> estimate row = Raise OverflowError).
Proof.
  intros Hclean Hin Hname Hdeath.
  pose proof (cleaned_row_valid _ _ _ _ Hclean Hin Hname) as Hv.
  pose proof (toordinal_bounds d0 Hv) as Hb. split.
  - intros H14. rewrite (estimate_Ok row d0 n Hname Hv H14 Hdeath).
    eexists. split; [reflexivity|]. cbn [est_date].
    apply ordinal_round_trip. lia.
  - intros H14. unfold estimate. rewrite Hname. cbn [date_of bind].
    now rewrite (add_days_overflow d0 H14).
Qed.

Lemma estimate_date_shift_witness :
  (14 < toordinal (mkdate 2020 3 17) ->
   exists e, estimate scenario_row = Ok e /\
             toordinal (est_date e) = toordinal (mkdate 2020 3 17) - 14 /\
             valid (est_date e) = true) /\
  (toordinal (mkdate 2020 3 17) <= 14 -> estimate scenario_row = Raise OverflowError).
Proof.
  apply (estimate_date_shift scenario_raw cleaned_scenario
           scenario_row (mkdate 2020 3 17) 10).
  - reflexivity.
  - left. reflexivity.
  - reflexivity.
  - reflexivity.
Defined.

(** C2 as stated fails: the record of 0001-01-05 is a cleaned record, and
    the estimator has no output for it. *)
Lemma estimate_date_shift_year_1 :
  clean year_1_raw = Ok (mkFrame ["positive"; "death"; "day"] [year_1_row]) /\
  estimate year_1_row = Raise OverflowError.
Proof. split; reflexivity. Qed.

(** ** Cleaning *)

Lemma mem_cleaned_columns_dropped k cols :
  In k dropped -> mem k (cleaned_columns cols) = false.
Proof.
  intros Hk. unfold cleaned_columns. cbv zeta. rewrite mem_filter.
  apply andb_false_iff. right.
  assert (H1 : mem k (filter (fun c => negb (mem c dropped)) cols) = false).
  { rewrite mem_filter. apply andb_false_iff. left.
    apply negb_false_iff. now apply mem_In. }
  destruct (mem "day" _); [exact H1|].
  unfold mem in *. rewrite existsb_app, H1. cbn.
  destruct Hk as [<-|[<-|[]]]; reflexivity.
Qed.

Lemma fill_fill v0 v : v0 <> VNull -> fill v0 (fill v0 v) = fill v0 v.
Proof. intros Hv0. destruct v; cbn; auto. destruct v0; cbn; congruence. Qed.

Lemma fillna_cleaned df data :
  clean df = Ok data -> fillna (VInt 0) data = data.
Proof.
  intros H. apply clean_Ok in H. destruct H as (ds & _ & _ & Hrows).
  destruct data as [cols rws]. cbn [rows] in Hrows. unfold fillna. cbn [columns rows].
  f_equal. rewrite Hrows. unfold cleaned_rows. rewrite map_map.
  apply map_ext. intros r. unfold indexed. cbn [name cells]. f_equal.
  rewrite map_map. apply map_ext. intros [k v]. cbn [fst snd]. f_equal.
  apply fill_fill. discriminate.
Qed.

(** C3, as amended.  Cleaning cannot be applied again: on a table it has
    produced it stops at its first step with KeyError, the columns 'hash'
    and 'dateChecked' being gone, and so leaves the cleaned table as it is;
    of its steps, the null fill is idempotent on a cleaned table. *)
Theorem clean_not_reapplicable (df data : DataFrame) :
  clean df = Ok data ->
  clean data = Raise KeyError /\ fillna (VInt 0) data = data.
Proof.
  intros H. split; [|eapply fillna_cleaned; eassumption].
  apply clean_Ok in H. destruct H as (ds & _ & Hcols & _).
  rewrite clean_unfold, Hcols.
  rewrite (mem_cleaned_columns_dropped "hash") by (cbn; auto). reflexivity.
Qed.

Lemma clean_not_reapplicable_witness :
  clean two_days_clean = Raise KeyError /\ fillna (VInt 0) two_days_clean = two_days_clean.
Proof. apply (clean_not_reapplicable two_days_raw two_days_clean). reflexivity. Defined.

(** C3 as stated fails: cleaning the cleaned scenario raises KeyError. *)
Lemma clean_twice_fails :
  clean scenario_raw = Ok (mkFrame ["positive"; "death"; "day"] [scenario_row]) /\
  clean (mkFrame ["positive"; "death"; "day"] [scenario_row]) = Raise KeyError.
Proof. split; reflexivity. Qed.

Lemma cleaned_rows_sorted l ds :
  Sorted (fun r1 r2 => value_leb (name r1) (name r2) = true) (cleaned_rows l ds).
Proof.
  unfold cleaned_rows.
  generalize (sort_Sorted "date" (map (fun rd => dated (fst rd) (snd rd)) (combine l ds))).
  generalize (fold_right (insert_by "date") []
                (map (fun rd => dated (fst rd) (snd rd)) (combine l ds))).
  intros s Hs. induction Hs as [|r s Hs IH Hhd]; cbn [map]; constructor.
  - exact IH.
  - destruct Hhd as [|r' s' Hrr']; cbn [map]; constructor. exact Hrr'.
Qed.

(** C4. The cleaned table is in ascending date order whatever the order of
    the raw records: each row is dated no later than the next. *)
Theorem clean_sorted_by_date (df data : DataFrame) (i : nat) (r1 r2 : Row) :
  clean df = Ok data ->
  nth_error (rows data) i = Some r1 ->
  nth_error (rows data) (S i) = Some r2 ->
  exists d1 d2, name r1 = VDate d1 /\ name r2 = VDate d2 /\ Datetime.leb d1 d2 = true.
Proof.
  intros H H1 H2. apply clean_Ok in H. destruct H as (ds & _ & _ & Hrows).
  rewrite Hrows in H1, H2.
  pose proof (Sorted_adjacent _ _ (cleaned_rows_sorted (rows df) ds) i r1 r2 H1 H2) as Hle.
  apply nth_error_In in H1, H2. apply cleaned_rows_In in H1, H2.
  destruct H1 as (x1 & d1 & _ & ->). destruct H2 as (x2 & d2 & _ & ->).
  rewrite !name_indexed_dated in Hle. cbn in Hle.
  exists d1, d2. now rewrite !name_indexed_dated.
Qed.

Lemma clean_sorted_by_date_witness :
  exists d1 d2,
    name (mkRow (VDate (mkdate 2020 3 15))
            [("positive", VInt 0); ("death", VInt 3); ("day", VStr "Mar 15")]) = VDate d1 /\
    name (mkRow (VDate (mkdate 2020 3 17))
            [("positive", VInt 100); ("death", VInt 0); ("day", VStr "Mar 17")]) = VDate d2 /\
    Datetime.leb d1 d2 = true.
Proof.
  apply (clean_sorted_by_date two_days_raw two_days_clean 0); reflexivity.
Defined.



Lemma strptime_Raise s e : strptime_Ymd s = Raise e -> e = ValueError.
Proof.
  unfold strptime_Ymd. destruct (match_Y s) as [[y rest]|]; [|congruence].
  destruct (match_md rest) as [|[[m dd] [|c rest']] l]; try congruence.
  unfold new_date. destruct (valid _); congruence.
Qed.




(** C7. Every cleaned row carries as its day label the month abbreviation, a
    space and the two-digit day of its own date, and the label gives the
    month and the day back. *)
Theorem clean_day_label (df data : DataFrame) (r : Row) :
  clean df = Ok data ->
  In r (rows data) ->
  exists d,
    name r = VDate d /\
    get "day" (cells r) = Some (VStr (month_abbr (month d) ++ " " ++ pad2 (day d))%string) /\
    label_month_day (month_abbr (month d) ++ " " ++ pad2 (day d))%string = Some (month d, day d).
Proof.
  intros H Hin. apply clean_Ok in H. destruct H as (ds & Hds & _ & Hrows).
  rewrite Hrows in Hin. apply cleaned_rows_In in Hin.
  destruct Hin as (r0 & d & Hrd & ->). exists d. split; [|split].
  - apply name_indexed_dated.
  - apply day_indexed_dated.
  - apply (label_round_trip d).
    apply (Forall2_combine_In _ _ _ Hds) in Hrd. now apply strptime_valid in Hrd.
Qed.

Lemma clean_day_label_witness :
  exists d,
    name scenario_row = VDate d /\
    get "day" (cells scenario_row)
    = Some (VStr (month_abbr (month d) ++ " " ++ pad2 (day d))%string) /\
    label_month_day (month_abbr (month d) ++ " " ++ pad2 (day d))%string = Some (month d, day d).
Proof.
  apply (clean_day_label scenario_raw
           (mkFrame ["positive"; "death"; "day"] [scenario_row])).
  - reflexivity.
  - left. reflexivity.
Defined.

(** ** Rounding to a double *)

Lemma fexp_eq x : fexp prec emax x = Z.max (x - 53) (-1074).
Proof. reflexivity. Qed.

Lemma Zdigits2_nonneg n : 0 <= Zdigits2 n.
Proof. destruct n; cbn; lia. Qed.

Lemma shr_exponent mrs e n :
  shr mrs (e + 1) n = (fst (shr mrs e n), snd (shr mrs e n) + 1).
Proof. unfold shr. destruct n; cbn [fst snd]; f_equal; lia. Qed.

Lemma shr_exponent_ge mrs e n : e <= snd (shr mrs e n).
Proof. unfold shr. destruct n; cbn [snd]; lia. Qed.

Lemma shr_fexp_exponent m e l :
  -1021 <= e ->
  shr_fexp prec emax m (e + 1) l
  = (fst (shr_fexp prec emax m e l), snd (shr_fexp prec emax m e l) + 1).
Proof.
  intros He. unfold shr_fexp. rewrite !fexp_eq.
  pose proof (Zdigits2_nonneg m).
  replace (Z.max (Zdigits2 m + (e + 1) - 53) (-1074) - (e + 1))
    with (Z.max (Zdigits2 m + e - 53) (-1074) - e) by lia.
  apply shr_exponent.
Qed.

Lemma shr_fexp_exponent_ge m e l : e <= snd (shr_fexp prec emax m e l).
Proof. unfold shr_fexp. apply shr_exponent_ge. Qed.

Lemma binary_round_aux_double s m e l :
  -1021 <= e ->
  binary_round_aux prec emax s m (e + 1) l
  = SFdouble (binary_round_aux prec emax s m e l).
Proof.
  intros He. unfold binary_round_aux.
  rewrite (shr_fexp_exponent m e l He).
  pose proof (shr_fexp_exponent_ge m e l) as Hge.
  destruct (shr_fexp prec emax m e l) as [mrs1 e1]. cbn [fst snd] in *.
  rewrite (shr_fexp_exponent _ e1 loc_Exact) by lia.
  destruct (shr_fexp prec emax _ e1 loc_Exact) as [mrs2 e2]. cbn [fst snd].
  destruct (shr_m mrs2) as [|p|p]; cbn [SFdouble]; try reflexivity.
  destruct (e2 <=? emax - prec) eqn:H2; cbn [SFdouble].
  - reflexivity.
  - replace (e2 + 1 <=? emax - prec) with false; [reflexivity|].
    symmetry. apply Z.leb_gt. apply Z.leb_gt in H2. lia.
Qed.

Lemma binary_round_aux_exponent_ge s m e l s' m' e' :
  binary_round_aux prec emax s m e l = S754_finite s' m' e' -> e <= e'.
Proof.
  unfold binary_round_aux.
  pose proof (shr_fexp_exponent_ge m e l) as H1.
  destruct (shr_fexp prec emax m e l) as [mrs1 e1]. cbn [snd] in H1.
  match goal with |- context [shr_fexp prec emax ?m2 e1 loc_Exact] =>
    pose proof (shr_fexp_exponent_ge m2 e1 loc_Exact) as H2;
    destruct (shr_fexp prec emax m2 e1 loc_Exact) as [mrs2 e2]
  end.
  cbn [snd] in H2. destruct (shr_m mrs2); try discriminate.
  destruct (e2 <=? emax - prec); [|discriminate]. intros [= _ _ <-]. lia.
Qed.

(** ** Shifting right *)

Lemma iter_pos_comm {A} (f : A -> A) p : forall x,
  iter_pos f p (f x) = f (iter_pos f p x).
Proof.
  induction p as [p IH|p IH|]; intros x; cbn [iter_pos].
  - now rewrite !IH.
  - now rewrite !IH.
  - reflexivity.
Qed.

Lemma iter_pos_succ {A} (f : A -> A) p : forall x,
  iter_pos f (Pos.succ p) x = iter_pos f p (f x).
Proof.
  induction p as [p IH|p IH|]; intros x; cbn [iter_pos Pos.succ].
  - rewrite !IH. f_equal. symmetry. apply iter_pos_comm.
  - reflexivity.
  - reflexivity.
Qed.

Lemma iter_pos_invariant {A} (f : A -> A) (P : A -> Prop) :
  (forall x, P x -> P (f x)) -> forall p x, P x -> P (iter_pos f p x).
Proof.
  intros Hf. induction p as [p IH|p IH|]; intros x Hx; cbn [iter_pos]; auto.
Qed.

Lemma shr_1_bound b mrs : 0 <= shr_m mrs <= b -> 0 <= shr_m (shr_1 mrs) <= b.
Proof.
  destruct mrs as [m r s]. cbn [shr_m shr_1].
  destruct m as [|[p|p|]|p]; cbn [shr_m]; lia.
Qed.

Lemma shr_bound b mrs e n :
  0 <= shr_m mrs <= b -> 0 <= shr_m (fst (shr mrs e n)) <= b.
Proof.
  intros H. unfold shr. destruct n; cbn [fst]; try assumption.
  apply iter_pos_invariant; [apply shr_1_bound | assumption].
Qed.

Lemma shr_m_of_loc m l : shr_m (shr_record_of_loc m l) = m.
Proof. destruct l as [|[]]; reflexivity. Qed.

(** Halving an even mantissa ahead of the shift only moves the exponent. *)
Lemma shr_fexp_even p e :
  1 <= fexp prec emax (Zdigits2 (Zpos p~0) + e) - e ->
  shr_fexp prec emax (Zpos p~0) e loc_Exact
  = shr_fexp prec emax (Zpos p) (e + 1) loc_Exact.
Proof.
  unfold shr_fexp. rewrite !fexp_eq.
  cbn [Zdigits2 digits2_pos shr_record_of_loc]. rewrite Pos2Z.inj_succ.
  set (d := Zpos (digits2_pos p)).
  intros Hn.
  replace (Z.max (d + (e + 1) - 53) (-1074) - (e + 1))
    with (Z.max (Z.succ d + e - 53) (-1074) - e - 1) by lia.
  remember (Z.max (Z.succ d + e - 53) (-1074) - e) as n eqn:Hn'. clear Hn'.
  unfold shr. destruct n as [|k|k]; try lia.
  destruct (Pos.eq_dec k 1) as [->|Hk].
  - cbn. f_equal; lia.
  - replace (Zpos k - 1) with (Zpos (Pos.pred k)) by lia.
    f_equal; [|lia].
    rewrite <- (Pos.succ_pred k Hk) at 1. rewrite iter_pos_succ. reflexivity.
Qed.

Lemma binary_round_aux_even s p e :
  1 <= fexp prec emax (Zdigits2 (Zpos p~0) + e) - e ->
  binary_round_aux prec emax s (Zpos p~0) e loc_Exact
  = binary_round_aux prec emax s (Zpos p) (e + 1) loc_Exact.
Proof.
  intros H. unfold binary_round_aux. now rewrite (shr_fexp_even p e H).
Qed.

(** ** Integers as doubles *)

Lemma binary_round_double p :
  binary_round prec emax false (p~0)%positive 0 = SFdouble (binary_round prec emax false p 0).
Proof.
  unfold binary_round, shl_align. rewrite !fexp_eq.
  cbn [digits2_pos]. rewrite Pos2Z.inj_succ, !Z.add_0_r, !Z.sub_0_r.
  set (d := Zpos (digits2_pos p)).
  assert (Hd : 1 <= d) by (subst d; lia).
  replace (Z.max (Z.succ d - 53) (-1074)) with (d - 52) by lia.
  replace (Z.max (d - 53) (-1074)) with (d - 53) by lia.
  destruct (d - 53) as [|k|k] eqn:Hk.
  - (* 53 digits *)
    replace (d - 52) with 1 by lia.
    rewrite binary_round_aux_even.
    + apply binary_round_aux_double. lia.
    + rewrite fexp_eq. cbn [Zdigits2 digits2_pos]. rewrite Pos2Z.inj_succ. fold d. lia.
  - (* more *)
    replace (d - 52) with (Zpos (Pos.succ k)) by lia.
    rewrite binary_round_aux_even.
    + apply binary_round_aux_double. lia.
    + rewrite fexp_eq. cbn [Zdigits2 digits2_pos]. rewrite Pos2Z.inj_succ. fold d. lia.
  - (* fewer: the mantissa is shifted left *)
    destruct (Pos.eq_dec k 1) as [->|Hk1].
    + replace (d - 52) with 0 by lia.
      change (Pos.iter xO p 1) with (p~0)%positive.
      change 0 with (-1 + 1) at 1. apply binary_round_aux_double. lia.
    + replace (d - 52) with (Zneg (Pos.pred k)) by lia.
      replace (Pos.iter xO (p~0)%positive (Pos.pred k)) with (Pos.iter xO p k).
      * replace (Zneg (Pos.pred k)) with (Zneg k + 1) by lia.
        apply binary_round_aux_double. lia.
      * rewrite <- (Pos.succ_pred k Hk1) at 1.
        rewrite Pos.iter_succ. now rewrite Pos.iter_swap.
Qed.

(** ** The size of a mantissa *)

Lemma digits2_pos_size p : digits2_pos p = Pos.size p.
Proof. induction p as [p IH|p IH|]; cbn; now rewrite ?IH. Qed.

Lemma Zdigits2_log2 p : Zdigits2 (Zpos p) = Z.log2 (Zpos p) + 1.
Proof.
  cbn [Zdigits2]. destruct p as [p|p|]; cbn [digits2_pos Z.log2];
    rewrite ?digits2_pos_size; lia.
Qed.

Lemma Zdigits2_le a b : 0 <= a <= b -> Zdigits2 a <= Zdigits2 b.
Proof.
  intros [Ha Hab]. destruct a as [|a|a]; [apply Zdigits2_nonneg| |lia].
  destruct b as [|b|b]; try lia.
  rewrite !Zdigits2_log2. pose proof (Z.log2_le_mono (Zpos a) (Zpos b) Hab). lia.
Qed.

Lemma Zdigits2_succ a : 0 <= a -> Zdigits2 (a + 1) <= Zdigits2 a + 1.
Proof.
  intros Ha. destruct a as [|a|a]; [cbn; lia| |lia].
  replace (Zpos a + 1) with (Zpos (a + 1)) by lia.
  rewrite !Zdigits2_log2.
  pose proof (Z.log2_succ_le (Zpos a)). replace (Zpos (a + 1)) with (Z.succ (Zpos a)) by lia.
  lia.
Qed.

Lemma digits2_pos_iter_xO p k :
  Zpos (digits2_pos (Pos.iter xO p k)) = Zpos (digits2_pos p) + Zpos k.
Proof.
  induction k as [|k IH] using Pos.peano_ind.
  - cbn. lia.
  - rewrite Pos.iter_succ. cbn [digits2_pos]. lia.
Qed.

Lemma shr_exponent_le mrs e n : snd (shr mrs e n) <= e + Z.max 0 n.
Proof. unfold shr. destruct n; cbn [snd]; lia. Qed.

Lemma round_nearest_even_bound m l :
  0 <= m -> 0 <= round_nearest_even m l <= m + 1.
Proof.
  intros Hm. destruct l as [|[]]; cbn [round_nearest_even]; try lia.
  destruct (Z.even m); lia.
Qed.

(** The exponent a rounding can reach, from the size of what it rounds. *)
Lemma binary_round_aux_exponent_le s m e l s' m' e' :
  0 <= m -> -1021 <= e ->
  binary_round_aux prec emax s m e l = S754_finite s' m' e' ->
  e' <= e + Z.max 0 (Zdigits2 m - 53) + Z.max 0 (Zdigits2 m - 52).
Proof.
  intros Hm He. unfold binary_round_aux, shr_fexp. rewrite !fexp_eq.
  pose proof (Zdigits2_nonneg m) as Hd.
  replace (Z.max (Zdigits2 m + e - 53) (-1074) - e) with (Zdigits2 m - 53) by lia.
  pose proof (shr_exponent_le (shr_record_of_loc m l) e (Zdigits2 m - 53)) as H1.
  pose proof (shr_exponent_ge (shr_record_of_loc m l) e (Zdigits2 m - 53)) as H1'.
  pose proof (shr_bound m (shr_record_of_loc m l) e (Zdigits2 m - 53)) as Hb.
  rewrite shr_m_of_loc in Hb. specialize (Hb ltac:(lia)).
  destruct (shr (shr_record_of_loc m l) e (Zdigits2 m - 53)) as [mrs1 e1].
  cbn [fst snd] in *.
  set (m2 := round_nearest_even (shr_m mrs1) (loc_of_shr_record mrs1)).
  pose proof (round_nearest_even_bound (shr_m mrs1) (loc_of_shr_record mrs1) (proj1 Hb)) as Hm2.
  fold m2 in Hm2.
  pose proof (Zdigits2_nonneg m2) as Hd2.
  assert (Hd2' : Zdigits2 m2 <= Zdigits2 m + 1).
  { transitivity (Zdigits2 (m + 1)); [apply Zdigits2_le; lia | now apply Zdigits2_succ]. }
  rewrite fexp_eq.
  replace (Z.max (Zdigits2 m2 + e1 - 53) (-1074) - e1) with (Zdigits2 m2 - 53) by lia.
  pose proof (shr_exponent_le (shr_record_of_loc m2 loc_Exact) e1 (Zdigits2 m2 - 53)) as H2.
  destruct (shr (shr_record_of_loc m2 loc_Exact) e1 (Zdigits2 m2 - 53)) as [mrs2 e2].
  cbn [snd] in H2. destruct (shr_m mrs2); try discriminate.
  destruct (e2 <=? emax - prec); [|discriminate]. intros [= _ _ <-]. lia.
Qed.

Lemma binary_round_exponent p s m e :
  Zpos p < 2 ^ 62 ->
  binary_round prec emax false p 0 = S754_finite s m e -> -52 <= e <= 19.
Proof.
  intros Hp. unfold binary_round, shl_align. rewrite fexp_eq, Z.add_0_r, Z.sub_0_r.
  assert (Hd : 1 <= Zpos (digits2_pos p) <= 62).
  { split; [lia|]. change (Zpos (digits2_pos p)) with (Zdigits2 (Zpos p)).
    rewrite Zdigits2_log2.
    pose proof (proj1 (Z.log2_lt_pow2 (Zpos p) 62 ltac:(lia)) Hp). lia. }
  replace (Z.max (Zpos (digits2_pos p) - 53) (-1074)) with (Zpos (digits2_pos p) - 53) by lia.
  destruct (Zpos (digits2_pos p) - 53) as [|k|k] eqn:Hk.
  - intros H. pose proof (binary_round_aux_exponent_ge _ _ _ _ _ _ _ H).
    apply binary_round_aux_exponent_le in H; try lia.
    cbn [Zdigits2] in H. lia.
  - intros H. pose proof (binary_round_aux_exponent_ge _ _ _ _ _ _ _ H).
    apply binary_round_aux_exponent_le in H; try lia.
    cbn [Zdigits2] in H. lia.
  - intros H. pose proof (binary_round_aux_exponent_ge _ _ _ _ _ _ _ H).
    apply binary_round_aux_exponent_le in H; try lia.
    cbn [Zdigits2] in H. rewrite digits2_pos_iter_xO in H. lia.
Qed.

(** ** Twice a double *)

Lemma Prim2SF_two : Prim2SF 2 = S754_finite false 4503599627370496 (-51).
Proof. reflexivity. Qed.

Lemma shr_52 m :
  iter_pos shr_1 52 (Build_shr_record (Zpos (4503599627370496 * m)) false false)
  = Build_shr_record (Zpos m) false false.
Proof. reflexivity. Qed.

Lemma digits_52 m :
  Zpos (digits2_pos (4503599627370496 * m)) = Zpos (digits2_pos m) + 52.
Proof.
  change (4503599627370496 * m)%positive with (Pos.iter xO m 52).
  apply digits2_pos_iter_xO.
Qed.

(** Twice a normal double, computed by the multiplication. *)
Lemma SFmul_two y :
  valid_binary y = true ->
  (forall s m e, y = S754_finite s m e -> -1073 <= e) ->
  SF64mul (S754_finite false 4503599627370496 (-51)) y = SFdouble y.
Proof.
  intros Hv He. destruct y as [s|s| |s m e]; try reflexivity.
  specialize (He s m e eq_refl).
  cbn [valid_binary] in Hv. unfold bounded, canonical_mantissa in Hv.
  apply andb_true_iff in Hv. destruct Hv as [Hc _].
  apply Z.eqb_eq in Hc. rewrite fexp_eq in Hc.
  assert (Hd : Zpos (digits2_pos m) = 53) by lia.
  unfold SF64mul, SFmul. cbn [xorb].
  unfold binary_round_aux, shr_fexp. rewrite fexp_eq.
  cbn [Zdigits2]. rewrite digits_52, Hd.
  replace (Z.max (53 + 52 + (-51 + e) - 53) (-1074) - (-51 + e)) with 52 by lia.
  cbn [shr_record_of_loc shr]. rewrite shr_52.
  cbn [shr_m loc_of_shr_record round_nearest_even]. rewrite fexp_eq.
  cbn [Zdigits2]. rewrite Hd.
  replace (Z.max (53 + (-51 + e + 52) - 53) (-1074) - (-51 + e + 52)) with 0 by lia.
  cbn [shr shr_m SFdouble].
  replace (-51 + e + 52) with (e + 1) by lia. reflexivity.
Qed.

(** ** Dividing twice as much *)

Lemma SFdiv_core_binary_double m1 e1 m2 e2 :
  -1021 <= Zdigits2 m1 + e1 - (Zdigits2 m2 + e2) - 53 ->
  SFdiv_core_binary prec emax m1 (e1 + 1) m2 e2
  = (let '(q, e, l) := SFdiv_core_binary prec emax m1 e1 m2 e2 in (q, e + 1, l)).
Proof.
  intros H. unfold SFdiv_core_binary. cbv zeta. rewrite !fexp_eq.
  replace (Z.min (Z.max (Zdigits2 m1 + (e1 + 1) - (Zdigits2 m2 + e2) - 53) (-1074))
             (e1 + 1 - e2))
    with (Z.min (Z.max (Zdigits2 m1 + e1 - (Zdigits2 m2 + e2) - 53) (-1074)) (e1 - e2) + 1)
    by lia.
  set (e' := Z.min _ (e1 - e2)).
  replace (e1 + 1 - e2 - (e' + 1)) with (e1 - e2 - e') by lia.
  destruct (Z.div_eucl _ m2) as [q r]. reflexivity.
Qed.

Lemma SFdiv_core_binary_exponent m1 e1 m2 e2 :
  -1021 <= Zdigits2 m1 + e1 - (Zdigits2 m2 + e2) - 53 ->
  -1021 <= e1 - e2 ->
  -1021 <= snd (fst (SFdiv_core_binary prec emax m1 e1 m2 e2)).
Proof.
  intros H H'. unfold SFdiv_core_binary. cbv zeta. rewrite !fexp_eq.
  destruct (Z.div_eucl _ m2) as [q r]. cbn [fst snd]. lia.
Qed.

Lemma SFdiv_double sx mx ex sy my ey :
  -1021 <= Zpos (digits2_pos mx) + ex - (Zpos (digits2_pos my) + ey) - 53 ->
  -1021 <= ex - ey ->
  SF64div (S754_finite sx mx (ex + 1)) (S754_finite sy my ey)
  = SFdouble (SF64div (S754_finite sx mx ex) (S754_finite sy my ey)).
Proof.
  intros H H'. unfold SF64div, SFdiv.
  rewrite SFdiv_core_binary_double by exact H.
  pose proof (SFdiv_core_binary_exponent (Zpos mx) ex (Zpos my) ey H H') as He.
  destruct (SFdiv_core_binary prec emax (Zpos mx) ex (Zpos my) ey) as [[q e] l].
  cbn [fst snd] in He. now apply binary_round_aux_double.
Qed.

Lemma SFdiv_exponent sx mx ex sy my ey s m e :
  -1021 <= Zpos (digits2_pos mx) + ex - (Zpos (digits2_pos my) + ey) - 53 ->
  -1021 <= ex - ey ->
  SF64div (S754_finite sx mx ex) (S754_finite sy my ey) = S754_finite s m e ->
  -1021 <= e.
Proof.
  intros H H'. unfold SF64div, SFdiv.
  pose proof (SFdiv_core_binary_exponent (Zpos mx) ex (Zpos my) ey H H') as He.
  destruct (SFdiv_core_binary prec emax (Zpos mx) ex (Zpos my) ey) as [[q e0] l].
  cbn [fst snd] in He. intros Hr. apply binary_round_aux_exponent_ge in Hr. lia.
Qed.

(** ** The estimate of twice the deaths *)

Lemma float_of_Z_spec n :
  0 <= n < 2 ^ 63 ->
  Prim2SF (float_of_Z n) = binary_normalize prec emax n 0 false.
Proof.
  intros Hn. apply float_of_Z_int64. lia.
Qed.

Lemma float_of_Z_double n :
  0 <= n < 2 ^ 62 ->
  Prim2SF (float_of_Z (2 * n)) = SFdouble (Prim2SF (float_of_Z n)).
Proof.
  intros Hn. rewrite !float_of_Z_spec by lia.
  destruct n as [|p|p]; [reflexivity| |lia].
  change (2 * Zpos p) with (Zpos p~0). cbn [binary_normalize].
  apply binary_round_double.
Qed.

Lemma float_of_Z_exponent n s m e :
  0 <= n < 2 ^ 62 ->
  Prim2SF (float_of_Z n) = S754_finite s m e -> -52 <= e <= 19.
Proof.
  intros Hn. rewrite float_of_Z_spec by lia.
  destruct n as [|p|p]; [discriminate| |lia].
  cbn [binary_normalize]. apply binary_round_exponent. lia.
Qed.

(** Dividing twice the count by a rate gives twice the quotient, bit for
    bit: for a rate that is a normal double of moderate size. *)
Lemma div_rate_double n r mr er :
  Prim2SF r = S754_finite false mr er ->
  Zpos (digits2_pos mr) = 53 -> -100 <= er <= 100 ->
  0 <= n < 2 ^ 62 ->
  (float_of_Z (2 * n) / r = 2 * (float_of_Z n / r))%float.
Proof.
  intros Hr Hmr Her Hn. apply Prim2SF_inj.
  rewrite FloatAxioms.mul_spec, Prim2SF_two.
  rewrite SFmul_two.
  - rewrite !FloatAxioms.div_spec, Hr, (float_of_Z_double n Hn).
    pose proof (float_of_Z_exponent n) as Hx.
    pose proof (Prim2SF_valid (float_of_Z n)) as Hv.
    destruct (Prim2SF (float_of_Z n)) as [s|s| |s m e]; try reflexivity.
    specialize (Hx s m e Hn eq_refl).
    cbn [SFdouble]. replace (e + 1 <=? emax - prec) with true
      by (symmetry; apply Z.leb_le; change (emax - prec) with 971; lia).
    apply SFdiv_double; lia.
  - apply Prim2SF_valid.
  - intros s m e. rewrite FloatAxioms.div_spec, Hr.
    pose proof (float_of_Z_exponent n) as Hx.
    destruct (Prim2SF (float_of_Z n)) as [s0|s0| |s0 m0 e0]; try discriminate.
    specialize (Hx s0 m0 e0 Hn eq_refl).
    intros Hdiv. apply SFdiv_exponent in Hdiv; lia.
Qed.

Lemma death_rate_double n :
  0 <= n < 2 ^ 62 ->
  (float_of_Z (2 * n) / death_rate = 2 * (float_of_Z n / death_rate))%float.
Proof.
  apply (div_rate_double n death_rate 7609281930405190 (-60)); [reflexivity|reflexivity|lia].
Qed.

Lemma death_rate_s_double n :
  0 <= n < 2 ^ 62 ->
  (float_of_Z (2 * n) / death_rate_s = 2 * (float_of_Z n / death_rate_s))%float.
Proof.
  apply (div_rate_double n death_rate_s 7955158381787244 (-59)); [reflexivity|reflexivity|lia].
Qed.

(** C8. The estimator is linear in the death count: for a record with a
    death count n (0 <= n < 2^62, so that 2n is an integer of the table
    too), the record with the count doubled has twice the infected and twice
    the symptomatic estimate, exactly, and the same date. *)
Theorem estimate_linear (row : Row) (n : Z) (e : Estimate) :
  0 <= n < 2 ^ 62 ->
  get "death" (cells row) = Some (VInt n) ->
  estimate row = Ok e ->
  exists e2,
    estimate (mkRow (name row) (set_cell "death" (VInt (2 * n)) (cells row))) = Ok e2 /\
    infected e2 = (2 * infected e)%float /\
    symptomatic e2 = (2 * symptomatic e)%float /\
    est_date e2 = est_date e.
Proof.
  intros Hn Hdeath. unfold estimate, getattr_row. cbn [name cells].
  rewrite Hdeath, get_set_cell_same.
  destruct (date_of (name row)) as [d0|]; cbn [bind]; [|discriminate].
  destruct (add_days d0 delta) as [d|]; cbn [bind truediv]; [|discriminate].
  intros [= <-]. eexists. split; [reflexivity|]. cbn [infected symptomatic est_date].
  rewrite (death_rate_double n Hn), (death_rate_s_double n Hn). auto.
Qed.

Lemma estimate_linear_witness :
  exists e2,
    estimate (mkRow (name scenario_row)
                (set_cell "death" (VInt (2 * 10)) (cells scenario_row))) = Ok e2 /\
    infected e2 = (2 * (float_of_Z 10 / death_rate))%float /\
    symptomatic e2 = (2 * (float_of_Z 10 / death_rate_s))%float /\
    est_date e2 = mkdate 2020 3 3.
Proof.
  apply (estimate_linear scenario_row 10
           (mkEstimate (mkdate 2020 3 3) (float_of_Z 10 / death_rate)
              (float_of_Z 10 / death_rate_s) "Mar 03")).
  - split; [discriminate | reflexivity].
  - reflexivity.
  - reflexivity.
Defined.

(** ** Floats *)

Lemma sub_nan_r x : (x - nan)%float = nan.
Proof.
  apply Prim2SF_inj. rewrite FloatAxioms.sub_spec.
  change (Prim2SF nan) with S754_nan. now destruct (Prim2SF x).
Qed.

Lemma sub_nan_l y : (nan - y)%float = nan.
Proof.
  apply Prim2SF_inj. rewrite FloatAxioms.sub_spec.
  change (Prim2SF nan) with S754_nan. reflexivity.
Qed.

(** ** Differencing *)

Lemma keys_equal_eq a b : keys_equal a b = true -> a = b.
Proof.
  revert b. induction a as [|x a IH]; intros [|y b]; cbn; try discriminate; auto.
  intros H. apply andb_true_iff in H. destruct H as [Hxy Hab].
  apply date_eqb_eq in Hxy. subst. f_equal. auto.
Qed.

Lemma lookup_In_keys d s x : lookup d s = Some x -> In d (keys s).
Proof.
  induction s as [|[k v] s IH]; cbn; [discriminate|].
  destruct (Datetime.eqb k d) eqn:Hk; [|auto].
  apply date_eqb_eq in Hk. auto.
Qed.

Lemma lookup_sub_by_position d : forall a b x y,
  keys a = keys b -> lookup d a = Some x -> lookup d b = Some y ->
  lookup d (sub_by_position a b) = Some (x - y)%float.
Proof.
  induction a as [|[k v] a IH]; intros [|[k' v'] b] x y Hk Ha Hb; try discriminate.
  cbn in Hk. injection Hk as <- Hk. cbn in *.
  destruct (Datetime.eqb k d); [congruence | eauto].
Qed.

Lemma lookup_app d s s' :
  lookup d (s ++ s') = match lookup d s with Some x => Some x | None => lookup d s' end.
Proof.
  induction s as [|[k v] s IH]; cbn; [reflexivity|].
  destruct (Datetime.eqb k d); auto.
Qed.

Lemma lookup_None d s : ~ In d (keys s) -> lookup d s = None.
Proof.
  induction s as [|[k v] s IH]; cbn; [reflexivity|]. intros Hn.
  destruct (Datetime.eqb k d) eqn:Hk.
  - apply date_eqb_eq in Hk. tauto.
  - apply IH. tauto.
Qed.

Lemma keys_aligned k xs ys : forall d, In d (keys (aligned k xs ys)) -> d = k.
Proof.
  intros d. unfold keys. rewrite in_map_iff. intros ([d' v] & <- & Hin).
  cbn [fst]. destruct xs as [|x xs], ys as [|y ys];
    cbv beta iota delta [aligned] in Hin.
  - contradiction.
  - apply in_map_iff in Hin. destruct Hin as (? & [= <- _] & _). reflexivity.
  - apply in_map_iff in Hin. destruct Hin as (? & [= <- _] & _). reflexivity.
  - apply in_flat_map in Hin. destruct Hin as (x' & _ & Hin).
    apply in_map_iff in Hin. destruct Hin as (? & [= <- _] & _). reflexivity.
Qed.

Lemma lookup_flat_map_aligned d (f : date -> Series) ks :
  (forall k d', In d' (keys (f k)) -> d' = k) ->
  In d ks -> lookup d (flat_map f ks) = lookup d (f d).
Proof.
  intros Hf. induction ks as [|k ks IH]; cbn [flat_map]; [contradiction|].
  intros Hin. rewrite lookup_app.
  destruct (compare_Eq k d) as [_ Heq].
  destruct (Datetime.compare k d) eqn:Hc.
  - rewrite (proj1 (compare_Eq k d) Hc). destruct (lookup d (f d)) eqn:Hl; [reflexivity|].
    rewrite <- Hl.
    assert (Hall : forall ks', lookup d (flat_map f ks') = None).
    { induction ks' as [|k' ks' IH']; cbn [flat_map]; [reflexivity|].
      rewrite lookup_app, IH'.
      destruct (lookup d (f k')) eqn:Hk'; [|reflexivity].
      pose proof (Hf _ _ (lookup_In_keys _ _ _ Hk')) as Hd. subst d. congruence. }
    rewrite Hall. now rewrite Hl.
  - rewrite lookup_None.
    + apply IH. destruct Hin as [->|Hin]; [discriminate (Heq eq_refl) | assumption].
    + intros Hk. apply Hf in Hk. subst. discriminate (Heq eq_refl).
  - rewrite lookup_None.
    + apply IH. destruct Hin as [->|Hin]; [discriminate (Heq eq_refl) | assumption].
    + intros Hk. apply Hf in Hk. subst. discriminate (Heq eq_refl).
Qed.

Lemma insert_key_In d k l : In d (insert_key k l) <-> d = k \/ In d l.
Proof.
  induction l as [|x l IH]; cbn; [intuition|].
  destruct (Datetime.compare k x) eqn:Hc; cbn.
  - apply compare_Eq in Hc. subst. intuition.
  - intuition.
  - rewrite IH. intuition.
Qed.

Lemma union_keys_In d a b : In d (union_keys a b) <-> In d (keys a) \/ In d (keys b).
Proof.
  unfold union_keys. rewrite <- in_app_iff.
  induction (keys a ++ keys b) as [|k l IH]; cbn; [reflexivity|].
  rewrite insert_key_In, IH. intuition.
Qed.

Lemma at_key_lookup d s x : lookup d s = Some x -> exists xs, at_key d s = x :: xs.
Proof.
  unfold at_key. induction s as [|[k v] s IH]; cbn; [discriminate|].
  destruct (Datetime.eqb k d); cbn.
  - intros [= ->]. eauto.
  - exact IH.
Qed.

Lemma at_key_nil d s : ~ In d (keys s) -> at_key d s = [].
Proof.
  unfold at_key. induction s as [|[k v] s IH]; cbn; [reflexivity|]. intros Hn.
  destruct (Datetime.eqb k d) eqn:Hk.
  - apply date_eqb_eq in Hk. tauto.
  - apply IH. tauto.
Qed.

Lemma at_key_cons d s : In d (keys s) -> exists x xs, at_key d s = x :: xs.
Proof.
  unfold at_key. induction s as [|[k v] s IH]; cbn; [contradiction|].
  destruct (Datetime.eqb k d) eqn:Hk; cbn; [eauto|].
  intros [->|Hin]; [|auto]. now rewrite date_eqb_refl in Hk.
Qed.

(** *** The series of a cleaned table *)

Lemma mem_cleaned_columns k cols :
  mem k (cleaned_columns cols)
  = (k =? "day")%string || (mem k cols && negb (mem k ["hash"; "dateChecked"; "date"])).
Proof.
  unfold cleaned_columns. cbv zeta.
  rewrite (mem_filter (fun k => negb (k =? "date")%string)).
  set (c1 := filter (fun c => negb (mem c dropped)) cols).
  assert (H1 : mem k c1 = negb (mem k dropped) && mem k cols)
    by apply (mem_filter (fun c => negb (mem c dropped))).
  assert (H2 : mem k (if mem "day" c1 then c1 else c1 ++ ["day"])
               = mem k c1 || (k =? "day")%string).
  { destruct (mem "day" c1) eqn:Hday.
    - destruct (String.eqb_spec k "day") as [->|_].
      + rewrite Hday. reflexivity.
      + now rewrite orb_false_r.
    - unfold mem at 1. rewrite existsb_app. cbn [existsb]. now rewrite orb_false_r. }
  rewrite H2, H1. unfold dropped, mem. cbn [existsb].
  destruct (String.eqb_spec k "date") as [->|_].
  { change ("date" =? "day")%string with false. cbn [negb andb orb].
    rewrite !orb_true_r. cbn [negb]. now rewrite andb_false_r. }
  destruct (String.eqb_spec k "day") as [->|_].
  { cbn [negb andb orb]. now rewrite orb_true_r. }
  rewrite !orb_false_r. cbn [negb andb orb]. apply andb_comm.
Qed.

(** The estimates of a cleaned table, when there are any: the table has a
    row, and every row has its estimate. *)
Lemma estimates_cleaned df data es :
  clean df = Ok data -> estimates data = Ok es ->
  rows data <> [] /\ mapM estimate (rows data) = Ok es.
Proof.
  intros Hclean. destruct (clean_Ok _ _ Hclean) as (ds & _ & Hcols & _).
  assert (Hday : mem "day" (columns data) = true)
    by (rewrite Hcols, mem_cleaned_columns; reflexivity).
  assert (Hdate : mem "date" (columns data) = false).
  { rewrite Hcols, mem_cleaned_columns.
    change (mem "date" ["hash"; "dateChecked"; "date"]) with true.
    cbn [negb]. now rewrite andb_false_r. }
  unfold estimates, set_index. rewrite Hdate.
  destruct (rows data) as [|r l]; [discriminate|].
  destruct (columns data) as [|c cs]; [discriminate|].
  intros H. split; [discriminate | exact H].
Qed.

Lemma infected_column_rows data es :
  rows data <> [] -> infected_column data es = Ok (infected_series es).
Proof. unfold infected_column. destruct (rows data); [now intros []|reflexivity]. Qed.

(** The difference of a cleaned table that has estimates. *)
Lemma diff_cleaned df data es pos :
  clean df = Ok data -> estimates data = Ok es -> positive_series data = Ok pos ->
  diff data = Ok (sub_date_stamp (infected_series es) pos).
Proof.
  intros Hclean Hes Hpos. unfold diff. rewrite Hes. cbn [bind].
  destruct (estimates_cleaned _ _ _ Hclean Hes) as (Hrows & _).
  rewrite (infected_column_rows _ _ Hrows). cbn [bind]. now rewrite Hpos.
Qed.

Lemma diff_cleaned_inv df data s :
  clean df = Ok data -> diff data = Ok s ->
  exists es pos,
    estimates data = Ok es /\ positive_series data = Ok pos /\
    s = sub_date_stamp (infected_series es) pos.
Proof.
  intros Hclean Hdiff. unfold diff in Hdiff.
  destruct (estimates data) as [es|] eqn:Hes; [|discriminate]. cbn [bind] in Hdiff.
  destruct (estimates_cleaned _ _ _ Hclean Hes) as (Hrows & _).
  rewrite (infected_column_rows _ _ Hrows) in Hdiff. cbn [bind] in Hdiff.
  destruct (positive_series data) as [pos|] eqn:Hpos; [|discriminate].
  cbn [bind] in Hdiff. injection Hdiff as <-. eauto.
Qed.

Lemma lookup_label_Stamp d s :
  lookup_label (Stamp d) (map (fun kv => (Stamp (fst kv), snd kv)) s) = lookup d s.
Proof.
  induction s as [|[k x] s IH]; cbn; [reflexivity|]. now rewrite IH.
Qed.

(** Two series with labels of one type: a label of both. *)
Lemma lookup_series_sub est rep d x y :
  lookup d est = Some x -> lookup d rep = Some y ->
  lookup d (series_sub est rep) = Some (x - y)%float.
Proof.
  intros Hx Hy. unfold series_sub.
  destruct (keys_equal (keys est) (keys rep)) eqn:Hk.
  - apply keys_equal_eq in Hk. now apply lookup_sub_by_position.
  - rewrite (lookup_flat_map_aligned d
               (fun k => aligned k (at_key k est) (at_key k rep))).
    + destruct (at_key_lookup _ _ _ Hx) as (xs & ->).
      destruct (at_key_lookup _ _ _ Hy) as (ys & ->).
      cbn. now rewrite date_eqb_refl.
    + intros k d'. apply keys_aligned.
    + apply union_keys_In. left. eapply lookup_In_keys; eassumption.
Qed.

(** Two series with labels of one type: a label of one of them only. *)
Lemma series_sub_one_side est rep d :
  (In d (keys est) /\ ~ In d (keys rep)) \/ (~ In d (keys est) /\ In d (keys rep)) ->
  In (d, nan) (series_sub est rep) /\
  (forall v, In (d, v) (series_sub est rep) -> v = nan).
Proof.
  intros Hone. unfold series_sub.
  destruct (keys_equal (keys est) (keys rep)) eqn:Hk.
  { apply keys_equal_eq in Hk. rewrite Hk in Hone. tauto. }
  set (f := fun k => aligned k (at_key k est) (at_key k rep)).
  assert (Hf : forall k d', In d' (keys (f k)) -> d' = k)
    by (intros k d'; apply keys_aligned).
  assert (Hin : In d (union_keys est rep)) by (apply union_keys_In; tauto).
  assert (Hblock : exists (v : float) vs, f d = map (fun _ : float => (d, nan)) (v :: vs)).
  { subst f. cbn beta. destruct Hone as [[Ha Hb]|[Ha Hb]].
    - rewrite (at_key_nil d rep Hb). destruct (at_key_cons d est Ha) as (x & xs & ->).
      exists x, xs. cbn [aligned]. apply map_ext. intros. now rewrite sub_nan_r.
    - rewrite (at_key_nil d est Ha). destruct (at_key_cons d rep Hb) as (y & ys & ->).
      exists y, ys. cbn [aligned]. apply map_ext. intros. now rewrite sub_nan_l. }
  destruct Hblock as (v0 & vs & Hblock). split.
  - apply in_flat_map. exists d. split; [assumption|]. rewrite Hblock. now left.
  - intros v Hv. apply in_flat_map in Hv. destruct Hv as (k & _ & Hv).
    assert (k = d).
    { symmetry. apply (Hf k d). unfold keys. apply in_map_iff. now exists (d, v). }
    subst k. rewrite Hblock in Hv. apply in_map_iff in Hv.
    destruct Hv as (? & [= <-] & _). reflexivity.
Qed.




(** C10. The difference of a cleaned table is aligned on the union of the
    dates of the two series: a date that only one of them has is a date of
    the difference, with NaN, and every value the difference holds under
    that date is NaN. *)
Theorem diff_outer_alignment
  (df data : DataFrame) (es : list Estimate) (pos : Series) (d : date) :
  clean df = Ok data ->
  estimates data = Ok es ->
  positive_series data = Ok pos ->
  (In d (keys (infected_series es)) /\ ~ In d (keys pos)) \/
  (~ In d (keys (infected_series es)) /\ In d (keys pos)) ->
  exists s, diff data = Ok s /\
    (exists l, label_date l = d /\ In (l, nan) s) /\
    (forall l v, In (l, v) s -> label_date l = d -> v = nan).
Proof.
  intros Hclean Hes Hpos Hone.
  exists (sub_date_stamp (infected_series es) pos).
  split; [now apply (diff_cleaned df)|].
  unfold sub_date_stamp.
  destruct (forallb in_ns (keys pos) && forallb in_ns (keys (infected_series es))).
  - destruct (series_sub_one_side _ _ _ Hone) as (Hin & Hall). split.
    + exists (Stamp d). split; [reflexivity|].
      apply in_map_iff. exists (d, nan). auto.
    + intros l v Hlv Hl. apply in_map_iff in Hlv.
      destruct Hlv as ([k v'] & [= <- <-] & Hkv). cbn [label_date fst] in Hl.
      subst k. now apply Hall.
  - split.
    + destruct Hone as [[Ha _]|[_ Hb]].
      * unfold keys in Ha. apply in_map_iff in Ha. destruct Ha as ([k x] & <- & Hkx).
        exists (Day k). split; [reflexivity|]. apply in_or_app. left.
        apply in_map_iff. exists (k, x). split; [|assumption].
        cbn [fst snd]. now rewrite sub_nan_r.
      * unfold keys in Hb. apply in_map_iff in Hb. destruct Hb as ([k y] & <- & Hky).
        exists (Stamp k). split; [reflexivity|]. apply in_or_app. right.
        apply in_map_iff. exists (k, y). split; [|assumption].
        cbn [fst snd]. now rewrite sub_nan_l.
    + intros l v Hlv _. apply in_app_or in Hlv. destruct Hlv as [Hlv|Hlv];
        apply in_map_iff in Hlv; destruct Hlv as (kv & [= _ <-] & _).
      * apply sub_nan_r.
      * apply sub_nan_l.
Qed.

Lemma diff_outer_alignment_witness :
  exists s, diff fortnight_clean = Ok s /\
    (exists l, label_date l = mkdate 2020 2 18 /\ In (l, nan) s) /\
    (forall l v, In (l, v) s -> label_date l = mkdate 2020 2 18 -> v = nan).
Proof.
  apply (diff_outer_alignment fortnight_raw fortnight_clean fortnight_estimates
           fortnight_positive (mkdate 2020 2 18)).
  - reflexivity.
  - reflexivity.
  - reflexivity.
  - left. split.
    + left. reflexivity.
    + cbn. intros [H|[H|[]]]; discriminate H.
Defined.

Example diff_fortnight :
  diff fortnight_clean
  = Ok (map (fun kv => (Stamp (fst kv), snd kv))
          (series_sub fortnight_infected fortnight_positive)).
Proof. vm_compute. reflexivity. Qed.

Example diff_fortnight_values :
  series_sub fortnight_infected fortnight_positive
  = [(mkdate 2020 2 18, nan); (mkdate 2020 3 3, (10 / 0.0066 - 100)%float);
     (mkdate 2020 3 17, nan)].
Proof. vm_compute. reflexivity. Qed.

(** * Further properties of the pipeline *)

(** ** The order of dates and the count of days *)

Lemma days_before_year_succ y :
  days_before_year (y + 1) = days_before_year y + (if is_leap y then 366 else 365).
Proof.
  unfold days_before_year, is_leap. cbv zeta.
  destruct (Z.eqb_spec (y mod 4) 0), (Z.eqb_spec (y mod 100) 0),
    (Z.eqb_spec (y mod 400) 0); cbn [andb orb negb];
    Z.div_mod_to_equations; lia.
Qed.

Lemma days_before_year_mono y1 y2 :
  y1 <= y2 -> days_before_year y1 <= days_before_year y2.
Proof.
  intros H. unfold days_before_year. cbv zeta. Z.div_mod_to_equations. lia.
Qed.

Lemma days_before_month_mono y m1 m2 :
  1 <= m1 -> m1 < m2 -> m2 <= 12 ->
  days_before_month y m1 + days_in_month y m1 <= days_before_month y m2.
Proof.
  intros H1 H12 H2. unfold days_before_month, days_in_month.
  assert (Hm1 : 1 <= m1 <= 12) by lia. assert (Hm2 : 1 <= m2 <= 12) by lia.
  destruct (is_leap y);
    destruct (month_cases m1 Hm1) as [->|[->|[->|[->|[->|[->|[->|[->|[->|[->|[->| ->]]]]]]]]]]];
    destruct (month_cases m2 Hm2) as [->|[->|[->|[->|[->|[->|[->|[->|[->|[->|[->| ->]]]]]]]]]]];
    try lia; vm_compute; discriminate.
Qed.

Lemma toordinal_lt a b :
  valid a = true -> valid b = true ->
  Datetime.compare a b = Lt -> toordinal a < toordinal b.
Proof.
  intros Ha Hb. apply valid_fields in Ha, Hb.
  destruct Ha as (_ & Hma & Hda), Hb as (_ & Hmb & Hdb).
  unfold Datetime.compare, toordinal, ymd2ord.
  destruct (Z.compare_spec (year a) (year b)) as [Hy|Hy|Hy]; try discriminate.
  - rewrite Hy in *.
    destruct (Z.compare_spec (month a) (month b)) as [Hm|Hm|Hm]; try discriminate.
    + rewrite Hm in *. rewrite Z.compare_lt_iff. lia.
    + intros _.
      pose proof (days_before_month_mono (year b) (month a) (month b)
                    ltac:(lia) Hm ltac:(lia)).
      lia.
  - intros _.
    pose proof (within_year _ _ _ Hma Hda) as Hwa.
    pose proof (within_year _ _ _ Hmb Hdb) as Hwb.
    pose proof (days_before_year_succ (year a)) as Hs.
    pose proof (days_before_year_mono (year a + 1) (year b) ltac:(lia)).
    destruct (is_leap (year a)), (is_leap (year b)); lia.
Qed.

Lemma compare_toordinal a b :
  valid a = true -> valid b = true ->
  Datetime.compare a b = (toordinal a ?= toordinal b).
Proof.
  intros Ha Hb. destruct (Datetime.compare a b) eqn:Hc.
  - apply compare_Eq in Hc. subst. now rewrite Z.compare_refl.
  - symmetry. apply Z.compare_lt_iff. now apply toordinal_lt.
  - symmetry. apply Z.compare_gt_iff. apply toordinal_lt; try assumption.
    rewrite compare_antisym, Hc. reflexivity.
Qed.

Lemma leb_toordinal a b :
  valid a = true -> valid b = true ->
  Datetime.leb a b = (toordinal a <=? toordinal b).
Proof.
  intros Ha Hb. unfold Datetime.leb, Z.leb. now rewrite compare_toordinal.
Qed.

Lemma toordinal_inj a b :
  valid a = true -> valid b = true -> toordinal a = toordinal b -> a = b.
Proof.
  intros Ha Hb H. apply compare_Eq. rewrite compare_toordinal by assumption.
  now apply Z.compare_eq_iff.
Qed.

Lemma fromordinal_toordinal d : valid d = true -> fromordinal (toordinal d) = d.
Proof.
  intros Hv. pose proof (toordinal_bounds d Hv) as Hb.
  destruct (ordinal_round_trip _ Hb) as (Ho & Hv').
  now apply toordinal_inj.
Qed.

(** ** More on the cleaning *)

(** *** Its columns *)


(** X1. The columns of the cleaned table: ['day'], and every column of the
    raw table other than ['hash'], ['dateChecked'] and ['date'] (which has
    become the index); nothing else. *)
Theorem clean_columns (df data : DataFrame) (k : string) :
  clean df = Ok data ->
  mem k (columns data)
  = (k =? "day")%string || (mem k (columns df) && negb (mem k ["hash"; "dateChecked"; "date"])).
Proof.
  intros H. apply clean_Ok in H. destruct H as (ds & _ & -> & _).
  apply mem_cleaned_columns.
Qed.

Lemma clean_columns_witness :
  mem "positive" (columns cleaned_scenario)
  = ("positive" =? "day")%string
    || (mem "positive" (columns scenario_raw)
        && negb (mem "positive" ["hash"; "dateChecked"; "date"])).
Proof. apply (clean_columns scenario_raw cleaned_scenario "positive"). reflexivity. Defined.

(** *** Its records *)

Lemma insert_by_Permutation c r l : Permutation (insert_by c r l) (r :: l).
Proof.
  induction l as [|x l IH]; cbn; [reflexivity|].
  destruct (value_leb _ _); [reflexivity|].
  rewrite IH. apply perm_swap.
Qed.

Lemma sort_Permutation c l : Permutation (fold_right (insert_by c) [] l) l.
Proof.
  induction l as [|x l IH]; cbn; [reflexivity|].
  rewrite insert_by_Permutation. now apply perm_skip.
Qed.

Lemma cleaned_rows_Permutation l ds :
  Permutation (cleaned_rows l ds)
    (map (fun rd => indexed (dated (fst rd) (snd rd))) (combine l ds)).
Proof.
  unfold cleaned_rows. rewrite <- (map_map (fun rd => dated (fst rd) (snd rd)) indexed).
  apply Permutation_map, sort_Permutation.
Qed.

(** X2. Cleaning keeps the records: the rows of the cleaned table are, up to
    their order, the raw rows one for one, each indexed by its parsed date;
    none is lost, none is added. *)
Theorem clean_keeps_records (df data : DataFrame) :
  clean df = Ok data ->
  exists ds,
    Forall2 (fun r d => row_date r = Ok d) (rows df) ds /\
    Permutation (rows data)
      (map (fun rd => indexed (dated (fst rd) (snd rd))) (combine (rows df) ds)) /\
    List.length (rows data) = List.length (rows df).
Proof.
  intros H. apply clean_Ok in H. destruct H as (ds & Hds & _ & ->).
  exists ds. split; [assumption|]. split; [apply cleaned_rows_Permutation|].
  rewrite (Permutation_length (cleaned_rows_Permutation _ _)).
  rewrite length_map, length_combine.
  apply Forall2_length in Hds. lia.
Qed.

Lemma clean_keeps_records_witness :
  exists ds,
    Forall2 (fun r d => row_date r = Ok d) (rows two_days_raw) ds /\
    Permutation (rows two_days_clean)
      (map (fun rd => indexed (dated (fst rd) (snd rd))) (combine (rows two_days_raw) ds)) /\
    List.length (rows two_days_clean) = List.length (rows two_days_raw).
Proof. apply (clean_keeps_records two_days_raw two_days_clean). reflexivity. Defined.

(** X3. No cell of the cleaned table is null, and none belongs to a dropped
    column or to ['date']. *)
Theorem clean_no_nulls (df data : DataFrame) (r : Row) (k : string) (v : value) :
  clean df = Ok data ->
  In r (rows data) ->
  In (k, v) (cells r) ->
  v <> VNull /\ k <> "hash" /\ k <> "dateChecked" /\ k <> "date".
Proof.
  intros H Hin Hkv. apply clean_Ok in H. destruct H as (ds & _ & _ & Hrows).
  rewrite Hrows in Hin. apply cleaned_rows_In in Hin.
  destruct Hin as (r0 & d & _ & ->).
  unfold indexed in Hkv. cbn [cells] in Hkv.
  apply in_map_iff in Hkv. destruct Hkv as ([k0 v0] & [= <- <-] & Hin).
  apply filter_In in Hin. destruct Hin as (Hin & Hk). cbn [fst snd] in *.
  apply negb_true_iff, String.eqb_neq in Hk.
  split; [destruct v0; discriminate|].
  unfold dated in Hin. cbn [cells] in Hin.
  assert (Hset : forall c x l k' v', In (k', v') (set_cell c x l) ->
                   k' = c \/ In (k', v') l).
  { intros c x l k' v'. unfold set_cell. destruct (mem c (map fst l)).
    - rewrite in_map_iff. intros ([k1 v1] & Heq & Hl). cbn [fst] in Heq.
      destruct (String.eqb_spec k1 c); [injection Heq as <- _; auto|].
      right. now rewrite <- Heq.
    - rewrite in_app_iff. cbn. intros [Hl|[[= <- _]|[]]]; auto. }
  assert (Hd : k0 <> "hash" /\ k0 <> "dateChecked" \/ k0 = "day" \/ k0 = "date").
  { apply Hset in Hin. destruct Hin as [->|Hin]; [auto|].
    apply Hset in Hin. destruct Hin as [->|Hin]; [auto|].
    apply filter_In in Hin. destruct Hin as (_ & Hdrop). cbn [fst] in Hdrop.
    unfold dropped, mem in Hdrop. cbn [existsb] in Hdrop.
    rewrite orb_false_r in Hdrop. apply negb_true_iff, orb_false_iff in Hdrop.
    destruct Hdrop as (H1 & H2). apply String.eqb_neq in H1, H2. auto. }
  destruct Hd as [[H1 H2]|[->| ->]]; repeat split; try assumption; try discriminate.
Qed.

Lemma clean_no_nulls_witness :
  VInt 100 <> VNull /\ "positive" <> "hash" /\ "positive" <> "dateChecked" /\ "positive" <> "date".
Proof.
  apply (clean_no_nulls scenario_raw cleaned_scenario scenario_row "positive" (VInt 100)).
  - reflexivity.
  - left. reflexivity.
  - left. reflexivity.
Defined.

(** *** Its failures *)

Lemma mapM_row_date_Raise l e : mapM row_date l = Raise e -> e = ValueError.
Proof.
  intros H. apply mapM_Raise in H. destruct H as (r & _ & Hr).
  now apply strptime_Raise in Hr.
Qed.

(** X4. How cleaning fails on a missing column: with KeyError exactly when
    ['hash'] or ['dateChecked'] is not a column, whatever the dates are; and
    with AttributeError exactly when both are columns and ['date'] is
    not. *)
Theorem clean_failure_modes (df : DataFrame) :
  (clean df = Raise KeyError <->
   mem "hash" (columns df) && mem "dateChecked" (columns df) = false) /\
  (clean df = Raise AttributeError <->
   mem "hash" (columns df) && mem "dateChecked" (columns df) = true /\
   mem "date" (columns df) = false).
Proof.
  rewrite clean_unfold.
  destruct (mem "hash" (columns df) && mem "dateChecked" (columns df)); cbn [negb].
  - destruct (mem "date" (columns df)); cbn [negb].
    + destruct (mapM row_date (rows df)) as [ds|e] eqn:Hds; cbn [bind].
      * repeat split; try discriminate; intros []; discriminate.
      * apply mapM_row_date_Raise in Hds. subst e.
        repeat split; try discriminate; intros []; discriminate.
    + repeat split; try discriminate; auto.
  - repeat split; try discriminate; auto. intros []; discriminate.
Qed.

(** *** The order of the raw records *)

Lemma leb_trans a b c :
  Datetime.leb a b = true -> Datetime.leb b c = true -> Datetime.leb a c = true.
Proof.
  unfold Datetime.leb, Datetime.compare.
  destruct (Z.compare_spec (year a) (year b)), (Z.compare_spec (year b) (year c)),
    (Z.compare_spec (year a) (year c));
    try discriminate; try reflexivity; try (exfalso; lia).
  destruct (Z.compare_spec (month a) (month b)), (Z.compare_spec (month b) (month c)),
    (Z.compare_spec (month a) (month c));
    try discriminate; try reflexivity; try (exfalso; lia).
  destruct (Z.compare_spec (day a) (day b)), (Z.compare_spec (day b) (day c)),
    (Z.compare_spec (day a) (day c));
    try discriminate; try reflexivity; try (exfalso; lia).
Qed.

Lemma leb_Lt a b : Datetime.compare a b = Lt ->
  Datetime.leb a b = true /\ Datetime.leb b a = false.
Proof.
  intros H. unfold Datetime.leb. rewrite (compare_antisym a b), H. auto.
Qed.

Lemma insert_by_comm_Lt c r1 r2 d1 d2 l :
  cell c r1 = VDate d1 -> cell c r2 = VDate d2 -> Datetime.compare d1 d2 = Lt ->
  insert_by c r1 (insert_by c r2 l) = insert_by c r2 (insert_by c r1 l).
Proof.
  intros H1 H2 Hlt. destruct (leb_Lt _ _ Hlt) as (H12 & H21).
  assert (V12 : value_leb (cell c r1) (cell c r2) = true) by (now rewrite H1, H2).
  assert (V21 : value_leb (cell c r2) (cell c r1) = false) by (now rewrite H1, H2).
  induction l as [|x l IH]; cbn [insert_by].
  - now rewrite V12, V21.
  - destruct (value_leb (cell c r2) (cell c x)) eqn:H2x.
    + assert (H1x : value_leb (cell c r1) (cell c x) = true).
      { rewrite H1, H2 in *. destruct (cell c x); cbn in *; try reflexivity.
        eapply leb_trans; eassumption. }
      rewrite H1x. cbn [insert_by]. now rewrite V12, V21, H2x.
    + destruct (value_leb (cell c r1) (cell c x)) eqn:H1x; cbn [insert_by].
      * now rewrite H1x, V21, H2x.
      * now rewrite H1x, H2x, IH.
Qed.

Lemma insert_by_comm c r1 r2 d1 d2 l :
  cell c r1 = VDate d1 -> cell c r2 = VDate d2 -> d1 <> d2 ->
  insert_by c r1 (insert_by c r2 l) = insert_by c r2 (insert_by c r1 l).
Proof.
  intros H1 H2 Hne. destruct (Datetime.compare d1 d2) eqn:Hc.
  - apply compare_Eq in Hc. contradiction.
  - eapply insert_by_comm_Lt; eassumption.
  - symmetry. eapply insert_by_comm_Lt; try eassumption.
    rewrite compare_antisym, Hc. reflexivity.
Qed.

(** Rows with distinct dates sort to the same list from any order. *)
Lemma sort_Permutation_eq c l1 l2 :
  Permutation l1 l2 ->
  Forall (fun r => exists d, cell c r = VDate d) l1 ->
  NoDup (map (cell c) l1) ->
  fold_right (insert_by c) [] l1 = fold_right (insert_by c) [] l2.
Proof.
  induction 1 as [|x l l' Hp IH|x y l|l l' l'' Hp1 IH1 Hp2 IH2]; intros Hd Hn.
  - reflexivity.
  - cbn. inversion Hd; subst. inversion Hn; subst. f_equal. auto.
  - cbn. inversion Hd as [|? ? (dy & Hy) Hd']; subst.
    inversion Hd' as [|? ? (dx & Hx) _]; subst.
    inversion Hn as [|? ? Hnin _]; subst.
    apply (insert_by_comm c y x dy dx); try assumption.
    intros ->. apply Hnin. cbn. left. congruence.
  - rewrite IH1 by assumption. apply IH2.
    + eapply Permutation_Forall; eassumption.
    + eapply Permutation_NoDup; [|eassumption]. now apply Permutation_map.
Qed.

(** What cleaning reads of a row: its cells, not its label. *)
Lemma map_dated_combine l ds (f : Row -> date) :
  Forall2 (fun r d => f r = d) l ds ->
  map (fun rd => dated (fst rd) (snd rd)) (combine l ds) = map (fun r => dated r (f r)) l.
Proof.
  induction 1 as [|r d l ds Hrd _ IH]; cbn; [reflexivity|]. now rewrite IH, Hrd.
Qed.

Lemma insert_by_relabel c r l :
  map (fun x => mkRow VNull (cells x)) (insert_by c r l)
  = insert_by c (mkRow VNull (cells r)) (map (fun x => mkRow VNull (cells x)) l).
Proof.
  induction l as [|x l IH]; cbn [insert_by map]; [reflexivity|].
  change (cell c (mkRow VNull (cells r))) with (cell c r).
  change (cell c (mkRow VNull (cells x))) with (cell c x).
  destruct (value_leb _ _); cbn [map]; [reflexivity|]. now rewrite IH.
Qed.

Lemma sort_relabel c l :
  map (fun x => mkRow VNull (cells x)) (fold_right (insert_by c) [] l)
  = fold_right (insert_by c) [] (map (fun x => mkRow VNull (cells x)) l).
Proof.
  induction l as [|x l IH]; cbn [fold_right map]; [reflexivity|].
  now rewrite insert_by_relabel, IH.
Qed.

Lemma mapM_Ok_all {A B} (f : A -> result B) l :
  (forall a, In a l -> exists b, f a = Ok b) -> exists bs, mapM f l = Ok bs.
Proof.
  induction l as [|a l IH]; intros H; cbn [mapM]; [eauto|].
  destruct (H a (or_introl eq_refl)) as (b & ->).
  destruct IH as (bs & ->); [intros; apply H; now right|]. cbn. eauto.
Qed.

(** The cleaned rows, from the cells of the raw rows alone. *)
Lemma cleaned_rows_cells l ds :
  Forall2 (fun r d => row_date r = Ok d) l ds ->
  cleaned_rows l ds
  = map indexed
      (fold_right (insert_by "date") []
         (map (fun cs => dated (mkRow VNull cs)
                           match row_date (mkRow VNull cs) with
                           | Ok d => d
                           | Raise _ => mkdate 1 1 1
                           end)
              (map cells l))).
Proof.
  intros Hds. unfold cleaned_rows.
  rewrite (map_dated_combine l ds
             (fun r => match row_date r with Ok d => d | Raise _ => mkdate 1 1 1 end)).
  2:{ eapply Forall2_impl; [|exact Hds]. cbv beta. now intros r d ->. }
  rewrite map_map.
  transitivity (map indexed (map (fun x => mkRow VNull (cells x))
     (fold_right (insert_by "date") []
        (map (fun r => dated r match row_date r with Ok d => d | Raise _ => mkdate 1 1 1 end) l)))).
  - rewrite map_map. apply map_ext. reflexivity.
  - rewrite sort_relabel, map_map. reflexivity.
Qed.

(** X5. The order of the raw records does not matter: two raw tables with
    the same columns and the same records (whatever their order and their
    row labels) clean to the same table, as long as no two records of the
    cleaned table share a date. *)
Theorem clean_order_insensitive (df1 df2 data : DataFrame) :
  columns df1 = columns df2 ->
  Permutation (map cells (rows df1)) (map cells (rows df2)) ->
  clean df1 = Ok data ->
  NoDup (map name (rows data)) ->
  clean df2 = Ok data.
Proof.
  intros Hcols Hperm Hclean Hnodup. revert Hclean. rewrite !clean_unfold, <- Hcols.
  destruct (negb _); [auto|]. destruct (negb _); [auto|].
  destruct (mapM row_date (rows df1)) as [ds1|] eqn:H1; [|discriminate].
  cbn [bind]. intros [= <-]. cbn [rows] in Hnodup.
  pose proof (mapM_Forall2 _ _ _ H1) as Hds1.
  destruct (mapM_Ok_all row_date (rows df2)) as (ds2 & H2).
  { intros r2 Hr2.
    assert (Hc : In (cells r2) (map cells (rows df1))).
    { eapply Permutation_in; [symmetry; eassumption|]. now apply in_map. }
    apply in_map_iff in Hc. destruct Hc as (r1 & Hc & Hr1).
    destruct (Forall2_In_l _ _ _ Hds1 _ Hr1) as (d & Hd).
    apply (Forall2_combine_In _ _ _ Hds1) in Hd.
    exists d. rewrite <- Hd. unfold row_date, cell. now rewrite Hc. }
  rewrite H2. cbn [bind]. do 2 f_equal.
  pose proof (mapM_Forall2 _ _ _ H2) as Hds2.
  rewrite (cleaned_rows_cells _ _ Hds1) in Hnodup |- *.
  rewrite (cleaned_rows_cells _ _ Hds2). f_equal.
  set (h := fun cs => dated (mkRow VNull cs) _) in *.
  symmetry. apply sort_Permutation_eq.
  - now apply Permutation_map.
  - apply Forall_forall. intros x Hx. apply in_map_iff in Hx.
    destruct Hx as (cs & <- & _). eexists. apply cell_date_dated.
  - rewrite (map_map indexed name) in Hnodup.
    change (fun x => name (indexed x)) with (cell "date") in Hnodup.
    eapply Permutation_NoDup; [|exact Hnodup].
    apply Permutation_map, sort_Permutation.
Qed.

Lemma clean_order_insensitive_witness : clean two_days_raw_swapped = Ok two_days_clean.
Proof.
  apply (clean_order_insensitive two_days_raw two_days_raw_swapped two_days_clean).
  - reflexivity.
  - apply perm_swap.
  - reflexivity.
  - repeat constructor; cbn; intuition discriminate.
Defined.

(** ** More on the estimator *)

Lemma add_days_Ok d k d' :
  add_days d k = Ok d' ->
  d' = fromordinal (toordinal d + k) /\ toordinal d' = toordinal d + k /\ valid d' = true.
Proof.
  unfold add_days. cbv zeta.
  destruct ((0 <? toordinal d + k) && (toordinal d + k <=? MAXORDINAL)) eqn:Hr;
    [|discriminate].
  intros [= <-]. apply andb_true_iff in Hr. rewrite Z.ltb_lt, Z.leb_le in Hr.
  split; [reflexivity|]. apply ordinal_round_trip. lia.
Qed.

(** What a returned estimate was computed from. *)
Lemma estimate_inv row e :
  estimate row = Ok e ->
  exists d0 dth,
    name row = VDate d0 /\ add_days d0 delta = Ok (est_date e) /\
    get "death" (cells row) = Some dth /\
    truediv dth death_rate = Ok (infected e) /\
    truediv dth death_rate_s = Ok (symptomatic e) /\
    est_day e = strftime_b_d (est_date e).
Proof.
  unfold estimate, getattr_row, date_of.
  destruct (name row) as [| | |d0]; try discriminate. cbn [bind].
  destruct (add_days d0 delta) as [d|] eqn:Hd; [|discriminate]. cbn [bind].
  destruct (get "death" (cells row)) as [dth|]; [|discriminate]. cbn [bind].
  destruct (truediv dth death_rate) as [x|] eqn:Hx; [|discriminate]. cbn [bind].
  destruct (truediv dth death_rate_s) as [y|] eqn:Hy; [|discriminate]. cbn [bind].
  intros [= <-]. cbn. exists d0, dth. repeat split; assumption.
Qed.

Lemma Forall2_nth_error {A B} (P : A -> B -> Prop) l l' :
  Forall2 P l l' -> forall i b, nth_error l' i = Some b ->
  exists a, nth_error l i = Some a /\ P a b.
Proof.
  induction 1 as [|x y l l' Hxy _ IH]; intros [|i] b; cbn; try discriminate.
  - intros [= <-]. eauto.
  - apply IH.
Qed.

(** X6. The estimates of a cleaned table, when there are any: the table has
    a record, the estimates are one per record, the i-th that of the i-th
    record, and their dates ascend (shifting by a constant keeps the
    order). *)
Theorem estimates_ascending (df data : DataFrame) (es : list Estimate) :
  clean df = Ok data ->
  estimates data = Ok es ->
  rows data <> [] /\
  Forall2 (fun row e => estimate row = Ok e) (rows data) es /\
  List.length es = List.length (rows data) /\
  (forall i e1 e2,
     nth_error es i = Some e1 -> nth_error es (S i) = Some e2 ->
     Datetime.leb (est_date e1) (est_date e2) = true).
Proof.
  intros Hclean Hes.
  destruct (estimates_cleaned _ _ _ Hclean Hes) as (Hrows & Hmap).
  pose proof (mapM_Forall2 _ _ _ Hmap) as Hall.
  split; [assumption|]. split; [assumption|].
  split; [symmetry; eapply mapM_length; eassumption|].
  intros i e1 e2 H1 H2.
  destruct (Forall2_nth_error _ _ _ Hall _ _ H1) as (r1 & Hr1 & He1).
  destruct (Forall2_nth_error _ _ _ Hall _ _ H2) as (r2 & Hr2 & He2).
  apply estimate_inv in He1, He2.
  destruct He1 as (d1 & ? & Hn1 & Ha1 & _), He2 as (d2 & ? & Hn2 & Ha2 & _).
  pose proof (cleaned_row_valid _ _ _ _ Hclean (nth_error_In _ _ Hr1) Hn1) as Hv1.
  pose proof (cleaned_row_valid _ _ _ _ Hclean (nth_error_In _ _ Hr2) Hn2) as Hv2.
  assert (Hle : Datetime.leb d1 d2 = true).
  { destruct (clean_Ok _ _ Hclean) as (ds & _ & _ & Hrs).
    pose proof (cleaned_rows_sorted (rows df) ds) as Hs. rewrite <- Hrs in Hs.
    pose proof (Sorted_adjacent _ _ Hs _ _ _ Hr1 Hr2) as H.
    cbv beta in H. now rewrite Hn1, Hn2 in H. }
  rewrite leb_toordinal in Hle by assumption.
  apply add_days_Ok in Ha1, Ha2.
  destruct Ha1 as (_ & Ho1 & Hv1'), Ha2 as (_ & Ho2 & Hv2').
  rewrite leb_toordinal by assumption.
  apply Z.leb_le in Hle. apply Z.leb_le. lia.
Qed.

Lemma estimates_ascending_witness :
  rows fortnight_clean <> [] /\
  Forall2 (fun row e => estimate row = Ok e) (rows fortnight_clean) fortnight_estimates /\
  List.length fortnight_estimates = List.length (rows fortnight_clean) /\
  (forall i e1 e2,
     nth_error fortnight_estimates i = Some e1 ->
     nth_error fortnight_estimates (S i) = Some e2 ->
     Datetime.leb (est_date e1) (est_date e2) = true).
Proof.
  apply (estimates_ascending fortnight_raw fortnight_clean fortnight_estimates); reflexivity.
Defined.

(** X7. The shift can be undone: fourteen days after the date of its
    estimate is the date of the record, for every record of a cleaned
    table that has an estimate. *)
Theorem estimate_date_recoverable (df data : DataFrame) (row : Row) (e : Estimate) :
  clean df = Ok data ->
  In row (rows data) ->
  estimate row = Ok e ->
  exists d0, name row = VDate d0 /\ add_days (est_date e) 14 = Ok d0.
Proof.
  intros Hclean Hin He. apply estimate_inv in He.
  destruct He as (d0 & _ & Hname & Hadd & _).
  pose proof (cleaned_row_valid _ _ _ _ Hclean Hin Hname) as Hv.
  pose proof (toordinal_bounds _ Hv) as Hb.
  apply add_days_Ok in Hadd. destruct Hadd as (_ & Ho & _). unfold delta in Ho.
  exists d0. split; [assumption|]. unfold add_days. cbv zeta. rewrite Ho.
  replace (toordinal d0 + -14 + 14) with (toordinal d0) by lia.
  replace ((0 <? toordinal d0) && (toordinal d0 <=? MAXORDINAL)) with true
    by (symmetry; apply andb_true_iff; rewrite Z.ltb_lt, Z.leb_le; lia).
  now rewrite fromordinal_toordinal.
Qed.

Lemma estimate_date_recoverable_witness :
  exists d0, name scenario_row = VDate d0 /\ add_days (mkdate 2020 3 3) 14 = Ok d0.
Proof.
  apply (estimate_date_recoverable scenario_raw cleaned_scenario scenario_row
           (mkEstimate (mkdate 2020 3 3) (10 / 0.0066) (10 / 0.0138) "Mar 03")).
  - reflexivity.
  - left. reflexivity.
  - reflexivity.
Defined.

(** X8. The label of an estimate is the label of the shifted date, which is
    always a date of the calendar: the label names its month and its day. *)
Theorem estimate_day_label (row : Row) (e : Estimate) :
  estimate row = Ok e ->
  valid (est_date e) = true /\
  est_day e = (month_abbr (month (est_date e)) ++ " " ++ pad2 (day (est_date e)))%string /\
  label_month_day (est_day e) = Some (month (est_date e), day (est_date e)).
Proof.
  intros He. apply estimate_inv in He.
  destruct He as (d0 & _ & _ & Hadd & _ & _ & _ & Hday).
  apply add_days_Ok in Hadd. destruct Hadd as (_ & _ & Hv).
  split; [assumption|]. split; [assumption|].
  rewrite Hday. now apply label_round_trip.
Qed.

Lemma estimate_day_label_witness :
  valid (mkdate 2020 3 3) = true /\
  "Mar 03" = (month_abbr 3 ++ " " ++ pad2 3)%string /\
  label_month_day "Mar 03" = Some (3, 3).
Proof.
  apply (estimate_day_label scenario_row
           (mkEstimate (mkdate 2020 3 3) (10 / 0.0066) (10 / 0.0138) "Mar 03")).
  reflexivity.
Defined.

(** X9. What the estimator does with a record of a cleaned table, case by
    case: it returns for an integer death count from 15 January of year 1
    on; it raises OverflowError before that date, whatever the cells;
    AttributeError when the record has no death cell; TypeError when the
    death cell is not a number. *)
Theorem estimate_cases (df data : DataFrame) (row : Row) :
  clean df = Ok data ->
  In row (rows data) ->
  exists d0, name row = VDate d0 /\
    ((exists e, estimate row = Ok e) <->
     14 < toordinal d0 /\ exists n, get "death" (cells row) = Some (VInt n)) /\
    (estimate row = Raise OverflowError <-> toordinal d0 <= 14) /\
    (estimate row = Raise AttributeError <->
     14 < toordinal d0 /\ get "death" (cells row) = None) /\
    (estimate row = Raise TypeError <->
     14 < toordinal d0 /\
     exists v, get "death" (cells row) = Some v /\ forall n, v <> VInt n).
Proof.
  intros Hclean Hin.
  destruct (clean_Ok _ _ Hclean) as (ds & _ & _ & Hrows).
  assert (Hd : exists d0, name row = VDate d0).
  { rewrite Hrows in Hin. apply cleaned_rows_In in Hin.
    destruct Hin as (r & d & _ & ->). rewrite name_indexed_dated. eauto. }
  destruct Hd as (d0 & Hname). exists d0. split; [assumption|].
  pose proof (cleaned_row_valid _ _ _ _ Hclean Hin Hname) as Hv.
  assert (Hnull : get "death" (cells row) <> Some VNull).
  { pose proof Hin as Hin'. rewrite Hrows in Hin'. apply cleaned_rows_In in Hin'.
    destruct Hin' as (r & d & _ & ->).
    rewrite get_indexed_dated by discriminate.
    destruct (get "death" (cells r)) as [[]|]; discriminate. }
  assert (Hcases :
    forall r : result Estimate,
      (14 < toordinal d0 ->
       r = match get "death" (cells row) with
           | Some (VInt n) =>
               Ok (mkEstimate (fromordinal (toordinal d0 - 14))
                     (float_of_Z n / death_rate) (float_of_Z n / death_rate_s)
                     (strftime_b_d (fromordinal (toordinal d0 - 14))))
           | Some _ => Raise TypeError
           | None => Raise AttributeError
           end) ->
      (toordinal d0 <= 14 -> r = Raise OverflowError) ->
      ((exists e, r = Ok e) <->
       14 < toordinal d0 /\ exists n, get "death" (cells row) = Some (VInt n)) /\
      (r = Raise OverflowError <-> toordinal d0 <= 14) /\
      (r = Raise AttributeError <->
       14 < toordinal d0 /\ get "death" (cells row) = None) /\
      (r = Raise TypeError <->
       14 < toordinal d0 /\
       exists v, get "death" (cells row) = Some v /\ forall n, v <> VInt n)).
  { intros r Hhi Hlo. destruct (Z_lt_le_dec 14 (toordinal d0)) as [H14|H14].
    - specialize (Hhi H14). clear Hlo.
      destruct (get "death" (cells row)) as [[|n|s|d]|]; [contradiction| | | |]; subst r;
        repeat split; intros;
        repeat match goal with
               | H : _ /\ _ |- _ => destruct H
               | H : exists _, _ |- _ => destruct H
               end;
        try discriminate; try lia; try assumption; eauto;
        try (eexists; split; [reflexivity|discriminate]);
        match goal with
        | H : Some (VInt ?n) = Some ?v, H' : forall n : Z, ?v <> VInt n |- _ =>
            injection H as <-; now elim (H' n)
        end.
    - specialize (Hlo H14). clear Hhi. subst r.
      repeat split; intros;
        repeat match goal with
               | H : _ /\ _ |- _ => destruct H
               | H : exists _, _ |- _ => destruct H
               end;
        try discriminate; try lia; try assumption. }
  apply Hcases.
  - intros H14. unfold estimate, getattr_row. rewrite Hname. cbn [date_of bind].
    rewrite (add_days_back d0 Hv H14). cbn [bind].
    destruct (get "death" (cells row)) as [[|n|s|d]|]; try reflexivity. contradiction.
  - intros H14. unfold estimate. rewrite Hname. cbn [date_of bind].
    now rewrite (add_days_overflow d0 H14).
Qed.

Lemma estimate_cases_witness :
  exists d0, name scenario_row = VDate d0 /\
    ((exists e, estimate scenario_row = Ok e) <->
     14 < toordinal d0 /\ exists n, get "death" (cells scenario_row) = Some (VInt n)) /\
    (estimate scenario_row = Raise OverflowError <-> toordinal d0 <= 14) /\
    (estimate scenario_row = Raise AttributeError <->
     14 < toordinal d0 /\ get "death" (cells scenario_row) = None) /\
    (estimate scenario_row = Raise TypeError <->
     14 < toordinal d0 /\
     exists v, get "death" (cells scenario_row) = Some v /\ forall n, v <> VInt n).
Proof.
  apply (estimate_cases scenario_raw cleaned_scenario scenario_row).
  - reflexivity.
  - left. reflexivity.
Defined.

(** *** Dates written as integers *)

(** A decimal numeral of a positive number does not start with 0. *)
Lemma to_uint_head p : forall u, Pos.to_uint p <> Decimal.D0 u.
Proof.
  intros u Hu.
  assert (Hnorm : Decimal.unorm (Pos.to_uint p) = Pos.to_uint p).
  { change (Pos.to_uint p) with (N.to_uint (Npos p)) at 2.
    rewrite <- (DecimalPos.Unsigned.of_to p).
    change (Pos.of_uint (Pos.to_uint p)) with (N.of_uint (Pos.to_uint p)).
    now rewrite DecimalN.Unsigned.to_of. }
  rewrite Hu in Hnorm.
  change (Decimal.unorm (Decimal.D0 u)) with (Decimal.unorm u) in Hnorm.
  assert (Hnil : u <> Decimal.Nil).
  { intros ->. now apply (DecimalPos.Unsigned.to_uint_nonzero p). }
  pose proof (DecimalFacts.nb_digits_unorm u Hnil) as H.
  rewrite Hnorm in H. cbn [Decimal.nb_digits] in H. lia.
Qed.

(** [str(z)] for an integer of more than one character that starts with a
    digit: the digit is not 0. *)
Lemma str_of_Z_head z a rest :
  str_of_Z z = String a rest -> rest <> "" -> is_digit a = true -> 1 <= digit_val a.
Proof.
  unfold str_of_Z. destruct z as [|p|p]; cbn [Z.to_int NilZero.string_of_int].
  - intros [= <- <-] H. now elim H.
  - intros Hs _ _. pose proof (to_uint_head p) as Hh.
    pose proof (DecimalPos.Unsigned.to_uint_nonnil p) as Hn.
    destruct (Pos.to_uint p) as [|u|u|u|u|u|u|u|u|u|u];
      [now elim Hn | now elim (Hh u) | | | | | | | | |];
      cbn in Hs; injection Hs as <- _; vm_compute; discriminate.
  - intros [= <- _] _ H. discriminate H.
Qed.

(** A date that was an integer in the feed has a year of four digits. *)
Lemma row_date_of_int r z d :
  cell "date" r = VInt z -> row_date r = Ok d -> 1000 <= year d <= 9999.
Proof.
  unfold row_date. intros -> H. pose proof (strptime_valid _ _ H) as Hv.
  apply valid_fields in Hv. destruct Hv as (Hy & _). unfold MAXYEAR in Hy.
  split; [|lia]. revert H. cbn [astype_str]. unfold strptime_Ymd, match_Y.
  destruct (str_of_Z z) as [|a [|b [|c [|d0 rest]]]] eqn:Hs; try discriminate.
  destruct (is_digit a) eqn:Ha; [|discriminate].
  destruct (is_digit b) eqn:Hb; [|discriminate].
  destruct (is_digit c) eqn:Hc; [|discriminate].
  destruct (is_digit d0) eqn:Hd; [|discriminate]. cbn [andb].
  pose proof (str_of_Z_head z a _ Hs ltac:(discriminate) Ha) as H1.
  assert (Hdig : forall x, is_digit x = true -> 0 <= digit_val x).
  { intros x Hx. unfold is_digit in Hx. apply andb_true_iff in Hx.
    destruct Hx as (Hx & _). apply N.leb_le in Hx. unfold digit_val. lia. }
  pose proof (Hdig b Hb). pose proof (Hdig c Hc). pose proof (Hdig d0 Hd).
  destruct (match_md rest) as [|[[m dd] [|? ?]] l]; try discriminate.
  unfold new_date. destruct (valid _); [|discriminate].
  intros Heq.
  match type of Heq with
  | Ok ?x = _ => assert (Hyr : x = d) by congruence
  end.
  rewrite <- Hyr. cbn [year]. lia.
Qed.

Lemma toordinal_year d : valid d = true -> 2 <= year d -> 14 < toordinal d.
Proof.
  intros Hv Hy. apply valid_fields in Hv. destruct Hv as (_ & Hm & Hd).
  pose proof (within_year _ _ _ Hm Hd) as Hw.
  pose proof (days_before_year_mono 2 (year d) Hy) as H2.
  change (days_before_year 2) with 365 in H2.
  unfold toordinal, ymd2ord. lia.
Qed.

(** X10. On a feed of at least one record that writes its dates as
    integers, as the feed of the notebook does, and that gives every record
    a death count or a null, the estimator is defined on every record of the
    cleaned table: the years have four digits, so no date is too early to
    shift. *)
Theorem estimates_defined_on_integer_dates (df data : DataFrame) :
  rows df <> [] ->
  (forall r, In r (rows df) -> exists z, cell "date" r = VInt z) ->
  (forall r, In r (rows df) ->
     get "death" (cells r) = Some VNull \/ exists n, get "death" (cells r) = Some (VInt n)) ->
  clean df = Ok data ->
  Forall (fun row => exists d0, name row = VDate d0 /\ 1000 <= year d0 <= 9999) (rows data) /\
  exists es,
    estimates data = Ok es /\
    Forall2 (fun row e => estimate row = Ok e) (rows data) es /\
    List.length es = List.length (rows df).
Proof.
  intros Hne Hint Hdeath Hclean.
  destruct (clean_Ok _ _ Hclean) as (ds & Hds & Hcols & Hrows).
  assert (Hrow : forall row, In row (rows data) ->
            exists d0 n, name row = VDate d0 /\ 1000 <= year d0 <= 9999 /\
                         valid d0 = true /\ get "death" (cells row) = Some (VInt n)).
  { intros row Hin. rewrite Hrows in Hin. apply cleaned_rows_In in Hin.
    destruct Hin as (r & d & Hrd & ->).
    pose proof (Forall2_combine_In _ _ _ Hds _ _ Hrd) as Hd. cbv beta in Hd.
    assert (Hr : In r (rows df)) by (eapply in_combine_l; eassumption).
    destruct (Hint r Hr) as (z & Hz).
    pose proof (row_date_of_int _ _ _ Hz Hd) as Hy.
    assert (Hg : exists n, get "death" (cells (indexed (dated r d))) = Some (VInt n)).
    { rewrite get_indexed_dated by discriminate.
      destruct (Hdeath r Hr) as [-> | (n & ->)]; cbn; eauto. }
    destruct Hg as (n & Hg). exists d, n. rewrite name_indexed_dated.
    repeat split; try assumption; try lia. eapply strptime_valid. exact Hd. }
  assert (Hlen : List.length (rows data) = List.length (rows df)).
  { rewrite Hrows, (Permutation_length (cleaned_rows_Permutation _ _)).
    rewrite length_map, length_combine. apply Forall2_length in Hds. lia. }
  split.
  - apply Forall_forall. intros row Hin.
    destruct (Hrow row Hin) as (d0 & n & Hn & Hy & _). eauto.
  - destruct (mapM_Ok_all estimate (rows data)) as (es & Hes).
    + intros row Hin. destruct (Hrow row Hin) as (d0 & n & Hn & Hy & Hv & Hg).
      eexists. apply (estimate_Ok row d0 n Hn Hv); [|exact Hg].
      apply toordinal_year; [assumption | lia].
    + exists es. split; [|split].
      * unfold estimates.
        assert (Hday : mem "day" (columns data) = true)
          by (rewrite Hcols, mem_cleaned_columns; reflexivity).
        destruct (rows data) as [|r l].
        { destruct (rows df); [now elim Hne | discriminate Hlen]. }
        destruct (columns data); [discriminate Hday | exact Hes].
      * now apply mapM_Forall2.
      * now rewrite <- (mapM_length _ _ _ Hes).
Qed.

Lemma estimates_defined_on_integer_dates_witness :
  Forall (fun row => exists d0, name row = VDate d0 /\ 1000 <= year d0 <= 9999)
    (rows fortnight_clean) /\
  exists es,
    estimates fortnight_clean = Ok es /\
    Forall2 (fun row e => estimate row = Ok e) (rows fortnight_clean) es /\
    List.length es = List.length (rows fortnight_raw).
Proof.
  apply (estimates_defined_on_integer_dates fortnight_raw fortnight_clean).
  - discriminate.
  - intros r [<-|[<-|[]]]; eexists; reflexivity.
  - intros r [<-|[<-|[]]]; right; eexists; reflexivity.
  - reflexivity.
Defined.

(** X11. A record with no death count gets estimates of zero: the null is
    filled with 0 before the estimator divides. *)
Theorem null_death_zero_estimates (df data : DataFrame) (r : Row) (d : date) :
  clean df = Ok data ->
  In r (rows df) ->
  get "death" (cells r) = Some VNull ->
  row_date r = Ok d ->
  14 < toordinal d ->
  exists row e,
    In row (rows data) /\ name row = VDate d /\ estimate row = Ok e /\
    infected e = 0%float /\ symptomatic e = 0%float.
Proof.
  intros Hclean Hin Hnull Hd H14.
  destruct (clean_Ok _ _ Hclean) as (ds & Hds & _ & Hrows).
  destruct (Forall2_In_l _ _ _ Hds _ Hin) as (d' & Hrd).
  pose proof (Forall2_combine_In _ _ _ Hds _ _ Hrd) as Hd'. cbv beta in Hd'.
  assert (d' = d) by congruence. subst d'.
  exists (indexed (dated r d)).
  assert (Hg : get "death" (cells (indexed (dated r d))) = Some (VInt 0)).
  { rewrite get_indexed_dated by discriminate. now rewrite Hnull. }
  eexists. split; [|split; [|split]].
  - rewrite Hrows. apply cleaned_rows_In. eauto.
  - apply name_indexed_dated.
  - apply (estimate_Ok _ d 0 (name_indexed_dated r d)); try assumption.
    eapply strptime_valid. exact Hd.
  - split; reflexivity.
Qed.

Lemma null_death_zero_estimates_witness :
  exists row e,
    In row (rows (mkFrame ["positive"; "death"; "day"] [null_death_row])) /\
    name row = VDate (mkdate 2020 3 17) /\ estimate row = Ok e /\
    infected e = 0%float /\ symptomatic e = 0%float.
Proof.
  apply (null_death_zero_estimates null_death_raw
           (mkFrame ["positive"; "death"; "day"] [null_death_row])
           (mkRow (VInt 0) (raw_row (VInt 20200317) (VInt 100) VNull))
           (mkdate 2020 3 17)).
  - reflexivity.
  - left. reflexivity.
  - reflexivity.
  - reflexivity.
  - vm_compute. reflexivity.
Defined.

(** ** More on the differencing *)

Lemma keys_sub_by_position : forall a b,
  keys a = keys b -> keys (sub_by_position a b) = keys a.
Proof.
  induction a as [|[k x] a IH]; intros [|[k' y] b] H; try discriminate; [reflexivity|].
  cbn in H. injection H as <- H. cbn. f_equal. now apply IH.
Qed.

Lemma aligned_In k xs ys :
  xs <> [] \/ ys <> [] -> exists v, In (k, v) (aligned k xs ys).
Proof.
  destruct xs as [|x xs], ys as [|y ys]; cbn; intros [H|H]; try (now elim H); eauto.
Qed.

(** X12. The difference is indexed by the union of the two indexes: by
    every date of either series, and by no other date. *)
Theorem series_sub_keys (a b : Series) (d : date) :
  In d (keys (series_sub a b)) <-> In d (keys a) \/ In d (keys b).
Proof.
  unfold series_sub. destruct (keys_equal (keys a) (keys b)) eqn:Hk.
  - apply keys_equal_eq in Hk. rewrite keys_sub_by_position by assumption.
    rewrite <- Hk. tauto.
  - rewrite <- union_keys_In. split.
    + unfold keys at 1. rewrite in_map_iff. intros ([d' v] & <- & Hin).
      apply in_flat_map in Hin. destruct Hin as (k & Hk' & Hin).
      assert (d' = k).
      { apply (keys_aligned k (at_key k a) (at_key k b)).
        unfold keys. apply in_map_iff. now exists (d', v). }
      now subst.
    + intros Hin. destruct (aligned_In d (at_key d a) (at_key d b)) as (v & Hv).
      { apply union_keys_In in Hin. destruct Hin as [Hin|Hin].
        - left. destruct (at_key_cons _ _ Hin) as (x & xs & ->). discriminate.
        - right. destruct (at_key_cons _ _ Hin) as (x & xs & ->). discriminate. }
      unfold keys. apply in_map_iff. exists (d, v). split; [reflexivity|].
      apply in_flat_map. eauto.
Qed.

(** *** The two series of the notebook *)

Lemma Forall2_In_r {A B} (P : A -> B -> Prop) l l' :
  Forall2 P l l' -> forall b, In b l' -> exists a, In a l /\ P a b.
Proof.
  induction 1 as [|x y l l' Hxy _ IH]; cbn; intros b Hin; [contradiction|].
  destruct Hin as [<-|Hin]; [eauto|].
  destruct (IH b Hin) as (a & Ha & Hab). eauto.
Qed.

Lemma positive_series_Forall2 data pos :
  positive_series data = Ok pos ->
  Forall2 (fun r kv => name r = VDate (fst kv) /\ to_float (cell "positive" r) = Ok (snd kv))
    (rows data) pos.
Proof.
  unfold positive_series. destruct (mem "positive" (columns data)); [|discriminate].
  intros H. apply mapM_Forall2 in H.
  eapply Forall2_impl; [|exact H]. cbv beta. intros r [d x].
  unfold date_of. destruct (name r) as [| | |d']; try discriminate. cbn [bind].
  destruct (to_float (cell "positive" r)); [|discriminate]. cbn [bind].
  intros [= <- <-]. auto.
Qed.

Lemma infected_series_Forall2 (l : list Row) es :
  mapM estimate l = Ok es ->
  Forall2 (fun r kv => exists e, estimate r = Ok e /\ kv = (est_date e, infected e))
    l (infected_series es).
Proof.
  intros H. apply mapM_Forall2 in H.
  unfold infected_series. induction H as [|r e l es Hre _ IH]; cbn; constructor; eauto.
Qed.

(** The dates of the two series meet only where two records are a
    fortnight apart. *)
Lemma common_date data es pos d :
  mapM estimate (rows data) = Ok es -> positive_series data = Ok pos ->
  (forall r, In r (rows data) -> forall d0, name r = VDate d0 -> valid d0 = true) ->
  In d (keys (infected_series es)) -> In d (keys pos) ->
  exists r1 r2 d2,
    In r1 (rows data) /\ In r2 (rows data) /\ name r1 = VDate d /\ name r2 = VDate d2 /\
    toordinal d2 = toordinal d + 14.
Proof.
  intros Hes Hpos Hvalid Hin1 Hin2.
  unfold keys in Hin1, Hin2. apply in_map_iff in Hin1, Hin2.
  destruct Hin1 as ([k1 x] & Hk1 & Hin1), Hin2 as ([k2 y] & Hk2 & Hin2).
  cbn [fst] in Hk1, Hk2. subst k1 k2.
  destruct (Forall2_In_r _ _ _ (infected_series_Forall2 _ _ Hes) _ Hin1)
    as (r2 & Hr2 & e & He & Heq).
  destruct (Forall2_In_r _ _ _ (positive_series_Forall2 _ _ Hpos) _ Hin2)
    as (r1 & Hr1 & Hn1 & _).
  cbn [fst] in Hn1. injection Heq as Hd _.
  apply estimate_inv in He. destruct He as (d2 & _ & Hn2 & Hadd & _).
  apply add_days_Ok in Hadd. destruct Hadd as (_ & Ho & _). unfold delta in Ho.
  exists r1, r2, d2. repeat split; try assumption. rewrite Hd. lia.
Qed.

(** Two series that share no date: every value of their difference is NaN. *)
Lemma sub_date_stamp_nan a b :
  (forall d, In d (keys a) -> In d (keys b) -> False) ->
  Forall (fun kv => snd kv = nan) (sub_date_stamp a b).
Proof.
  intros Hdisj. apply Forall_forall. intros [l v] Hin. cbn [snd].
  unfold sub_date_stamp in Hin.
  destruct (forallb in_ns (keys b) && forallb in_ns (keys a)).
  - apply in_map_iff in Hin. destruct Hin as ([d v'] & [= _ <-] & Hin). cbn [snd].
    assert (Hd : In d (keys (series_sub a b))).
    { unfold keys. apply in_map_iff. now exists (d, v'). }
    assert (Hone : (In d (keys a) /\ ~ In d (keys b)) \/ (~ In d (keys a) /\ In d (keys b))).
    { unfold series_sub in Hd. destruct (keys_equal (keys a) (keys b)) eqn:Hk.
      - apply keys_equal_eq in Hk. rewrite keys_sub_by_position in Hd by assumption.
        exfalso. apply (Hdisj d Hd). now rewrite <- Hk.
      - unfold keys in Hd at 1. apply in_map_iff in Hd.
        destruct Hd as ([d' w] & Hd' & Hd). cbn [fst] in Hd'. subst d'.
        apply in_flat_map in Hd. destruct Hd as (k & Hk' & Hd).
        assert (d = k).
        { apply (keys_aligned k (at_key k a) (at_key k b)).
          unfold keys. apply in_map_iff. now exists (d, w). }
        subst k. apply union_keys_In in Hk'. destruct Hk' as [Ha|Hb].
        + left. split; [assumption|]. intros Hb. exact (Hdisj d Ha Hb).
        + right. split; [|assumption]. intros Ha. exact (Hdisj d Ha Hb). }
    now apply (proj2 (series_sub_one_side a b d Hone)).
  - apply in_app_or in Hin. destruct Hin as [Hin|Hin];
      apply in_map_iff in Hin; destruct Hin as (kv & [= _ <-] & _).
    + apply sub_nan_r.
    + apply sub_nan_l.
Qed.

(** X13. Unless some two records are exactly fourteen days apart, the
    estimated and the reported series share no date, and every value of
    their difference is NaN. *)
Theorem diff_nan_without_fortnight (df data : DataFrame) (s : Labelled) :
  clean df = Ok data ->
  diff data = Ok s ->
  (forall r1 r2 d1 d2, In r1 (rows data) -> In r2 (rows data) ->
     name r1 = VDate d1 -> name r2 = VDate d2 -> toordinal d2 <> toordinal d1 + 14) ->
  Forall (fun kv => snd kv = nan) s.
Proof.
  intros Hclean Hdiff Hno.
  destruct (diff_cleaned_inv _ _ _ Hclean Hdiff) as (es & pos & Hes & Hpos & ->).
  destruct (estimates_cleaned _ _ _ Hclean Hes) as (_ & Hmap).
  apply sub_date_stamp_nan. intros d H1 H2.
  destruct (common_date data es pos d Hmap Hpos) as (r1 & r2 & d2 & ? & ? & ? & ? & ?);
    try assumption.
  - intros r Hr d0. now apply (cleaned_row_valid df data).
  - now apply (Hno r1 r2 d d2).
Qed.

Lemma diff_nan_without_fortnight_witness :
  Forall (fun kv => snd kv = nan)
    [(Stamp (mkdate 2020 3 1), nan); (Stamp (mkdate 2020 3 3), nan);
     (Stamp (mkdate 2020 3 15), nan); (Stamp (mkdate 2020 3 17), nan)].
Proof.
  apply (diff_nan_without_fortnight two_days_raw two_days_clean).
  - reflexivity.
  - reflexivity.
  - intros r1 r2 d1 d2 [<-|[<-|[]]] [<-|[<-|[]]] [= <-] [= <-]; vm_compute; discriminate.
Defined.

Lemma lookup_NoDup d x s : NoDup (keys s) -> In (d, x) s -> lookup d s = Some x.
Proof.
  induction s as [|[k y] s IH]; cbn; [contradiction|].
  intros Hn Hin. inversion Hn as [|? ? Hk Hn']; subst.
  destruct Hin as [[= -> ->]|Hin].
  - now rewrite date_eqb_refl.
  - destruct (Datetime.eqb k d) eqn:Hkd; [|auto].
    apply date_eqb_eq in Hkd. subst k. exfalso. apply Hk.
    unfold keys. apply in_map_iff. now exists (d, x).
Qed.

Lemma Forall2_NoDup {A B C D} (R : A -> B -> Prop) (f : A -> C) (g : B -> D) l l' :
  Forall2 R l l' ->
  (forall a a' b b', In a l -> In a' l -> R a b -> R a' b' -> g b = g b' -> f a = f a') ->
  NoDup (map f l) -> NoDup (map g l').
Proof.
  induction 1 as [|x y l l' Hxy Hall IH]; cbn; intros Hfg Hn; [constructor|].
  inversion Hn as [|? ? Hx Hn']; subst. constructor.
  - intros Hy. apply in_map_iff in Hy. destruct Hy as (b & Hb & Hin).
    destruct (Forall2_In_r _ _ _ Hall _ Hin) as (a & Ha & Hab).
    apply Hx. apply in_map_iff. exists a. split; [|assumption].
    apply (Hfg a x b y); auto.
  - apply IH; [|assumption]. intros a a' b b' Ha Ha'. apply Hfg; auto.
Qed.

Lemma Forall2_In_both {A B} (P : A -> B -> Prop) l l' :
  Forall2 P l l' -> forall a, In a l -> exists b, In b l' /\ P a b.
Proof.
  induction 1 as [|x y l l' Hxy _ IH]; cbn; intros a Hin; [contradiction|].
  destruct Hin as [<-|Hin]; [eauto|].
  destruct (IH a Hin) as (b & Hb & Hab). eauto.
Qed.

(** With distinct dates in the table, both series have distinct dates. *)
Lemma series_NoDup data es pos :
  (forall r, In r (rows data) -> forall d0, name r = VDate d0 -> valid d0 = true) ->
  mapM estimate (rows data) = Ok es -> positive_series data = Ok pos ->
  NoDup (map name (rows data)) ->
  NoDup (keys (infected_series es)) /\ NoDup (keys pos).
Proof.
  intros Hvalid Hes Hpos Hnodup. split.
  - apply (Forall2_NoDup _ name fst _ _ (infected_series_Forall2 _ _ Hes)); [|assumption].
    intros a a' b b' Ha Ha' (e & He & ->) (e' & He' & ->). cbn [fst]. intros Heq.
    apply estimate_inv in He, He'.
    destruct He as (d & _ & Hn & Hadd & _), He' as (d' & _ & Hn' & Hadd' & _).
    apply add_days_Ok in Hadd, Hadd'.
    destruct Hadd as (_ & Ho & _), Hadd' as (_ & Ho' & _).
    rewrite Hn, Hn'. f_equal.
    apply toordinal_inj; [exact (Hvalid a Ha d Hn) | exact (Hvalid a' Ha' d' Hn') |].
    rewrite Heq in Ho. lia.
  - apply (Forall2_NoDup _ name fst _ _ (positive_series_Forall2 _ _ Hpos)); [|assumption].
    intros a a' b b' _ _ (Hn & _) (Hn' & _) Heq. now rewrite Hn, Hn', Heq.
Qed.

(** The entry of the estimates under the date a fortnight before a record. *)
Lemma lookup_infected_series data es r2 d1 d2 n :
  (forall r, In r (rows data) -> forall d0, name r = VDate d0 -> valid d0 = true) ->
  mapM estimate (rows data) = Ok es ->
  NoDup (keys (infected_series es)) ->
  valid d1 = true ->
  In r2 (rows data) -> name r2 = VDate d2 -> get "death" (cells r2) = Some (VInt n) ->
  toordinal d2 = toordinal d1 + 14 ->
  lookup d1 (infected_series es) = Some (float_of_Z n / death_rate)%float.
Proof.
  intros Hvalid Hes Hnd Hv1 Hr2 Hn2 Hd Hord.
  pose proof (Hvalid _ Hr2 _ Hn2) as Hv2.
  pose proof (toordinal_bounds _ Hv1) as Hb1.
  apply lookup_NoDup; [assumption|].
  destruct (Forall2_In_both _ _ _ (infected_series_Forall2 _ _ Hes) _ Hr2)
    as (b & Hb & e & He & ->).
  assert (H14 : 14 < toordinal d2) by lia.
  pose proof (estimate_Ok r2 d2 n Hn2 Hv2 H14 Hd) as He'.
  assert (Hfrom : fromordinal (toordinal d2 - 14) = d1).
  { replace (toordinal d2 - 14) with (toordinal d1) by lia.
    now apply fromordinal_toordinal. }
  rewrite Hfrom in He'.
  assert (Hee : e = mkEstimate d1 (float_of_Z n / death_rate) (float_of_Z n / death_rate_s)
                      (strftime_b_d d1)) by congruence.
  subst e. exact Hb.
Qed.

(** The entry of the reported positives under the date of a record. *)
Lemma lookup_positive_series data pos r1 d1 p :
  positive_series data = Ok pos ->
  NoDup (keys pos) ->
  In r1 (rows data) -> name r1 = VDate d1 -> get "positive" (cells r1) = Some (VInt p) ->
  lookup d1 pos = Some (float_of_Z p).
Proof.
  intros Hpos Hnd Hr1 Hn1 Hp.
  apply lookup_NoDup; [assumption|].
  destruct (Forall2_In_both _ _ _ (positive_series_Forall2 _ _ Hpos) _ Hr1)
    as ([k y] & Hb & Hk & Hf). cbn [fst snd] in Hk, Hf.
  unfold cell in Hf. rewrite Hp in Hf. cbn [to_float] in Hf.
  assert (k = d1) by congruence. assert (y = float_of_Z p) by congruence.
  now subst.
Qed.

(** *** Dates that fit datetime64[ns] *)

Lemma in_ns_years d : 1678 <= year d <= 2261 -> in_ns d = true.
Proof.
  intros Hy. unfold in_ns, Datetime.leb, Datetime.compare. cbn [year month day].
  replace (1677 ?= year d) with Lt by (symmetry; apply Z.compare_lt_iff; lia).
  replace (year d ?= 2262) with Lt by (symmetry; apply Z.compare_lt_iff; lia).
  reflexivity.
Qed.

Lemma in_ns_shift d e :
  valid d = true -> valid e = true -> 1678 <= year d <= 2261 ->
  toordinal e = toordinal d - 14 -> in_ns e = true.
Proof.
  intros Hvd Hve Hy He. unfold in_ns.
  rewrite !leb_toordinal by (assumption || reflexivity). rewrite He.
  pose proof (valid_fields _ Hvd) as (_ & Hm & Hdd).
  pose proof (within_year _ _ _ Hm Hdd) as Hw.
  pose proof (days_before_year_mono 1678 (year d) ltac:(lia)) as Hlo.
  pose proof (days_before_year_mono (year d) 2261 ltac:(lia)) as Hhi.
  assert (Hd : toordinal d = days_before_year (year d) + (days_before_month (year d) (month d) + day d))
    by (unfold toordinal, ymd2ord; lia).
  change (days_before_year 1678) with 612512 in Hlo.
  change (days_before_year 2261) with 825448 in Hhi.
  change (toordinal (mkdate 1677 9 22)) with 612412.
  change (toordinal (mkdate 2262 4 11)) with 825914.
  apply andb_true_iff. rewrite !Z.leb_le.
  destruct (is_leap (year d)); lia.
Qed.

(** On a table of the years 1678 to 2261 the two series are aligned as
    dates. *)
Lemma sub_date_stamp_years data es pos :
  (forall r, In r (rows data) -> forall d0, name r = VDate d0 -> valid d0 = true) ->
  (forall r d, In r (rows data) -> name r = VDate d -> 1678 <= year d <= 2261) ->
  mapM estimate (rows data) = Ok es -> positive_series data = Ok pos ->
  sub_date_stamp (infected_series es) pos
  = map (fun kv => (Stamp (fst kv), snd kv)) (series_sub (infected_series es) pos).
Proof.
  intros Hvalid Hyears Hes Hpos. unfold sub_date_stamp.
  replace (forallb in_ns (keys pos) && forallb in_ns (keys (infected_series es))) with true;
    [reflexivity|].
  symmetry. apply andb_true_iff. split; apply forallb_forall; intros k Hk;
    unfold keys in Hk; apply in_map_iff in Hk; destruct Hk as ([k' v] & Hk' & Hin);
    cbn [fst] in Hk'; subst k'.
  - destruct (Forall2_In_r _ _ _ (positive_series_Forall2 _ _ Hpos) _ Hin)
      as (r & Hr & Hn & _). cbn [fst] in Hn.
    apply in_ns_years. now apply (Hyears r).
  - destruct (Forall2_In_r _ _ _ (infected_series_Forall2 _ _ Hes) _ Hin)
      as (r & Hr & e & He & [= -> _]).
    apply estimate_inv in He. destruct He as (d & _ & Hn & Hadd & _).
    apply add_days_Ok in Hadd. destruct Hadd as (_ & Ho & Hve). unfold delta in Ho.
    apply (in_ns_shift d);
      [exact (Hvalid r Hr d Hn) | assumption | exact (Hyears r d Hr Hn) | lia].
Qed.

(** X14. What the difference holds: on a table of the years 1678 to 2261
    (where every date fits datetime64[ns]) with distinct dates and 64-bit
    counts, under the date of a record, the infections estimated from the
    deaths reported fourteen days later minus the positives reported on that
    date, the counts being rounded to the nearest double. *)
Theorem diff_fortnight_apart
  (df data : DataFrame) (s : Labelled) (r1 r2 : Row) (d1 d2 : date) (p n : Z) :
  clean df = Ok data ->
  diff data = Ok s ->
  NoDup (map name (rows data)) ->
  (forall r d, In r (rows data) -> name r = VDate d -> 1678 <= year d <= 2261) ->
  In r1 (rows data) -> name r1 = VDate d1 -> get "positive" (cells r1) = Some (VInt p) ->
  In r2 (rows data) -> name r2 = VDate d2 -> get "death" (cells r2) = Some (VInt n) ->
  - 2 ^ 63 <= n < 2 ^ 63 -> - 2 ^ 63 <= p < 2 ^ 63 ->
  toordinal d2 = toordinal d1 + 14 ->
  lookup_label (Stamp d1) s = Some (float_of_Z n / 0.0066 - float_of_Z p)%float /\
  Prim2SF (float_of_Z n) = binary_normalize prec emax n 0 false /\
  Prim2SF (float_of_Z p) = binary_normalize prec emax p 0 false.
Proof.
  intros Hclean Hdiff Hnodup Hyears Hr1 Hn1 Hp Hr2 Hn2 Hd Hnb Hpb Hord.
  split; [|split; apply float_of_Z_int64; assumption].
  destruct (diff_cleaned_inv _ _ _ Hclean Hdiff) as (es & pos & Hes & Hpos & ->).
  destruct (estimates_cleaned _ _ _ Hclean Hes) as (_ & Hmap).
  assert (Hvalid : forall r, In r (rows data) -> forall d0, name r = VDate d0 -> valid d0 = true).
  { intros r Hr d0. now apply (cleaned_row_valid df data). }
  destruct (series_NoDup data es pos Hvalid Hmap Hpos Hnodup) as (Hnd1 & Hnd2).
  pose proof (lookup_infected_series data es r2 d1 d2 n Hvalid Hmap Hnd1
                (Hvalid _ Hr1 _ Hn1) Hr2 Hn2 Hd Hord) as Hx.
  pose proof (lookup_positive_series data pos r1 d1 p Hpos Hnd2 Hr1 Hn1 Hp) as Hy.
  rewrite (sub_date_stamp_years data es pos Hvalid Hyears Hmap Hpos).
  rewrite lookup_label_Stamp.
  change 0.0066%float with death_rate.
  now apply lookup_series_sub.
Qed.

Lemma diff_fortnight_apart_witness :
  lookup_label (Stamp (mkdate 2020 3 3))
    (map (fun kv => (Stamp (fst kv), snd kv))
       (series_sub fortnight_infected fortnight_positive))
  = Some (float_of_Z 10 / 0.0066 - float_of_Z 100)%float /\
  Prim2SF (float_of_Z 10) = binary_normalize prec emax 10 0 false /\
  Prim2SF (float_of_Z 100) = binary_normalize prec emax 100 0 false.
Proof.
  apply (diff_fortnight_apart fortnight_raw fortnight_clean
           (map (fun kv => (Stamp (fst kv), snd kv))
              (series_sub fortnight_infected fortnight_positive))
           (mkRow (VDate (mkdate 2020 3 3))
              [("positive", VInt 100); ("death", VInt 1); ("day", VStr "Mar 03")])
           (mkRow (VDate (mkdate 2020 3 17))
              [("positive", VInt 200); ("death", VInt 10); ("day", VStr "Mar 17")])
           (mkdate 2020 3 3) (mkdate 2020 3 17) 100 10).
  - reflexivity.
  - vm_compute. reflexivity.
  - repeat constructor; cbn; intuition discriminate.
  - intros r d [<-|[<-|[]]] [= <-]; cbn; lia.
  - left. reflexivity.
  - reflexivity.
  - reflexivity.
  - right. left. reflexivity.
  - reflexivity.
  - reflexivity.
  - lia.
  - lia.
  - reflexivity.
Defined.

(** *** The index of the difference *)

Lemma insert_key_Sorted d l :
  Sorted (fun a b => Datetime.compare a b = Lt) l ->
  Sorted (fun a b => Datetime.compare a b = Lt) (insert_key d l).
Proof.
  induction 1 as [|k l Hs IH Hh]; cbn [insert_key]; [repeat constructor|].
  destruct (Datetime.compare d k) eqn:Hc.
  - now constructor.
  - constructor; [now constructor | now constructor].
  - constructor; [assumption|].
    destruct l as [|k' l]; cbn [insert_key].
    + constructor. rewrite compare_antisym, Hc. reflexivity.
    + inversion Hh; subst.
      destruct (Datetime.compare d k'); constructor; try assumption.
      rewrite compare_antisym, Hc. reflexivity.
Qed.

Lemma union_keys_Sorted a b :
  Sorted (fun x y => Datetime.compare x y = Lt) (union_keys a b).
Proof.
  unfold union_keys. induction (keys a ++ keys b) as [|k l IH]; cbn; [constructor|].
  now apply insert_key_Sorted.
Qed.

Lemma at_key_NoDup d s :
  NoDup (keys s) -> at_key d s = [] \/ exists x, at_key d s = [x].
Proof.
  unfold at_key. induction s as [|[k y] s IH]; cbn; intros Hn; [auto|].
  inversion Hn as [|? ? Hk Hn']; subst.
  destruct (Datetime.eqb k d) eqn:Hkd; cbn; [|auto].
  right. exists y. f_equal. apply date_eqb_eq in Hkd. subst k.
  apply (at_key_nil d s Hk).
Qed.

Lemma keys_flat_map_single (f : date -> Series) ks :
  (forall k, In k ks -> exists v, f k = [(k, v)]) -> keys (flat_map f ks) = ks.
Proof.
  induction ks as [|k ks IH]; cbn; intros H; [reflexivity|].
  destruct (H k (or_introl eq_refl)) as (v & ->). cbn. f_equal. apply IH. auto.
Qed.

Lemma series_sub_keys_Sorted a b :
  NoDup (keys a) -> NoDup (keys b) -> keys_equal (keys a) (keys b) = false ->
  Sorted (fun x y => Datetime.compare x y = Lt) (keys (series_sub a b)).
Proof.
  intros Ha Hb Hk. unfold series_sub. rewrite Hk.
  rewrite keys_flat_map_single; [apply union_keys_Sorted|].
  intros k Hin. apply union_keys_In in Hin.
  destruct (at_key_NoDup k a Ha) as [Hxa|(x & Hxa)],
           (at_key_NoDup k b Hb) as [Hyb|(y & Hyb)]; rewrite Hxa, Hyb; cbn; eauto.
  exfalso. destruct Hin as [Hin|Hin].
  - destruct (at_key_cons _ _ Hin) as (? & ? & Heq). congruence.
  - destruct (at_key_cons _ _ Hin) as (? & ? & Heq). congruence.
Qed.

(** X15. On a table of the years 1678 to 2261 (where every date fits
    datetime64[ns]) with distinct dates, the difference is indexed by
    timestamps in strictly ascending order of their dates, none of them
    twice. *)
Theorem diff_index_ascending (df data : DataFrame) (s : Labelled) :
  clean df = Ok data ->
  diff data = Ok s ->
  NoDup (map name (rows data)) ->
  (forall r d, In r (rows data) -> name r = VDate d -> 1678 <= year d <= 2261) ->
  Forall (fun kv => fst kv = Stamp (label_date (fst kv))) s /\
  Sorted (fun x y => Datetime.compare x y = Lt) (map (fun kv => label_date (fst kv)) s).
Proof.
  intros Hclean Hdiff Hnodup Hyears.
  destruct (diff_cleaned_inv _ _ _ Hclean Hdiff) as (es & pos & Hes & Hpos & ->).
  destruct (estimates_cleaned _ _ _ Hclean Hes) as (Hrows & Hmap).
  assert (Hvalid : forall r, In r (rows data) -> forall d0, name r = VDate d0 -> valid d0 = true).
  { intros r Hr d0. now apply (cleaned_row_valid df data). }
  destruct (series_NoDup data es pos Hvalid Hmap Hpos Hnodup) as (Hnd1 & Hnd2).
  rewrite (sub_date_stamp_years data es pos Hvalid Hyears Hmap Hpos). split.
  - apply Forall_forall. intros kv Hin. apply in_map_iff in Hin.
    destruct Hin as (kv' & <- & _). reflexivity.
  - rewrite map_map. cbn [fst label_date].
    change (map (fun x => fst x) ?l) with (keys l).
    destruct (keys_equal (keys (infected_series es)) (keys pos)) eqn:Hk.
    + (* equal indexes: never, the estimates being a fortnight earlier *)
      exfalso. apply keys_equal_eq in Hk.
      pose proof (infected_series_Forall2 _ _ Hmap) as Hest.
      pose proof (positive_series_Forall2 _ _ Hpos) as Hrep.
      destruct (rows data) as [|r l]; [now elim Hrows|].
      remember (infected_series es) as est eqn:Heq. clear Heq.
      inversion Hest as [|? kv ? s1 (e & He & Hkv) _]; subst.
      inversion Hrep as [|? [k y] ? s2 (Hn & _) _]; subst.
      cbn in Hk. injection Hk as Hk _. cbn [fst] in Hn.
      apply estimate_inv in He. destruct He as (d & _ & Hn' & Hadd & _).
      apply add_days_Ok in Hadd. destruct Hadd as (_ & Ho & _). unfold delta in Ho.
      assert (d = k) by congruence. subst d. rewrite Hk in Ho. lia.
    + now apply series_sub_keys_Sorted.
Qed.

Lemma diff_index_ascending_witness :
  Forall (fun kv => fst kv = Stamp (label_date (fst kv)))
    (map (fun kv => (Stamp (fst kv), snd kv))
       (series_sub fortnight_infected fortnight_positive)) /\
  Sorted (fun x y => Datetime.compare x y = Lt)
    (map (fun kv => label_date (fst kv))
       (map (fun kv => (Stamp (fst kv), snd kv))
          (series_sub fortnight_infected fortnight_positive))).
Proof.
  apply (diff_index_ascending fortnight_raw fortnight_clean).
  - reflexivity.
  - vm_compute. reflexivity.
  - repeat constructor; cbn; intuition discriminate.
  - intros r d [<-|[<-|[]]] [= <-]; cbn; lia.
Defined.

(** ** The estimates as numbers *)

(** A rounding that stays within the exponents of the format gives a zero
    or a finite double of the sign it was given. *)
Lemma binary_round_aux_finite s m e l :
  0 <= m -> -1021 <= e ->
  e + Z.max 0 (Zdigits2 m - 53) + Z.max 0 (Zdigits2 m - 52) <= 971 ->
  binary_round_aux prec emax s m e l = S754_zero s \/
  exists m' e', binary_round_aux prec emax s m e l = S754_finite s m' e'.
Proof.
  intros Hm He Hle. unfold binary_round_aux, shr_fexp. rewrite !fexp_eq.
  pose proof (Zdigits2_nonneg m) as Hd.
  replace (Z.max (Zdigits2 m + e - 53) (-1074) - e) with (Zdigits2 m - 53) by lia.
  pose proof (shr_exponent_le (shr_record_of_loc m l) e (Zdigits2 m - 53)) as H1.
  pose proof (shr_exponent_ge (shr_record_of_loc m l) e (Zdigits2 m - 53)) as H1'.
  pose proof (shr_bound m (shr_record_of_loc m l) e (Zdigits2 m - 53)) as Hb.
  rewrite shr_m_of_loc in Hb. specialize (Hb ltac:(lia)).
  destruct (shr (shr_record_of_loc m l) e (Zdigits2 m - 53)) as [mrs1 e1].
  cbn [fst snd] in *.
  set (m2 := round_nearest_even (shr_m mrs1) (loc_of_shr_record mrs1)).
  pose proof (round_nearest_even_bound (shr_m mrs1) (loc_of_shr_record mrs1) (proj1 Hb)) as Hm2.
  fold m2 in Hm2.
  pose proof (Zdigits2_nonneg m2) as Hd2.
  assert (Hd2' : Zdigits2 m2 <= Zdigits2 m + 1).
  { transitivity (Zdigits2 (m + 1)); [apply Zdigits2_le; lia | now apply Zdigits2_succ]. }
  rewrite fexp_eq.
  replace (Z.max (Zdigits2 m2 + e1 - 53) (-1074) - e1) with (Zdigits2 m2 - 53) by lia.
  pose proof (shr_exponent_le (shr_record_of_loc m2 loc_Exact) e1 (Zdigits2 m2 - 53)) as H2.
  pose proof (shr_bound m2 (shr_record_of_loc m2 loc_Exact) e1 (Zdigits2 m2 - 53)) as Hb2.
  rewrite shr_m_of_loc in Hb2. specialize (Hb2 ltac:(lia)).
  destruct (shr (shr_record_of_loc m2 loc_Exact) e1 (Zdigits2 m2 - 53)) as [mrs2 e2].
  cbn [fst snd] in *. destruct (shr_m mrs2) as [|q|q]; [now left| |lia].
  right. replace (e2 <=? emax - prec) with true; [eauto|].
  symmetry. apply Z.leb_le. change (emax - prec) with 971. lia.
Qed.

Lemma Zdigits2_lt_pow2 q k : 0 <= q < 2 ^ k -> 0 <= k -> Zdigits2 q <= k.
Proof.
  intros Hq Hk. destruct q as [|p|p]; [cbn; lia| |lia].
  rewrite Zdigits2_log2.
  pose proof (proj1 (Z.log2_lt_pow2 (Zpos p) k ltac:(lia)) ltac:(lia)). lia.
Qed.

Lemma digits_53_bound m : Zpos (digits2_pos m) = 53 -> Zpos m < 2 ^ 53.
Proof.
  intros H. change (Zpos (digits2_pos m)) with (Zdigits2 (Zpos m)) in H.
  rewrite Zdigits2_log2 in H. apply Z.log2_lt_pow2; lia.
Qed.

(** The quotient of two normal doubles of moderate size is a zero or a
    finite double. *)
Lemma SFdiv_finite mx ex my ey :
  Zpos (digits2_pos mx) = 53 -> Zpos (digits2_pos my) = 53 ->
  -200 <= ex - ey <= 200 ->
  SF64div (S754_finite false mx ex) (S754_finite false my ey) = S754_zero false \/
  exists m e,
    SF64div (S754_finite false mx ex) (S754_finite false my ey) = S754_finite false m e.
Proof.
  intros Hx Hy He. unfold SF64div, SFdiv. cbn [xorb].
  unfold SFdiv_core_binary. cbv zeta. rewrite fexp_eq. cbn [Zdigits2]. rewrite Hx, Hy.
  replace (Z.min (Z.max (53 + ex - (53 + ey) - 53) (-1074)) (ex - ey)) with (ex - ey - 53)
    by lia.
  replace (ex - ey - (ex - ey - 53)) with 53 by lia.
  pose proof (digits_53_bound mx Hx) as Hmx.
  pose proof (Z_div_mod (Z.shiftl (Zpos mx) 53) (Zpos my) ltac:(lia)) as Hdiv.
  rewrite Z.shiftl_mul_pow2 in * by lia.
  destruct (Z.div_eucl (Zpos mx * 2 ^ 53) (Zpos my)) as [q r].
  destruct Hdiv as (Heq & Hr).
  assert (Hq : 0 <= q <= Zpos mx * 2 ^ 53) by nia.
  assert (Hd : Zdigits2 q <= 106).
  { apply Zdigits2_lt_pow2; [|lia]. change (2 ^ 106) with (2 ^ 53 * 2 ^ 53). nia. }
  pose proof (Zdigits2_nonneg q).
  apply binary_round_aux_finite; lia.
Qed.

(** [float(n)] for a count: a zero or a normal double. *)
Lemma float_of_Z_finite n :
  0 <= n < 2 ^ 62 ->
  Prim2SF (float_of_Z n) = S754_zero false \/
  exists m e, Prim2SF (float_of_Z n) = S754_finite false m e /\
              Zpos (digits2_pos m) = 53 /\ -52 <= e <= 19.
Proof.
  intros Hn. pose proof (float_of_Z_exponent n) as Hexp.
  pose proof (Prim2SF_valid (float_of_Z n)) as Hvalid.
  assert (Hfin : Prim2SF (float_of_Z n) = S754_zero false \/
                 exists m e, Prim2SF (float_of_Z n) = S754_finite false m e).
  { rewrite float_of_Z_spec by lia. destruct n as [|p|p]; [now left| |lia].
    cbn [binary_normalize]. unfold binary_round, shl_align.
    rewrite fexp_eq, Z.add_0_r, Z.sub_0_r.
    assert (Hd : 1 <= Zpos (digits2_pos p) <= 62).
    { split; [lia|]. change (Zpos (digits2_pos p)) with (Zdigits2 (Zpos p)).
      apply Zdigits2_lt_pow2; lia. }
    replace (Z.max (Zpos (digits2_pos p) - 53) (-1074)) with (Zpos (digits2_pos p) - 53)
      by lia.
    destruct (Zpos (digits2_pos p) - 53) as [|k|k] eqn:Hk.
    - apply binary_round_aux_finite; cbn [Zdigits2]; lia.
    - apply binary_round_aux_finite; cbn [Zdigits2]; lia.
    - apply binary_round_aux_finite; cbn [Zdigits2]; try rewrite digits2_pos_iter_xO; lia. }
  destruct Hfin as [H0|(m & e & Hme)]; [now left|right].
  exists m, e. split; [assumption|]. specialize (Hexp false m e Hn Hme).
  rewrite Hme in Hvalid. cbn [valid_binary] in Hvalid.
  unfold bounded, canonical_mantissa in Hvalid.
  apply andb_true_iff in Hvalid. destruct Hvalid as [Hc _].
  apply Z.eqb_eq in Hc. rewrite fexp_eq in Hc. lia.
Qed.

(** A count divided by a rate that is a normal double of moderate size. *)
Lemma div_rate_finite n r mr er :
  Prim2SF r = S754_finite false mr er ->
  Zpos (digits2_pos mr) = 53 -> -100 <= er <= 100 ->
  0 <= n < 2 ^ 62 ->
  Prim2SF (float_of_Z n / r) = S754_zero false \/
  exists m e, Prim2SF (float_of_Z n / r) = S754_finite false m e.
Proof.
  intros Hr Hmr Her Hn. rewrite FloatAxioms.div_spec, Hr.
  destruct (float_of_Z_finite n Hn) as [-> | (m & e & -> & Hm & He)].
  - now left.
  - apply SFdiv_finite; try assumption. lia.
Qed.

(** Read as Python does: [math.isfinite(x)] and [0 <= x]. *)
Lemma finite_nonneg x :
  (Prim2SF x = S754_zero false \/ exists m e, Prim2SF x = S754_finite false m e) ->
  is_finite x = true /\ (0 <=? x)%float = true.
Proof.
  intros H. unfold is_finite, is_nan, is_infinity.
  rewrite !FloatAxioms.eqb_spec, FloatAxioms.leb_spec, FloatAxioms.abs_spec.
  change (Prim2SF 0) with (S754_zero false).
  change (Prim2SF infinity) with (S754_infinity false).
  destruct H as [-> | (m & e & ->)]; [split; reflexivity|].
  unfold SFeqb, SFleb. cbn [SFabs SFcompare].
  rewrite Z.compare_refl. change (PosDef.Pos.compare_cont Eq m m) with (Pos.compare m m).
  rewrite Pos.compare_refl. split; reflexivity.
Qed.

(** X16. Both estimates are numbers one can plot: for a death count from 0
    up (below 2^62) they are finite, not NaN, and not negative. *)
Theorem estimate_finite (row : Row) (n : Z) (e : Estimate) :
  0 <= n < 2 ^ 62 ->
  get "death" (cells row) = Some (VInt n) ->
  estimate row = Ok e ->
  (is_finite (infected e) = true /\ (0 <=? infected e)%float = true) /\
  (is_finite (symptomatic e) = true /\ (0 <=? symptomatic e)%float = true).
Proof.
  intros Hn Hd He. apply estimate_inv in He.
  destruct He as (d0 & dth & _ & _ & Hd' & Hi & Hs & _).
  assert (dth = VInt n) by congruence. subst dth.
  cbn [truediv] in Hi, Hs.
  assert (Hi' : infected e = (float_of_Z n / death_rate)%float) by congruence.
  assert (Hs' : symptomatic e = (float_of_Z n / death_rate_s)%float) by congruence.
  rewrite Hi', Hs'. split; apply finite_nonneg.
  - apply (div_rate_finite n death_rate 7609281930405190 (-60));
      [reflexivity | reflexivity | lia | assumption].
  - apply (div_rate_finite n death_rate_s 7955158381787244 (-59));
      [reflexivity | reflexivity | lia | assumption].
Qed.

Lemma estimate_finite_witness :
  (is_finite (10 / 0.0066) = true /\ (0 <=? 10 / 0.0066)%float = true) /\
  (is_finite (10 / 0.0138) = true /\ (0 <=? 10 / 0.0138)%float = true).
Proof.
  apply (estimate_finite scenario_row 10
           (mkEstimate (mkdate 2020 3 3) (10 / 0.0066) (10 / 0.0138) "Mar 03")).
  - lia.
  - reflexivity.
  - reflexivity.
Defined.

(** ** Dates as text *)

Lemma match_m_length s m rest :
  In (m, rest) (match_m s) ->
  (String.length s = String.length rest + 1 \/ String.length s = String.length rest + 2)%nat.
Proof.
  unfold match_m. destruct s as [|a [|b rest']]; cbn [app].
  - contradiction.
  - destruct (in_range 1 9 a); cbn; [|contradiction].
    intros [[= <- <-]|[]]. left. cbn. lia.
  - rewrite !in_app_iff.
    destruct ((a =? "1")%char && in_range 0 2 b), ((a =? "0")%char && in_range 1 9 b),
      (in_range 1 9 a); cbn;
      intros H; repeat destruct H as [H|H]; try contradiction;
      injection H as <- <-; cbn; lia.
Qed.

Lemma match_d_length s d rest :
  In (d, rest) (match_d s) ->
  (String.length s = String.length rest + 1 \/ String.length s = String.length rest + 2)%nat.
Proof.
  unfold match_d. destruct s as [|a [|b rest']]; cbn [app].
  - contradiction.
  - destruct (in_range 1 9 a); cbn; [|contradiction].
    intros [[= <- <-]|[]]. left. cbn. lia.
  - rewrite !in_app_iff.
    destruct ((a =? "3")%char && in_range 0 1 b), (in_range 1 2 a && is_digit b),
      ((a =? "0")%char && in_range 1 9 b), (in_range 1 9 a),
      ((a =? " ")%char && in_range 1 9 b); cbn;
      intros H; repeat destruct H as [H|H]; try contradiction;
      injection H as <- <-; cbn; lia.
Qed.

(** A text [strptime] accepts for ["%Y%m%d"] has six to eight characters. *)
Lemma strptime_length s d :
  strptime_Ymd s = Ok d -> (6 <= String.length s <= 8)%nat.
Proof.
  unfold strptime_Ymd, match_Y.
  destruct s as [|a [|b [|c [|d0 rest]]]]; try discriminate.
  destruct (is_digit a && is_digit b && is_digit c && is_digit d0); [|discriminate].
  destruct (match_md rest) as [|[[m dd] [|? ?]] l] eqn:Hmd; try discriminate.
  intros _.
  assert (Hin : In (m, dd, EmptyString) (match_md rest)) by (rewrite Hmd; now left).
  unfold match_md in Hin. apply in_flat_map in Hin.
  destruct Hin as ([m' r1] & Hm & Hin). apply in_map_iff in Hin.
  destruct Hin as ([d' r2] & [= -> -> ->] & Hd).
  apply match_m_length in Hm. apply match_d_length in Hd. cbn [String.length] in *. lia.
Qed.

(** X17. A record whose date, read as text, has fewer than six or more
    than eight characters makes the cleaning fail with ValueError.  The
    dates are taken not to be null: how a null reads as text depends on the
    pandas (see [astype_str]). *)
Theorem clean_rejects_date_length (df : DataFrame) (r : Row) :
  mem "hash" (columns df) = true ->
  mem "dateChecked" (columns df) = true ->
  mem "date" (columns df) = true ->
  (forall r', In r' (rows df) -> cell "date" r' <> VNull) ->
  In r (rows df) ->
  (String.length (astype_str (cell "date" r)) < 6 \/
   8 < String.length (astype_str (cell "date" r)))%nat ->
  clean df = Raise ValueError.
Proof.
  intros H1 H2 H3 _ Hin Hlen. rewrite clean_unfold, H1, H2, H3. cbn [andb negb].
  destruct (mapM row_date (rows df)) as [ds|e] eqn:Hds; cbn [bind].
  - exfalso. apply mapM_Forall2 in Hds.
    destruct (Forall2_In_both _ _ _ Hds _ Hin) as (d & _ & Hd).
    apply strptime_length in Hd. lia.
  - now rewrite (mapM_row_date_Raise _ _ Hds).
Qed.

Lemma clean_rejects_date_length_witness : clean year_only_raw = Raise ValueError.
Proof.
  apply (clean_rejects_date_length year_only_raw
           (mkRow (VInt 0) (raw_row (VInt 2020) (VInt 100) (VInt 10)))).
  - reflexivity.
  - reflexivity.
  - reflexivity.
  - intros r' [<-|[]]. discriminate.
  - left. reflexivity.
  - left. cbn. lia.
Defined.

(** ** The labels of the plots *)

(** X18. Within one year the label of a record tells its date: two records
    of a cleaned table dated in the same year with the same ['day'] label
    have the same date. *)
Theorem day_label_identifies_date
  (df data : DataFrame) (r1 r2 : Row) (d1 d2 : date) :
  clean df = Ok data ->
  In r1 (rows data) -> In r2 (rows data) ->
  name r1 = VDate d1 -> name r2 = VDate d2 ->
  year d1 = year d2 ->
  get "day" (cells r1) = get "day" (cells r2) ->
  d1 = d2.
Proof.
  intros Hclean Hr1 Hr2 Hn1 Hn2 Hy Hday.
  pose proof (cleaned_row_valid _ _ _ _ Hclean Hr1 Hn1) as Hv1.
  pose proof (cleaned_row_valid _ _ _ _ Hclean Hr2 Hn2) as Hv2.
  destruct (clean_Ok _ _ Hclean) as (ds & _ & _ & Hrows).
  rewrite Hrows in Hr1, Hr2. apply cleaned_rows_In in Hr1, Hr2.
  destruct Hr1 as (x1 & e1 & _ & ->), Hr2 as (x2 & e2 & _ & ->).
  rewrite name_indexed_dated in Hn1, Hn2. injection Hn1 as ->. injection Hn2 as ->.
  rewrite !day_indexed_dated in Hday. injection Hday as Hday.
  pose proof (label_round_trip _ Hv1) as L1. pose proof (label_round_trip _ Hv2) as L2.
  rewrite Hday, L2 in L1. injection L1 as Hm Hd.
  destruct d1, d2. cbn in *. congruence.
Qed.

Lemma day_label_identifies_date_witness : mkdate 2020 3 15 = mkdate 2020 3 15.
Proof.
  apply (day_label_identifies_date two_days_raw two_days_clean
           (mkRow (VDate (mkdate 2020 3 15))
              [("positive", VInt 0); ("death", VInt 3); ("day", VStr "Mar 15")])
           (mkRow (VDate (mkdate 2020 3 15))
              [("positive", VInt 0); ("death", VInt 3); ("day", VStr "Mar 15")])).
  - reflexivity.
  - left. reflexivity.
  - left. reflexivity.
  - reflexivity.
  - reflexivity.
  - reflexivity.
  - reflexivity.
Defined.

(** X19. [data.set_index('day')], which the plots read: on a cleaned table
    it succeeds and relabels every row, in place, with the label of its
    date; the other cells stay, and the date itself is no longer in the
    table. *)
Theorem set_index_day (df data : DataFrame) :
  clean df = Ok data ->
  exists byday,
    set_index "day" data = Ok byday /\
    mem "day" (columns byday) = false /\
    Forall2 (fun r r' => exists d, name r = VDate d /\
                                   name r' = VStr (strftime_b_d d) /\
                                   get "day" (cells r') = None /\
                                   forall k, k <> "day" -> get k (cells r') = get k (cells r))
      (rows data) (rows byday).
Proof.
  intros Hclean. destruct (clean_Ok _ _ Hclean) as (ds & _ & Hcols & Hrows).
  unfold set_index.
  assert (Hday : mem "day" (columns data) = true).
  { rewrite Hcols, mem_cleaned_columns. reflexivity. }
  rewrite Hday. eexists. split; [reflexivity|]. cbn [columns rows]. split.
  - rewrite (mem_filter (fun k => negb (k =? "day")%string)). reflexivity.
  - assert (Hall : forall r, In r (rows data) ->
              exists d, name r = VDate d /\ cell "day" r = VStr (strftime_b_d d)).
    { intros r Hin. rewrite Hrows in Hin. apply cleaned_rows_In in Hin.
      destruct Hin as (x & d & _ & ->). exists d. split; [apply name_indexed_dated|].
      unfold cell. now rewrite day_indexed_dated. }
    revert Hall. generalize (rows data). intros l.
    induction l as [|r l IH]; intros Hall; cbn [map]; constructor.
    + destruct (Hall r (or_introl eq_refl)) as (d & Hn & Hc). exists d.
      cbn [name cells]. split; [assumption|]. split; [assumption|]. split.
      * apply (get_filter_out (fun k => negb (k =? "day")%string)). reflexivity.
      * intros k Hk. apply (get_filter (fun k => negb (k =? "day")%string)).
        apply negb_true_iff. now apply String.eqb_neq.
    + apply IH. intros r' Hr'. apply Hall. now right.
Qed.

Lemma set_index_day_witness :
  exists byday,
    set_index "day" cleaned_scenario = Ok byday /\
    mem "day" (columns byday) = false /\
    Forall2 (fun r r' => exists d, name r = VDate d /\
                                   name r' = VStr (strftime_b_d d) /\
                                   get "day" (cells r') = None /\
                                   forall k, k <> "day" -> get k (cells r') = get k (cells r))
      (rows cleaned_scenario) (rows byday).
Proof. apply (set_index_day scenario_raw cleaned_scenario). reflexivity. Defined.

(** ** The shift and the order of dates *)

(** X20. Shifting two dates by the same number of days keeps their order,
    and it is the order of their day counts. *)
Theorem add_days_order (a b a' b' : date) (k : Z) :
  valid a = true -> valid b = true ->
  add_days a k = Ok a' -> add_days b k = Ok b' ->
  Datetime.compare a' b' = Datetime.compare a b /\
  Datetime.compare a b = (toordinal a ?= toordinal b).
Proof.
  intros Ha Hb Ha' Hb'. apply add_days_Ok in Ha', Hb'.
  destruct Ha' as (_ & Hoa & Hva), Hb' as (_ & Hob & Hvb).
  rewrite !compare_toordinal by assumption. split; [|reflexivity].
  rewrite Hoa, Hob. destruct (Z.compare_spec (toordinal a) (toordinal b)).
  - apply Z.compare_eq_iff. lia.
  - apply Z.compare_lt_iff. lia.
  - apply Z.compare_gt_iff. lia.
Qed.

Lemma add_days_order_witness :
  Datetime.compare (mkdate 2020 2 18) (mkdate 2020 3 3)
  = Datetime.compare (mkdate 2020 3 3) (mkdate 2020 3 17) /\
  Datetime.compare (mkdate 2020 3 3) (mkdate 2020 3 17)
  = (toordinal (mkdate 2020 3 3) ?= toordinal (mkdate 2020 3 17)).
Proof.
  apply (add_days_order (mkdate 2020 3 3) (mkdate 2020 3 17)
           (mkdate 2020 2 18) (mkdate 2020 3 3) (-14)); reflexivity.
Defined.

(** ** The whole notebook on the edges *)

(** X21. A feed with no record at all is cleaned to a table with no row,
    and there the notebook stops: [apply] gives back the empty table, which
    has no ['date'] column to index by, and the estimates raise KeyError; so
    does the difference, which needs them. *)
Theorem empty_feed (cols : list string) :
  mem "hash" cols = true -> mem "dateChecked" cols = true -> mem "date" cols = true ->
  exists data,
    clean (mkFrame cols []) = Ok data /\ rows data = [] /\
    estimates data = Raise KeyError /\ diff data = Raise KeyError.
Proof.
  intros H1 H2 H3. rewrite clean_unfold. cbn [columns rows mapM bind].
  rewrite H1, H2, H3. cbn [andb negb].
  eexists. split; [reflexivity|]. split; [reflexivity|].
  assert (He : estimates (mkFrame (cleaned_columns cols) (cleaned_rows [] []))
               = Raise KeyError).
  { unfold estimates, set_index. cbn [rows columns cleaned_rows combine map fold_right].
    rewrite mem_cleaned_columns.
    change (mem "date" ["hash"; "dateChecked"; "date"]) with true.
    cbn [negb]. rewrite andb_false_r. reflexivity. }
  split; [exact He|]. unfold diff. now rewrite He.
Qed.

Lemma empty_feed_witness :
  exists data,
    clean (mkFrame raw_columns []) = Ok data /\ rows data = [] /\
    estimates data = Raise KeyError /\ diff data = Raise KeyError.
Proof. apply (empty_feed raw_columns); reflexivity. Defined.

(** X22. Without a ['positive'] column in the feed the difference cannot be
    taken: cleaning and the estimates go through, and [data.positive]
    raises AttributeError. *)
Theorem diff_without_positive (df data : DataFrame) (es : list Estimate) :
  clean df = Ok data ->
  estimates data = Ok es ->
  mem "positive" (columns df) = false ->
  diff data = Raise AttributeError.
Proof.
  intros Hclean Hes Hp. destruct (clean_Ok _ _ Hclean) as (ds & _ & Hcols & _).
  destruct (estimates_cleaned _ _ _ Hclean Hes) as (Hrows & _).
  unfold diff, positive_series. rewrite Hes. cbn [bind].
  rewrite (infected_column_rows _ _ Hrows). cbn [bind].
  rewrite Hcols, mem_cleaned_columns, Hp. reflexivity.
Qed.

Lemma diff_without_positive_witness :
  diff (mkFrame ["death"; "day"]
          [mkRow (VDate (mkdate 2020 3 17)) [("death", VInt 10); ("day", VStr "Mar 17")]])
  = Raise AttributeError.
Proof.
  apply (diff_without_positive no_positive_raw
           (mkFrame ["death"; "day"]
              [mkRow (VDate (mkdate 2020 3 17)) [("death", VInt 10); ("day", VStr "Mar 17")]])
           [mkEstimate (mkdate 2020 3 3) (10 / 0.0066) (10 / 0.0138) "Mar 03"]);
    reflexivity.
Defined.

(** ** What the plots put side by side *)

(** X23. On the plots, which are drawn against the labels, the estimate
    made from a record stands under the label of the record fourteen days
    earlier. *)
Theorem plot_labels_align
  (df data : DataFrame) (r1 r2 : Row) (d1 d2 : date) (e : Estimate) :
  clean df = Ok data ->
  In r1 (rows data) -> In r2 (rows data) ->
  name r1 = VDate d1 -> name r2 = VDate d2 ->
  toordinal d2 = toordinal d1 + 14 ->
  estimate r2 = Ok e ->
  est_date e = d1 /\ get "day" (cells r1) = Some (VStr (est_day e)).
Proof.
  intros Hclean Hr1 Hr2 Hn1 Hn2 Hord He.
  pose proof (cleaned_row_valid _ _ _ _ Hclean Hr1 Hn1) as Hv1.
  apply estimate_inv in He.
  destruct He as (d & _ & Hn & Hadd & _ & _ & _ & Hday).
  assert (d = d2) by congruence. subst d.
  apply add_days_Ok in Hadd. destruct Hadd as (Hd & _ & _). unfold delta in Hd.
  replace (toordinal d2 + -14) with (toordinal d1) in Hd by lia.
  rewrite fromordinal_toordinal in Hd by assumption.
  split; [assumption|]. rewrite Hday, Hd.
  destruct (clean_Ok _ _ Hclean) as (ds & _ & _ & Hrows).
  rewrite Hrows in Hr1. apply cleaned_rows_In in Hr1.
  destruct Hr1 as (x & d & _ & ->). rewrite name_indexed_dated in Hn1.
  injection Hn1 as ->. apply day_indexed_dated.
Qed.

Lemma plot_labels_align_witness :
  mkdate 2020 3 3 = mkdate 2020 3 3 /\
  get "day" [("positive", VInt 100); ("death", VInt 1); ("day", VStr "Mar 03")]
  = Some (VStr "Mar 03").
Proof.
  apply (plot_labels_align fortnight_raw fortnight_clean
           (mkRow (VDate (mkdate 2020 3 3))
              [("positive", VInt 100); ("death", VInt 1); ("day", VStr "Mar 03")])
           (mkRow (VDate (mkdate 2020 3 17))
              [("positive", VInt 200); ("death", VInt 10); ("day", VStr "Mar 17")])
           (mkdate 2020 3 3) (mkdate 2020 3 17)
           (mkEstimate (mkdate 2020 3 3) (10 / 0.0066) (10 / 0.0138) "Mar 03")).
  - reflexivity.
  - left. reflexivity.
  - right. left. reflexivity.
  - reflexivity.
  - reflexivity.
  - reflexivity.
  - reflexivity.
Defined.

(** X24. The estimator reads the date and the death count of a record and
    nothing else: whatever is written in another cell, the estimate is the
    same. *)
Theorem estimate_reads_death_only (row : Row) (k : string) (v : value) :
  k <> "death" ->
  estimate (mkRow (name row) (set_cell k v (cells row))) = estimate row.
Proof.
  intros Hk. unfold estimate, getattr_row. cbn [name cells].
  now rewrite (get_set_cell_other k v "death" (cells row) Hk).
Qed.

Lemma estimate_reads_death_only_witness :
  estimate (mkRow (name scenario_row) (set_cell "positive" (VInt 7) (cells scenario_row)))
  = estimate scenario_row.
Proof. apply (estimate_reads_death_only scenario_row "positive" (VInt 7)). discriminate. Defined.
